(** * kayzeye/analysis: bulk viscosity of the unitary Fermi gas and
      heating-rate fits

    A shallow embedding of [bulkvisctrap_class.py], [fit_functions.py] and
    the per-run analysis of [fit_heating_rates.py].

    Number model.  Python and numpy floats are idealised as the real
    numbers of the Standard Library: rounding, [inf] and [nan] are not
    represented, and division is the total division of [R]; a zero
    divisor, on which numpy answers [inf] or [nan] and a Python float
    raises, is outside the model.  [x ** y] with a fractional exponent is
    [Rpower] on a positive base and [0] at base [0]; a negative base, where
    numpy answers [nan], is outside the model and mapped to [0].  The
    routines of scipy ([quad], [root_scalar], [curve_fit]), the two
    barycentric interpolants built by [baryrat] and the helpers imported
    from [library.py] are parameters of the development.

    Exceptions that steer control flow are modelled with the [result]
    monad below. *)

From Stdlib Require Import Reals Lra Psatz ZArith Lia.
From Stdlib Require Import Machin Ranalysis5 ClassicalDescription
  FunctionalExtensionality.
From stdpp Require Import base option list strings gmap.

Local Open Scope R_scope.

(** ** Python-level prelude *)

Module Py.

(** The exception classes the three files can raise or catch. *)
Inductive exn : Set :=
| ZeroDivisionError
| KeyError
| IndexError
| TypeError
| ValueError
| AttributeError
| RuntimeError.

#[global] Instance exn_eq_dec : EqDecision exn.
Proof. solve_decision. Defined.

Inductive result (A : Type) : Type :=
| Ok (a : A)
| Raise (e : exn).
Arguments Ok {A} a.
Arguments Raise {A} e.

#[global] Instance result_ret : MRet result := fun A a => Ok a.
#[global] Instance result_bind : MBind result := fun A B k m =>
  match m with
  | Ok a => k a
  | Raise e => Raise e
  end.

#[global] Instance result_fmap : FMap result := fun A B f m =>
  match m with
  | Ok a => Ok (f a)
  | Raise e => Raise e
  end.

(** [try: c except e: h] for a single exception class. *)
Definition try_except {A} (c : result A) (e : exn) (h : result A) : result A :=
  match c with
  | Ok a => Ok a
  | Raise e' => if decide (e' = e) then h else Raise e'
  end.

(** [x ** y] for a fractional exponent [y > 0]. *)
Definition fpow (x y : R) : R :=
  if Rlt_dec 0 x then Rpower x y else 0.

(** [int(x)]: truncation towards zero. *)
Definition int (x : R) : Z :=
  if Rle_dec 0 x then Int_part x else (- Int_part (- x))%Z.

(** [np.where(c, a, b)] on scalars. *)
Definition where_ {A} (c : bool) (a b : A) : A := if c then a else b.

(** [x < y] as a boolean test. *)
Definition ltb (x y : R) : bool := if Rlt_dec x y then true else false.

(** [np.linspace(start, stop, num)] with the default [endpoint=True]:
    [num] evenly spaced samples, [start + i * (stop - start) / (num - 1)];
    a negative [num] raises [ValueError]. *)
Definition linspace (start stop : R) (num : Z) : result (list R) :=
  if (num <? 0)%Z then Raise ValueError
  else
    let step := (stop - start) / IZR (num - 1) in
    Ok (map (fun i : nat => start + INR i * step) (seq 0 (Z.to_nat num))).

(** Upper integration limit of [quad]: a float or [np.inf]. *)
Inductive limit : Type :=
| finite (x : R)
| inf.

(** [scipy.optimize.RootResults], the two fields [find_betamu] reads. *)
Record RootResults : Type := mkRootResults {
  root : R;
  iterations : nat
}.

End Py.
Export Py.

(** ** bulkvisctrap_class.py *)

Module BulkViscTrapClass.

(** The fitted tables [eosfit] and [sumrulefit] (nodes, values,
    weights). *)
Definition eosfit : list R * list R * list R :=
  ([5.45981500e+01; 3.35462628e-04; 4.48168907e+00; 1.28402542e+00],
   [2.66603452e+01; 3.35574145e-04; 5.63725236e+00; 1.91237718e+00],
   [0.52786226; -0.10489219; -0.69208542; 0.48101646]).

Definition sumrulefit : list R * list R * list R :=
  ([1.22144641e+01; 8.33717634e-03; 3.05244000e+00; 3.48110474e-01],
   [1.46259386e+00; 1.24595501e-04; 5.81003381e-01; 5.49151117e-02],
   [0.33160786; -0.30343046; -0.66528124; 0.59612671]).

Section WithScipy.

(** [eosrat] and [sumrat]: the [BarycentricRational] interpolants built at
    import time from [eosfit] and [sumrulefit]. *)
Variable eosrat : R -> R.
Variable sumrat : R -> R.

(** [quad(f, a, b, epsrel=...)] returns the pair (integral, error
    estimate). *)
Variable quad : (R -> R) -> R -> limit -> R -> R * R.

(** [root_scalar(f, bracket=[a, b], x0=guess)]. *)
Variable root_scalar : (R -> R) -> R * R -> option R -> result RootResults.

(** *** Homogeneous (bulk) gas *)

Definition eos_ufg (betamu : R) : R :=
  let z := exp betamu in
  let f_n := 2 * where_ (ltb betamu (-8)) z (eosrat z) in
  f_n.

Definition zeta (betamu betaomega : R) : R :=
  let z := exp betamu in
  let sumruleT := where_ (ltb betamu (-4.8)) (0.36 * fpow z (5/3)) (sumrat z) in
  let gammaT := 1.739 - 0.0892 * z + 0.00156 * z ^ 2 in
  sumruleT * gammaT / (betaomega ^ 2 + gammaT ^ 2).

Definition phaseshift_arg (betamu betaomega : R) : R :=
  let z := exp betamu in
  let gammaT := 1.739 - 0.0892 * z + 0.00156 * z ^ 2 in
  betaomega * gammaT / (betaomega ^ 2 + gammaT ^ 2).

Definition thermo_bulk (betamu T : R) : R * R * R * R :=
  let f_n := eos_ufg betamu in
  let theta := 4 * PI / fpow (3 * PI ^ 2 * f_n) (2/3) in
  let '(f_p, f_p_err) := quad (fun v => eos_ufg (betamu - v)) 0 inf 1e-4 in
  let Ebulk := (3/2) * f_p * T in
  (f_n, theta, f_p, Ebulk).

Definition heating_bulk (T betamu betaomega : R) : R :=
  let Zbulk := fpow (eos_ufg betamu) (1/3) * zeta betamu betaomega in
  let Edot := 9 * PI * (T * betaomega) ^ 2 / fpow (3 * PI ^ 2) (2/3) * Zbulk in
  Edot.

Definition hbar : R := 1.05e-34.
Definition m : R := 40 * 1.67e-27.

(** Instance attributes of [BulkViscUniform]; the two plot labels
    ([title], [label_uni]) are formatted strings and are left out. *)
Record BulkViscUniform : Type := mkBulkViscUniform {
  bvu_T : R;
  bvu_barnu : R;
  bvu_mubulk : R;
  bvu_A : R;
  bvu_nus : list R;
  bvu_theta : R;
  bvu_Ebulk : R;
  bvu_Edotbulks : list R;
  bvu_zetas : list R;
  bvu_phaseshifts : list R
}.

(** [BulkViscUniform.__init__]; the argument [nu_max] is overwritten
    before its first use. *)
Definition BulkViscUniform_init (T barnu mubulk nu_max : R)
  : result BulkViscUniform :=
  let lambda_T := sqrt (hbar / (m * T)) in
  let a0 := lambda_T in
  let A := lambda_T / a0 in
  let nu_max := 160000 in
  nus ← linspace 0 nu_max (int (nu_max / 1000) + 1);
  let betamubulk := mubulk / T in
  let betaomegas := map (fun nu => nu / T) nus in
  let '(f_n, theta, f_p, Ebulk) := thermo_bulk betamubulk T in
  let Edotbulks :=
    map (fun e => A ^ 2 * e)
        (map (fun betaomega => heating_bulk T betamubulk betaomega) betaomegas) in
  let zetas := map (fun betaomega => zeta betamubulk betaomega) betaomegas in
  let phaseshifts :=
    map (fun betaomega => atan (phaseshift_arg betamubulk betaomega)) betaomegas in
  mret (mkBulkViscUniform T barnu mubulk A nus theta Ebulk
                          Edotbulks zetas phaseshifts).

(** *** Trapped gas *)

Definition weight (v betabaromega : R) : R :=
  2 / (betabaromega ^ 3) * sqrt (v / PI).

Definition number_per_spin (betamu betabaromega : R) : R :=
  let '(N_sigma, Nerr) :=
    quad (fun v => weight v betabaromega * eos_ufg (betamu - v) / 2)
         0 inf 1e-4 in
  N_sigma.

Definition Epot_trap (betamu betabaromega : R) : R :=
  let '(Epot, Eerr) :=
    quad (fun v => weight v betabaromega * eos_ufg (betamu - v) * v)
         0 inf 1e-4 in
  Epot.

Definition thermo_trap (T betamu betabaromega : R) : R * R * R * R :=
  let Ns := number_per_spin betamu betabaromega in
  let EF := T * betabaromega * fpow (6 * Ns) (1/3) in
  let Theta := T / EF in
  let Epot := T * Epot_trap betamu betabaromega in
  (Ns, EF, Theta, Epot).

Definition heating_trap (T betamu betaomega betabaromega : R) : R :=
  let '(Ztrap, Ztraperr) :=
    quad (fun v => weight v betabaromega * fpow (eos_ufg (betamu - v)) (1/3)
                   * zeta (betamu - v) betaomega) 0 inf 1e-4 in
  let Edot := 9 * PI * (T * betaomega) ^ 2 / fpow (3 * PI ^ 2) (2/3) * Ztrap in
  Edot.

Definition phaseshift_arg_trap (betamu betaomega betabaromega : R) : R :=
  let '(argtrap, argtraperr) :=
    quad (fun v => weight v betabaromega * fpow (eos_ufg (betamu - v)) (1/3)
                   * phaseshift_arg (betamu - v) betaomega) 0 inf 1e-4 in
  let '(argtrap_norm, argtraperr_norm) :=
    quad (fun v => weight v betabaromega * fpow (eos_ufg (betamu - v)) (1/3))
         0 inf 1e-4 in
  argtrap / argtrap_norm.

Definition find_betamu (T EF betabaromega : R) (guess : option R)
  : result (R * nat) :=
  sol ← root_scalar
          (fun x => EF - T * betabaromega
                         * fpow (6 * number_per_spin x betabaromega) (1/3))
          (20e3 / T, -300e3 / T) guess;
  mret (root sol, iterations sol).

(** Instance attributes of [BulkViscTrap] (plot labels left out). *)
Record BulkViscTrap : Type := mkBulkViscTrap {
  bvt_T : R;
  bvt_barnu : R;
  bvt_mutrap : R;
  bvt_A : R;
  bvt_nus : list R;
  bvt_EF : R;
  bvt_Theta : R;
  bvt_Etotal : R;
  bvt_Edottraps : list R
}.

Definition BulkViscTrap_init (T barnu mutrap nu_max : R) : result BulkViscTrap :=
  let lambda_T := sqrt (hbar / (m * T)) in
  let a0 := lambda_T in
  let A := lambda_T / a0 in
  nus ← linspace 0 nu_max (int (nu_max / 1e3) + 1);
  let betaomegas := map (fun nu => nu / T) nus in
  let betamutrap := mutrap / T in
  let betabaromega := barnu / T in
  let '(Ns, EF, Theta, Epot) := thermo_trap T betamutrap betabaromega in
  let Etotal := 2 * Epot in
  let Edottraps :=
    map (fun e => A ^ 2 * e)
        (map (fun betaomega => heating_trap T betamutrap betaomega betabaromega)
             betaomegas) in
  mret (mkBulkViscTrap T barnu mutrap A nus EF Theta Etotal Edottraps).

(** Instance attributes of [BulkViscTrapToTF] (plot labels left out). *)
Record BulkViscTrapToTF : Type := mkBulkViscTrapToTF {
  tot_A : R;
  tot_nus : list R;
  tot_Ns : R;
  tot_EF : R;
  tot_Theta : R;
  tot_Etotal : R;
  tot_Edottraps : list R
}.

(** [None / T] raises [TypeError]. *)
Definition div_opt (x : option R) (T : R) : result R :=
  match x with
  | Some x => Ok (x / T)
  | None => Raise TypeError
  end.

Definition BulkViscTrapToTF_init (Theta EF barnu : R) (mutrap_guess : option R)
           (nu_max : R) : result BulkViscTrapToTF :=
  let T := EF * Theta in
  let lambda_T := sqrt (hbar / (m * T)) in
  let a0 := lambda_T in
  let A := lambda_T / a0 in
  nus ← linspace 1e3 nu_max (2 * int (nu_max / 1e3) - 1);
  let betaomegas := map (fun nu => nu / T) nus in
  betamutrap_guess ← div_opt mutrap_guess T;
  let betabaromega := barnu / T in
  '(betamutrap, no_iter) ← find_betamu T EF betabaromega (Some betamutrap_guess);
  let '(Ns, EF', Theta', Epot) := thermo_trap T betamutrap betabaromega in
  let Etotal := 2 * Epot in
  let Edottraps :=
    map (fun e => A ^ 2 * e)
        (map (fun betaomega => heating_trap T betamutrap betaomega betabaromega)
             betaomegas) in
  mret (mkBulkViscTrapToTF A nus Ns EF' Theta' Etotal Edottraps).

End WithScipy.
End BulkViscTrapClass.

(** ** fit_functions.py *)

Module FitFunctions.

(** A model function [f(x, *params)]: called with the wrong number of
    parameters it raises [TypeError]. *)
Definition model : Type := R -> list R -> result R.

(** [f] takes exactly [n] parameters after [x]. *)
Definition arity (f : model) (n : nat) : Prop :=
  forall x p, (exists y, f x p = Ok y) <-> length p = n.

(** The array [data]: one row per point, column 0 and column 1. *)
Definition data : Type := list (R * R).

(** What every catalogue entry returns: [(func, guess, param_names)];
    [guess] may be [None]. *)
Definition fit : Type := model * option (list R) * list string.

Definition col0 (d : data) : list R := map fst d.
Definition col1 (d : data) : list R := map snd d.

(** [a.max()] and [a.min()]: [ValueError] on an empty array. *)
Definition np_max (a : list R) : result R :=
  match a with
  | [] => Raise ValueError
  | x :: a' => Ok (fold_left Rmax a' x)
  end.

Definition np_min (a : list R) : result R :=
  match a with
  | [] => Raise ValueError
  | x :: a' => Ok (fold_left Rmin a' x)
  end.

(** [a.mean()]. *)
Definition np_mean (a : list R) : R :=
  fold_right Rplus 0 a / INR (length a).

(** [a.argmax()]: index of the first maximum. *)
Fixpoint argmax_from (best : R) (besti i : nat) (a : list R) : nat :=
  match a with
  | [] => besti
  | x :: a' =>
      if Rlt_dec best x then argmax_from x i (S i) a'
      else argmax_from best besti (S i) a'
  end.

Definition np_argmax (a : list R) : result nat :=
  match a with
  | [] => Raise ValueError
  | x :: a' => Ok (argmax_from x 0 1 a')
  end.

(** [data[i, 0]]. *)
Definition getitem0 (d : data) (i : nat) : result R :=
  match d !! i with
  | Some row => Ok (fst row)
  | None => Raise IndexError
  end.

(** [data[np.abs(data[:,1]).argmax(), 0]]. *)
Definition x_of_absmax (d : data) : result R :=
  i ← np_argmax (map Rabs (col1 d));
  getitem0 d i.

(** [np.sinc(x)] is [sin(pi x) / (pi x)], and [1] at [0]. *)
Definition np_sinc (x : R) : R :=
  if Req_dec_T x 0 then 1 else sin (PI * x) / (PI * x).

Section Models.

(** [math.erfc]. *)
Variable erfc : R -> R.

(** *** The inner functions *)

Definition linear : model := fun x p =>
  match p with
  | [m; b] => Ok (m * x + b)
  | _ => Raise TypeError
  end.

Definition parabola : model := fun x p =>
  match p with
  | [A; x0; C] => Ok (A * (x - x0) ^ 2 + C)
  | _ => Raise TypeError
  end.

Definition sqrt_ : model := fun x p =>
  match p with
  | [A; x0] => Ok (A * sqrt (x - x0))
  | _ => Raise TypeError
  end.

Definition gaussian : model := fun x p =>
  match p with
  | [A; x0; sigma; C] => Ok (A * exp (- (x - x0) ^ 2 / (2 * sigma ^ 2)) + C)
  | _ => Raise TypeError
  end.

Definition lorentzian : model := fun x p =>
  match p with
  | [A; x0; sigma; C] => Ok (A / ((x - x0) ^ 2 + sigma ^ 2) + C)
  | _ => Raise TypeError
  end.

Definition sin_ : model := fun x p =>
  match p with
  | [A; omega; phi; C] => Ok (A * sin (omega * x - phi) + C)
  | _ => Raise TypeError
  end.

Definition sinc : model := fun x p =>
  match p with
  | [A; x0; sigma; C] => Ok (A * np_sinc ((x - x0) / sigma) + C)
  | _ => Raise TypeError
  end.

Definition sinc2 : model := fun x p =>
  match p with
  | [A; x0; sigma; C] => Ok (A * np_sinc ((x - x0) / sigma) ^ 2 + C)
  | _ => Raise TypeError
  end.

Definition TrapFreq_ : model := fun x p =>
  match p with
  | [A; b; l; x0; C; D] => Ok (A * exp (- x / b) * sin (l * x - x0) + C + D * x)
  | _ => Raise TypeError
  end.

Definition TrapFreq2_ : model := fun x p =>
  match p with
  | [A; b; l; x0; C; D] => Ok (A * exp (- x / b) * sin (l * x - x0) + C)
  | _ => Raise TypeError
  end.

Definition RabiFreq_ : model := fun x p =>
  match p with
  | [A; b; x0; C] => Ok (A * sin (b / 2 * x - x0) ^ 2 + C)
  | _ => Raise TypeError
  end.

Definition Exponential : model := fun x p =>
  match p with
  | [A; sigma] => Ok (A * exp (- x / sigma))
  | _ => Raise TypeError
  end.

Definition RabiLine_ : model := fun x p =>
  match p with
  | [b; l; m; A; s; j; k; p'] =>
      Ok (b ^ 2 / (l ^ 2 + (x - m) ^ 2)
          * (A * sin (sqrt (s ^ 2 + (x - j) ^ 2) * k) ^ 2 + p'))
  | _ => Raise TypeError
  end.

Definition ErfcFit_ : model := fun x p =>
  match p with
  | [A; x0; b; C] => Ok (A * erfc ((x - x0) / b) + C)
  | _ => Raise TypeError
  end.

Definition SinplusCos_ : model := fun t p =>
  match p with
  | [omega; A; B; C] => Ok (A * sin (omega * t) + B * cos (omega * t) + C)
  | _ => Raise TypeError
  end.

Definition FixedSin_ : model := fun t p =>
  match p with
  | [A; p'; C] =>
      let omega := 0.010 * 2 * PI in
      Ok (A * sin (omega * t - p') + C)
  | _ => Raise TypeError
  end.

Definition FixedSin5kHz_ : model := fun t p =>
  match p with
  | [A; p'; C] =>
      let omega := 0.005 * 2 * PI in
      Ok (A * sin (omega * t - p') + C)
  | _ => Raise TypeError
  end.

(** *** The public functions *)

Definition Linear (d : data) : result fit :=
  let guess := None in
  let param_names := ["m"; "b"]%string in
  mret (linear, guess, param_names).

Definition Parabola (d : data) : result fit :=
  x_ofmax ← x_of_absmax d;
  let mean_y := np_mean (col1 d) in
  max_y ← np_max (col1 d);
  let param_names := ["A"; "x0"; "C"]%string in
  let guess := [max_y - mean_y; x_ofmax; mean_y] in
  mret (parabola, Some guess, param_names).

Definition Sqrt (d : data) : result fit :=
  min_y ← np_min (col1 d);
  max_y ← np_max (col1 d);
  let param_names := ["A"; "x0"]%string in
  let guess := [max_y - min_y; 0] in
  mret (sqrt_, Some guess, param_names).

Definition Gaussian (d : data) : result fit :=
  x_ofmax ← x_of_absmax d;
  max_x ← np_max (col0 d);
  min_x ← np_min (col0 d);
  let mean_y := np_mean (col1 d) in
  max_y ← np_max (col1 d);
  let param_names := ["A"; "x0"; "sigma"; "C"]%string in
  let guess := [max_y - mean_y; x_ofmax; (max_x - min_x) / 2; mean_y] in
  mret (gaussian, Some guess, param_names).

Definition Lorentzian (d : data) : result fit :=
  x_ofmax ← x_of_absmax d;
  max_x ← np_max (col0 d);
  min_x ← np_min (col0 d);
  let mean_y := np_mean (col1 d) in
  max_y ← np_max (col1 d);
  let param_names := ["A"; "x0"; "sigma"; "C"]%string in
  let guess := [max_y - mean_y; x_ofmax; (max_x - min_x) / 2; mean_y] in
  mret (lorentzian, Some guess, param_names).

Definition Sin (d : data) : result fit :=
  let mean_y := np_mean (col1 d) in
  max_y ← np_max (col1 d);
  let param_names := ["A"; "omega"; "phi"; "C"]%string in
  let guess := [max_y - mean_y; 1; 0; mean_y] in
  mret (sin_, Some guess, param_names).

Definition Sinc (d : data) : result fit :=
  x_ofmax ← x_of_absmax d;
  max_x ← np_max (col0 d);
  min_x ← np_min (col0 d);
  let mean_y := np_mean (col1 d) in
  max_y ← np_max (col1 d);
  let param_names := ["A"; "x0"; "sigma"; "C"]%string in
  let guess := [max_y - mean_y; x_ofmax; (max_x - min_x) / 2; mean_y] in
  mret (sinc, Some guess, param_names).

Definition Sinc2 (d : data) : result fit :=
  x_ofmax ← x_of_absmax d;
  max_x ← np_max (col0 d);
  min_x ← np_min (col0 d);
  let mean_y := np_mean (col1 d) in
  max_y ← np_max (col1 d);
  let param_names := ["A"; "x0"; "sigma"; "C"]%string in
  let guess := [max_y - mean_y; x_ofmax; (max_x - min_x) / 2; mean_y] in
  mret (sinc2, Some guess, param_names).

Definition TrapFreq (d : data) : result fit :=
  x_ofmax ← x_of_absmax d;
  max_x ← np_max (col0 d);
  min_x ← np_min (col0 d);
  let mean_y := np_mean (col1 d) in
  max_y ← np_max (col1 d);
  let param_names :=
    ["Amplitude"; "b"; "l"; "Center"; "Offset"; "Linear Slope"]%string in
  let guess := [10000; 0.05; 20; -2; 100; -0.1] in
  mret (TrapFreq_, Some guess, param_names).

Definition TrapFreq2 (d : data) : result fit :=
  x_ofmax ← x_of_absmax d;
  max_x ← np_max (col0 d);
  min_x ← np_min (col0 d);
  let mean_y := np_mean (col1 d) in
  max_y ← np_max (col1 d);
  let param_names := ["Amplitude"; "b"; "l"; "Center"; "Offset"]%string in
  let guess := [10000; 0.05; 20; -2; 100; -0.1] in
  mret (TrapFreq2_, Some guess, param_names).

Definition RabiFreq (d : data) : result fit :=
  let param_names := ["Amplitdue"; "b"; "Center"; "Offset"]%string in
  let guess := [1; 1; 1; 0] in
  mret (RabiFreq_, Some guess, param_names).

Definition Expontial (d : data) : result fit :=
  x_ofmax ← x_of_absmax d;
  max_x ← np_max (col0 d);
  min_x ← np_min (col0 d);
  let mean_y := np_mean (col1 d) in
  max_y ← np_max (col1 d);
  let param_names := ["Amplitude"; "sigma"]%string in
  let guess := [max_x - min_x; 1] in
  mret (Exponential, Some guess, param_names).

Definition RabiLine (d : data) : result fit :=
  let param_names := ["b"; "l"; "m"; "A"; "s"; "j"; "k"; "p"]%string in
  let guess := [1; 1; 1; 1; 1; 1; 1; 0] in
  mret (RabiLine_, Some guess, param_names).

Definition ErfcFit (d : data) : result fit :=
  let param_names := ["Amp"; "Center"; "b"; "Offset"]%string in
  let guess := [1; 1; 1; 0] in
  mret (ErfcFit_, Some guess, param_names).

Definition SinplusCos (d : data) : result fit :=
  let param_names := ["Sin Amp"; "Cos Amp"; "Offset"]%string in
  let guess := [1; 1; 1; 0] in
  mret (SinplusCos_, Some guess, param_names).

Definition FixedSin (d : data) : result fit :=
  let param_names := ["Amplitude"; "phase"; "offset"]%string in
  let guess := [1; 1; 0] in
  mret (FixedSin_, Some guess, param_names).

Definition FixedSin5kHz (d : data) : result fit :=
  let param_names := ["Amplitude"; "phase"; "offset"]%string in
  let guess := [1; 1; 0] in
  mret (FixedSin5kHz_, Some guess, param_names).

(** The module's public names, in source order. *)
Definition catalogue : list (string * (data -> result fit)) :=
  [ ("Linear", Linear); ("Parabola", Parabola); ("Sqrt", Sqrt);
    ("Gaussian", Gaussian); ("Lorentzian", Lorentzian); ("Sin", Sin);
    ("Sinc", Sinc); ("Sinc2", Sinc2); ("TrapFreq", TrapFreq);
    ("TrapFreq2", TrapFreq2); ("RabiFreq", RabiFreq);
    ("Expontial", Expontial); ("RabiLine", RabiLine);
    ("ErfcFit", ErfcFit); ("SinplusCos", SinplusCos);
    ("FixedSin", FixedSin); ("FixedSin5kHz", FixedSin5kHz) ]%string.

End Models.
End FitFunctions.

(** ** The docstrings of fit_functions.py

    Written from the [Returns:] line of each docstring, not from the code;
    the parameters are taken in the order of the inner function's
    signature. *)

Module Docstring.
Section Erfc.

Variable erfc : R -> R.

Definition Linear (x m b : R) : R := m * x + b.
Definition Parabola (x A x0 C : R) : R := A * (x - x0) ^ 2 + C.
Definition Sqrt (x A x0 : R) : R := A * sqrt (x - x0).
Definition Gaussian (x A x0 sigma C : R) : R :=
  A * exp (- (x - x0) ^ 2 / (2 * sigma ^ 2)) + C.
Definition Lorentzian (x A x0 sigma C : R) : R :=
  A / ((x - x0) ^ 2 + sigma ^ 2) + C.
Definition Sin (x A omega phi C : R) : R := A * sin (omega * x - phi) + C.
Definition Sinc (x A x0 sigma C : R) : R :=
  A * FitFunctions.np_sinc ((x - x0) / sigma) + C.
Definition Sinc2 (x A x0 sigma C : R) : R :=
  A * FitFunctions.np_sinc ((x - x0) / sigma) + C.
Definition TrapFreq (x A b l x0 C D : R) : R :=
  A * exp (- x / b) * sin (l * x - x0) + C + D * x.
Definition TrapFreq2 (x A b l x0 C : R) : R :=
  A * exp (- x / b) * sin (l * x - x0) + C.
Definition RabiFreq (x A b x0 C : R) : R := A * sin (b / 2 * x - x0) ^ 2 + C.
Definition Expontial (x A sigma : R) : R := A * exp (- x / sigma).
Definition RabiLine (x b l m A s j k p : R) : R :=
  b ^ 2 / (l ^ 2 + (x - m) ^ 2) * (A * sin (sqrt (s ^ 2 + (x - j) ^ 2) * k) ^ 2 + p).
Definition ErfcFit (x A x0 b C : R) : R := A * erfc ((x - x0) / b) + C.
Definition SinplusCos (t omega A B C : R) : R :=
  A * sin (omega * t) + B * cos (omega * t) + C.
Definition FixedSin (x A p C : R) : R := A * sin (0.0628 * x - p) + C.
Definition FixedSin5kHz (x A p C : R) : R := A * sin (0.0314 * x - p) + C.

End Erfc.
End Docstring.

(** ** fit_heating_rates.py *)

Module FitHeatingRates.

Import FitFunctions.

#[global] Instance R_eq_dec : EqDecision R := Req_dec_T.

(** A float that may be [nan]; only the metadata cells [freq] and [Vpp],
    which the script tests for [nan], use the [None] case. *)
Definition float : Type := option R.

(** *** pandas *)

(** A [DataFrame] with float columns: the length of its index and its
    columns by name. *)
Record DataFrame : Type := mkDataFrame {
  nrows : nat;
  columns : gmap string (list R)
}.

(** [df[name]]. *)
Definition getitem (df : DataFrame) (name : string) : result (list R) :=
  match columns df !! name with
  | Some col => Ok col
  | None => Raise KeyError
  end.

(** [df.name]. *)
Definition getcolattr (df : DataFrame) (name : string) : result (list R) :=
  match columns df !! name with
  | Some col => Ok col
  | None => Raise AttributeError
  end.

(** [series.values[0]]. *)
Definition values0 (col : list R) : result R :=
  match col with
  | x :: _ => Ok x
  | [] => Raise IndexError
  end.

(** [float(series)]: defined for a series of exactly one element. *)
Definition float_of_series (col : list R) : result R :=
  match col with
  | [x] => Ok x
  | _ => Raise TypeError
  end.

(** [series.min()] and [series.max()]; [nan] on an empty series. *)
Definition series_min (col : list R) : float :=
  match col with
  | [] => None
  | x :: col' => Some (fold_left Rmin col' x)
  end.

Definition series_max (col : list R) : float :=
  match col with
  | [] => None
  | x :: col' => Some (fold_left Rmax col' x)
  end.

(** [series == v]; nothing equals [nan]. *)
Definition series_eq (col : list R) (v : float) : list bool :=
  match v with
  | Some v => map (fun x => bool_decide (x = v)) col
  | None => map (fun _ => false) col
  end.

Fixpoint select {A} (mask : list bool) (l : list A) : list A :=
  match mask, l with
  | true :: mask', x :: l' => x :: select mask' l'
  | false :: mask', _ :: l' => select mask' l'
  | _, _ => []
  end.

(** [df.loc[mask]]: the rows where [mask] holds. *)
Definition loc (df : DataFrame) (mask : list bool) : DataFrame :=
  {| nrows := length (select mask (seq 0 (nrows df)));
     columns := select mask <$> columns df |}.

(** *** The run object *)

Inductive value : Type :=
| Num (x : R)
| NaN
| Int (n : Z)
| Str (s : string)
| Arr (a : list R)
| Mat (a : list (list R))
| Func (f : model)
| Date (year month day : Z).

Definition of_float (x : float) : value :=
  match x with
  | Some x => Num x
  | None => NaN
  end.

(** A [Data] instance: its two frames and its other attributes by
    name. *)
Record Run : Type := mkRun {
  data : DataFrame;
  avg_data : DataFrame;
  attrs : gmap string value
}.

Definition getattr (run : Run) (name : string) : result value :=
  match attrs run !! name with
  | Some v => Ok v
  | None => Raise AttributeError
  end.

Definition setattr (run : Run) (name : string) (v : value) : Run :=
  {| data := data run; avg_data := avg_data run;
     attrs := <[name := v]> (attrs run) |}.

Definition get_str (run : Run) (name : string) : result string :=
  v ← getattr run name;
  match v with
  | Str s => Ok s
  | _ => Raise TypeError
  end.

Definition get_float (run : Run) (name : string) : result float :=
  v ← getattr run name;
  match v with
  | Num x => Ok (Some x)
  | NaN => Ok None
  | Int n => Ok (Some (IZR n))
  | _ => Raise TypeError
  end.

(** [a[i]] and [m[i, j]]. *)
Definition item (a : list R) (i : nat) : result R :=
  match a !! i with
  | Some x => Ok x
  | None => Raise IndexError
  end.

Definition item2 (a : list (list R)) (i j : nat) : result R :=
  match a !! i with
  | Some row => item row j
  | None => Raise IndexError
  end.

(** [np.diag(m)]. *)
Definition np_diag (a : list (list R)) : list R :=
  omap (fun x : option R => x) (imap (fun i (row : list R) => row !! i) a).

(** [f(xs, *p)] on an array [xs]. *)
Definition vcall (f : model) (xs : list R) (p : list R) : result (list R) :=
  _ ← f 0 p;
  mapM (fun x => f x p) xs.

(** *** Script constants *)

Definition exponential (x a b c : R) : R := a * (1 - exp (x / b)) + c.

(** [exponential(freq, *WiggleCalpopt)] is written out with the three
    fitted values of [WiggleCalpopt]. *)
Definition Bamp_from_Vpp (Vpp freq : float) : float * float :=
  let Bamp :=
    Vpp ← Vpp; freq ← freq;
    Some (Vpp * exponential freq 7.42905865e-02 (-1.13381420e+01) 3.64847614e-03
          / 0.9) in
  let e_Bamp := Some 0 in
  (Bamp, e_Bamp).

Definition linear : model := fun x p =>
  match p with
  | [m; Ei] => Ok (m * x + Ei)
  | _ => Raise TypeError
  end.

Definition settings_param : string := "time".
Definition settings_temp_param : string := "meanEtot_kHz".
Definition settings_fit : model := linear.

Definition default_beta : R := 1.8339e-05.

Section WithLibrary.

(** From [library.py]: Planck's constant, the thermal de Broglie
    wavelength, the scattering length at a field, and the reduced
    chi-squared [chi_sq(y, yfit, yerr, dof)]. *)
Variable h : R.
Variable deBroglie : R -> R.
Variable a97 : R -> R.
Variable chi_sq : list R -> list R -> list R -> Z -> result R.

(** [scipy.optimize.curve_fit(f, xdata, ydata, sigma=...)] returns
    [(popt, pcov)]. *)
Variable curve_fit :
  model -> list R -> list R -> list R -> result (list R * list (list R)).

Definition find_A (T : R) (Bamp : float) (e_T : R) (e_Bamp : float)
  : float * float :=
  let B0 := 202.14 in
  let A := Bamp ← Bamp; Some (deBroglie T / a97 (B0 - Bamp)) in
  let e_a97 :=
    Bamp ← Bamp; e_Bamp ← e_Bamp;
    Some (Rabs (a97 (B0 - Bamp) - a97 (B0 - Bamp + e_Bamp))) in
  let e_dB := Rabs (deBroglie T - deBroglie (T + e_T)) in
  let e_A :=
    A ← A; e_a97 ← e_a97; Bamp ← Bamp;
    Some (A * sqrt ((e_a97 / a97 (B0 - Bamp)) ^ 2 + (e_dB / deBroglie T) ^ 2)) in
  (A, e_A).

Fixpoint fix_attribute_loop (run : Run) (attr : string) (attr_names : list string)
  : result Run :=
  match attr_names with
  | [] => Ok run
  | name :: rest =>
      try_except
        (col ← getitem (data run) name;
         x ← values0 col;
         Ok (setattr run attr (Num x)))
        KeyError
        (fix_attribute_loop run attr rest)
  end.

Definition fix_attribute (run : Run) (attr : string) (attr_names : list string)
  : result Run :=
  v ← getattr run attr;
  match v with
  | NaN => fix_attribute_loop run attr attr_names
  | _ => Ok run
  end.

(** The call repeated for each fitted column:
    [curve_fit(run.fit_func, run.avg_data[run.param], run.avg_data[col],
               sigma = run.avg_data['em_'+col])]. *)
Definition curve_fit_column (run : Run) (fit_func : model) (col : string)
  : result (list R * list (list R)) :=
  param ← get_str run "param";
  xs ← getitem (avg_data run) param;
  ys ← getitem (avg_data run) col;
  sigma ← getitem (avg_data run) ("em_" +:+ col);
  curve_fit fit_func xs ys sigma.

(** The last block of both analyses: drive amplitude and scaled
    rate. *)
Definition amplitude_attrs (run : Run) (T e_T : R) : result (Run * float * float) :=
  Vpp ← get_float run "Vpp";
  freq ← get_float run "freq";
  let '(Bamp, e_Bamp) := Bamp_from_Vpp Vpp freq in
  let run := setattr (setattr run "Bamp" (of_float Bamp)) "e_Bamp" (of_float e_Bamp) in
  let '(A, e_A) := find_A T Bamp e_T e_Bamp in
  let run := setattr (setattr run "A" (of_float A)) "e_A" (of_float e_A) in
  let e_A2 := A ← A; e_A ← e_A; Some (2 * A * e_A) in
  let run := setattr run "e_A2" (of_float e_A2) in
  Ok (run, A, e_A2).

Definition rate_attrs (run : Run) (A e_A2 : float) (heating e_heating : R) : Run :=
  let rate := A ← A; Some (heating * 1000 / A ^ 2) in
  let run := setattr run "rate" (of_float rate) in
  let e_rate :=
    rate ← rate; A ← A; e_A2 ← e_A2;
    Some (rate * sqrt ((e_heating / heating) ^ 2 + (e_A2 / A ^ 2) ^ 2)) in
  setattr run "e_rate" (of_float e_rate).

Definition fit_analysis (run : Run) : result Run :=
  let fit_func := settings_fit in
  let run := setattr run "fit_func" (Func fit_func) in
  '(popt, pcov) ← curve_fit_column run fit_func settings_temp_param;
  let run := setattr (setattr run "popt" (Arr popt)) "pcov" (Mat pcov) in
  let err := map sqrt (np_diag pcov) in
  let run := setattr run "err" (Arr err) in
  let dof := (Z.of_nat (nrows (avg_data run)) - Z.of_nat (length err))%Z in
  let run := setattr run "dof" (Int dof) in
  chi ← try_except
          (ys ← getitem (avg_data run) settings_temp_param;
           param ← get_str run "param";
           xs ← getitem (avg_data run) param;
           yfit ← vcall fit_func xs popt;
           yerr ← getitem (avg_data run) ("em_" +:+ settings_temp_param);
           chi_sq ys yfit yerr dof)
          ZeroDivisionError
          (Ok 1);
  let run := setattr run "chi_sq" (Num chi) in
  (* fit ToTF to get offset *)
  '(poptToTF, pcovToTF) ← curve_fit_column run fit_func "ToTF";
  let run := setattr (setattr run "poptToTF" (Arr poptToTF)) "pcovToTF" (Mat pcovToTF) in
  let errToTF := map sqrt (np_diag pcovToTF) in
  let run := setattr run "errToTF" (Arr errToTF) in
  ToTF ← item poptToTF 1;
  let run := setattr run "ToTF" (Num ToTF) in
  e_ToTF ← item errToTF 1;
  let run := setattr run "e_ToTF" (Num e_ToTF) in
  (* fit EF to get offset *)
  '(poptEF, pcovEF) ← curve_fit_column run fit_func "EF";
  let run := setattr (setattr run "poptEF" (Arr poptEF)) "pcovEF" (Mat pcovEF) in
  let errEF := map sqrt (np_diag pcovEF) in
  let run := setattr run "errEF" (Arr errEF) in
  EF1 ← item poptEF 1;
  let EF := EF1 / h / 1e3 in
  let run := setattr run "EF" (Num EF) in
  e_EF1 ← item errEF 1;
  let e_EF := e_EF1 / h / 1e3 in
  let run := setattr run "e_EF" (Num e_EF) in
  (* fit T to get offset *)
  '(poptT, pcovT) ← curve_fit_column run fit_func "T";
  let run := setattr (setattr run "poptT" (Arr poptT)) "pcovT" (Mat pcovT) in
  let errT := map sqrt (np_diag pcovT) in
  let run := setattr run "errT" (Arr errT) in
  T ← item poptT 1;
  let run := setattr run "T" (Num T) in
  e_T ← item errT 1;
  let run := setattr run "e_T" (Num e_T) in
  (* fit N to get offset *)
  '(poptN, pcovN) ← curve_fit_column run fit_func "N";
  let run := setattr (setattr run "poptN" (Arr poptN)) "pcovN" (Mat pcovN) in
  let errN := map sqrt (np_diag pcovN) in
  let run := setattr run "errN" (Arr errN) in
  N ← item poptN 1;
  let run := setattr run "N" (Num N) in
  e_N ← item errN 1;
  let run := setattr run "e_N" (Num e_N) in
  poptN0 ← item poptN 0;
  let loss_rate := poptN0 / N in
  let run := setattr run "loss_rate" (Num loss_rate) in
  errN0 ← item errN 0;
  let e_loss_rate := loss_rate * sqrt ((e_N / N) ^ 2 + (poptN0 / errN0) ^ 2) in
  let run := setattr run "e_loss_rate" (Num e_loss_rate) in
  (* other run params and errors *)
  '(run, A, e_A2) ← amplitude_attrs run T e_T;
  Ei ← item popt 1;
  let run := setattr run "Ei" (Num Ei) in
  e_Ei ← item err 1;
  let run := setattr run "e_Ei" (Num e_Ei) in
  popt0 ← item popt 0;
  let heating := popt0 / Ei in
  let run := setattr run "heating" (Num heating) in
  err0 ← item err 0;
  pcov01 ← item2 pcov 0 1;
  let e_heating :=
    heating * sqrt ((err0 / popt0) ^ 2 + (e_Ei / Ei) ^ 2
                    - 2 * pcov01 / popt0 / Ei) in
  let run := setattr run "e_heating" (Num e_heating) in
  Ok (rate_attrs run A e_A2 heating e_heating).

Definition analysis_for_dof_equals_two (run : Run) : result Run :=
  param ← get_str run "param";
  xs ← getitem (avg_data run) param;
  let df1 := loc (avg_data run) (series_eq xs (series_min xs)) in
  let df2 := loc (avg_data run) (series_eq xs (series_max xs)) in
  ToTF ← getcolattr df1 "ToTF" ≫= float_of_series;
  let run := setattr run "ToTF" (Num ToTF) in
  e_ToTF ← getcolattr df1 "em_ToTF" ≫= float_of_series;
  let run := setattr run "e_ToTF" (Num e_ToTF) in
  EF1 ← getcolattr df1 "EF" ≫= float_of_series;
  let run := setattr run "EF" (Num (EF1 / h / 1e3)) in
  e_EF1 ← getcolattr df1 "em_EF" ≫= float_of_series;
  let run := setattr run "e_EF" (Num (e_EF1 / h / 1e3)) in
  T ← getitem df1 "T" ≫= float_of_series;
  let run := setattr run "T" (Num T) in
  e_T ← getcolattr df1 "em_T" ≫= float_of_series;
  let run := setattr run "e_T" (Num e_T) in
  Ei ← getitem df1 settings_temp_param ≫= float_of_series;
  let run := setattr run "Ei" (Num Ei) in
  e_Ei ← getitem df1 ("em_" +:+ settings_temp_param) ≫= float_of_series;
  let run := setattr run "e_Ei" (Num e_Ei) in
  Ef ← getitem df2 settings_temp_param ≫= float_of_series;
  e_Ef ← getitem df2 ("em_" +:+ settings_temp_param) ≫= float_of_series;
  N ← getcolattr df1 "N" ≫= float_of_series;
  let run := setattr run "N" (Num N) in
  e_N ← getcolattr df1 "em_N" ≫= float_of_series;
  let run := setattr run "e_N" (Num e_N) in
  Nf ← getcolattr df2 "N" ≫= float_of_series;
  e_Nf ← getcolattr df2 "em_N" ≫= float_of_series;
  '(run, A, e_A2) ← amplitude_attrs run T e_T;
  (* rise over run *)
  x2 ← getitem df2 param ≫= float_of_series;
  x1 ← getitem df1 param ≫= float_of_series;
  let deltax := x2 - x1 in
  let deltay := Ef / Ei - 1 in
  let heating := deltay / deltax in
  let run := setattr run "heating" (Num heating) in
  let e_heating := Ef / Ei / deltax * sqrt ((e_Ef / Ef) ^ 2 + (e_Ei / Ei) ^ 2) in
  let run := setattr run "e_heating" (Num e_heating) in
  let run := rate_attrs run A e_A2 heating e_heating in
  let loss_rate := (Nf - N) / deltax / N in
  let run := setattr run "loss_rate" (Num loss_rate) in
  let e_loss_rate := Nf / N / deltax * sqrt ((e_Nf / Nf) ^ 2 + (e_N / N) ^ 2) in
  let run := setattr run "e_loss_rate" (Num e_loss_rate) in
  let run := setattr run "dof" (Int 0) in
  Ok (setattr run "chi_sq" (Num 1)).

(** [date < pd.Timestamp(2024, 3, 1)]. *)
Definition before_2024_03_01 (year month day : Z) : bool :=
  ((year <? 2024) || ((year =? 2024) && (month <? 3)))%Z.

(** The body of the loop over the runs of a file, from the two
    [fix_attribute] calls to the assignment of [run.beta], in its three
    blocks; the frames [data] and [avg_data] are those [Data] and
    [group_by_mean] made, and the formatted labels that follow are left
    out. *)

(** "find attributes needed for analysis that were not in metadata". *)
Definition fix_attributes (run : Run) : result Run :=
  run ← fix_attribute run "freq" ["freq"; "wigglefreq"; "wiggle freq"]%string;
  run ← fix_attribute run "Vpp" ["Vpp"; "amp"; "amplitude"]%string;
  date ← getattr run "date";
  match date with
  | Date year month day =>
      if before_2024_03_01 year month day then
        Vpp ← get_float run "Vpp";
        Ok (setattr run "Vpp" (of_float ((fun x => x / 2) <$> Vpp)))
      else Ok run
  | _ => Raise TypeError
  end.

(** "if it's just a run with two values ... else we just do linear
    fits". *)
Definition analyse (run : Run) : result Run :=
  if bool_decide (nrows (avg_data run) = 2%nat)
  then analysis_for_dof_equals_two run
  else fit_analysis run.

(** [try: run.beta = run.avg_data['beta'].values[0]
     except KeyError: run.beta = 1.8339e-05]. *)
Definition read_beta (run : Run) : result Run :=
  beta ← try_except
           (col ← getitem (avg_data run) "beta"; values0 col)
           KeyError
           (Ok default_beta);
  Ok (setattr run "beta" (Num beta)).

Definition analyse_run (run : Run) : result Run :=
  run ← fix_attributes run;
  run ← analyse run;
  read_beta run.

End WithLibrary.
End FitHeatingRates.

(** ** Reference instances of the library parameters

    Concrete, idealised stand-ins for the scipy and baryrat routines; they
    show that what the theorems below assume of those routines can be
    met. *)

Module Reference.

(** *** baryrat *)

Fixpoint at_node (x : R) (nodes values : list R) : option R :=
  match nodes, values with
  | z :: nodes', f :: values' =>
      if Req_dec_T x z then Some f else at_node x nodes' values'
  | _, _ => None
  end.

Definition bary_sum (x : R) (nodes coeffs : list R) : R :=
  fold_right Rplus 0 (zip_with (fun z c => c / (x - z)) nodes coeffs).

(** The barycentric formula
    [sum_j w_j f_j / (x - z_j) / sum_j w_j / (x - z_j)],
    with the value [f_j] at a node [z_j]. *)
Definition BarycentricRational (fitted : list R * list R * list R) : R -> R :=
  fun x =>
    let '(nodes, values, weights) := fitted in
    match at_node x nodes values with
    | Some f => f
    | None =>
        bary_sum x nodes (zip_with Rmult weights values)
        / bary_sum x nodes weights
    end.

Definition eosrat : R -> R := BarycentricRational BulkViscTrapClass.eosfit.
Definition sumrat : R -> R := BarycentricRational BulkViscTrapClass.sumrulefit.

(** The equation of state of the Boltzmann gas, [f_n = z] per spin, in
    the place of the fitted interpolant. *)
Definition boltzmann : R -> R := fun z => z.

(** [math.erfc] to first order at 0. *)
Definition erfc_first_order : R -> R := fun x => 1 - 2 / sqrt PI * x.

(** *** scipy *)

(** A quadrature rule with the single node [v = pi] and weight 1. *)
Definition one_point_quad : (R -> R) -> R -> limit -> R -> R * R :=
  fun f a b epsrel => (f PI, 0).

(** An exact zero of a continuous function whose values at [a] and [b]
    do not have the same sign. *)
Lemma ivt_zero (f : R -> R) (a b : R) :
  continuity f /\ f a * f b <= 0 -> {z : R | f z = 0}.
Proof.
  intros H.
  destruct (Rle_lt_dec a b) as [Hab | Hba].
  - destruct (IVT_cor f a b) as [z [_ Hz]]; [tauto | exact Hab | tauto |].
    exists z. exact Hz.
  - destruct (IVT_cor f b a) as [z [_ Hz]]; [tauto | lra | |].
    + rewrite Rmult_comm. tauto.
    + exists z. exact Hz.
Qed.

(** The exact bracketing solver: on a continuous function with a sign
    change over the bracket it returns a zero, on anything else it raises
    as [brentq] does when the signs agree. *)
Definition ivt_root_scalar
  : (R -> R) -> R * R -> option R -> result RootResults :=
  fun f bracket x0 =>
    match excluded_middle_informative
            (continuity f /\ f (fst bracket) * f (snd bracket) <= 0) with
    | left H =>
        Ok {| root := proj1_sig (ivt_zero f (fst bracket) (snd bracket) H);
              iterations := 0 |}
    | right _ => Raise ValueError
    end.

(** *** library.py *)

(** Planck's constant, in J s. *)
Definition h : R := 6.62607015e-34.

(** A thermal wavelength, proportional to [1 / sqrt T]. *)
Definition deBroglie : R -> R := fun T => 1 / sqrt T.

(** A scattering length with a single resonance, at 202.1 G. *)
Definition a97 : R -> R := fun B => 1 - 7 / (B - 202.1).

(** The reduced chi-squared; a division by [dof = 0] raises. *)
Definition chi_sq : list R -> list R -> list R -> Z -> result R :=
  fun y yfit yerr dof =>
    if (dof =? 0)%Z then Raise ZeroDivisionError
    else
      Ok (fold_right Rplus 0
            (zip_with (fun r e => (r / e) ^ 2) (zip_with Rminus y yfit) yerr)
          / IZR dof).

(** A chi-squared that never divides. *)
Definition chi_sq_total : list R -> list R -> list R -> Z -> result R :=
  fun y yfit yerr dof => Ok 1.

(** The weighted least-squares line, the fit [curve_fit] converges to for
    the two-parameter model [linear]: weights [1 / sigma^2], and the
    covariance of slope and offset. *)
Definition linear_least_squares
  : FitFunctions.model -> list R -> list R -> list R
    -> result (list R * list (list R)) :=
  fun f xs ys sigma =>
    let w := map (fun s => 1 / s ^ 2) sigma in
    let sum := fold_right Rplus 0 in
    let S := sum w in
    let Sx := sum (zip_with Rmult w xs) in
    let Sy := sum (zip_with Rmult w ys) in
    let Sxx := sum (zip_with Rmult w (zip_with Rmult xs xs)) in
    let Sxy := sum (zip_with Rmult w (zip_with Rmult xs ys)) in
    let Delta := S * Sxx - Sx ^ 2 in
    Ok ([ (S * Sxy - Sx * Sy) / Delta; (Sxx * Sy - Sx * Sxy) / Delta ],
        [ [ S / Delta; - Sx / Delta ]; [ - Sx / Delta; Sxx / Delta ] ]).

(** *** Runs *)

(** Three averaged points of a heating scan. *)
Definition three_points : FitHeatingRates.Run :=
  {| FitHeatingRates.data :=
       {| FitHeatingRates.nrows := 0; FitHeatingRates.columns := ∅ |};
     FitHeatingRates.avg_data :=
       {| FitHeatingRates.nrows := 3;
          FitHeatingRates.columns :=
            list_to_map
              [ ("time", [0; 10; 20]);
                ("meanEtot_kHz", [10; 11; 12]); ("em_meanEtot_kHz", [1; 1; 1]);
                ("ToTF", [0.5; 0.55; 0.6]); ("em_ToTF", [0.01; 0.01; 0.01]);
                ("EF", [1e-29; 1e-29; 1e-29]); ("em_EF", [1e-31; 1e-31; 1e-31]);
                ("T", [7000; 7500; 8000]); ("em_T", [100; 100; 100]);
                ("N", [20000; 19000; 18000]); ("em_N", [500; 500; 500]) ]%string |};
     FitHeatingRates.attrs :=
       list_to_map
         [ ("param", FitHeatingRates.Str "time");
           ("Vpp", FitHeatingRates.Num 0.9);
           ("freq", FitHeatingRates.Num 10);
           ("date", FitHeatingRates.Date 2024 4 4) ]%string |}.

(** The cells of two averaged points, by column: (first row, second
    row). *)
Definition two_cells : gmap string (R * R) :=
  list_to_map
    [ ("time", (0, 10));
      ("meanEtot_kHz", (10, 11)); ("em_meanEtot_kHz", (1, 1));
      ("ToTF", (0.5, 0.55)); ("em_ToTF", (0.01, 0.01));
      ("EF", (1e-29, 1e-29)); ("em_EF", (1e-31, 1e-31));
      ("T", (7000, 7500)); ("em_T", (100, 100));
      ("N", (20000, 19000)); ("em_N", (500, 500)) ]%string.

Definition two_points : FitHeatingRates.Run :=
  {| FitHeatingRates.data :=
       {| FitHeatingRates.nrows := 0; FitHeatingRates.columns := ∅ |};
     FitHeatingRates.avg_data :=
       {| FitHeatingRates.nrows := 2;
          FitHeatingRates.columns := (fun c : R * R => [c.1; c.2]) <$> two_cells |};
     FitHeatingRates.attrs :=
       list_to_map
         [ ("param", FitHeatingRates.Str "time");
           ("Vpp", FitHeatingRates.Num 0.9);
           ("freq", FitHeatingRates.Num 10);
           ("date", FitHeatingRates.Date 2024 4 4) ]%string |}.

(** A run of an older file: [freq] is not in the metadata, and the column
    of the .dat file is called [wigglefreq]. *)
Definition old_file_run : FitHeatingRates.Run :=
  {| FitHeatingRates.data :=
       {| FitHeatingRates.nrows := 1;
          FitHeatingRates.columns := {[ "wigglefreq"%string := [10] ]} |};
     FitHeatingRates.avg_data :=
       {| FitHeatingRates.nrows := 1;
          FitHeatingRates.columns := {[ "wigglefreq"%string := [10] ]} |};
     FitHeatingRates.attrs := {[ "freq"%string := FitHeatingRates.NaN ]} |}.

End Reference.

(** * Properties *)

(** ** Numeric helpers *)

Lemma int_IZR (n : Z) : int (IZR n) = n.
Proof.
  unfold int.
  destruct (Rle_dec 0 (IZR n)) as [_ | Hneg].
  - symmetry. apply Int_part_spec. lra.
  - rewrite <- opp_IZR.
    rewrite <- (Int_part_spec (IZR (- n)) (- n)%Z) by lra.
    lia.
Qed.

Lemma linspace_nonneg (start stop : R) (num : Z) :
  (0 <= num)%Z ->
  linspace start stop num =
    Ok (map (fun i : nat => start + INR i * ((stop - start) / IZR (num - 1)))
            (seq 0 (Z.to_nat num))).
Proof.
  intros Hnum. unfold linspace.
  destruct (num <? 0)%Z eqn:E; [apply Z.ltb_lt in E; lia | reflexivity].
Qed.

(** Closes an equation between two explicit grids, point by point. *)
Ltac grid_eq :=
  repeat (apply (f_equal2 cons); [cbn [INR]; lra |]); reflexivity.

(** The quadratic [gammaT] of [zeta] and [phaseshift_arg] has no real
    root. *)
Lemma gammaT_pos (z : R) : 0 < 1.739 - 0.0892 * z + 0.00156 * z ^ 2.
Proof.
  pose proof (pow2_ge_0 (z - 28)) as Hsq.
  nra.
Qed.

(** ** The pole of the sum-rule interpolant *)

(** The denominator [sum_j w_j / (z - z_j)] of [sumrat], on the nodes and
    weights of [sumrulefit]. *)
Definition sumrat_denominator (z : R) : R :=
  Reference.bary_sum z BulkViscTrapClass.sumrulefit.1.1 BulkViscTrapClass.sumrulefit.2.

Lemma sumrat_denominator_eq (z : R) :
  sumrat_denominator z
  = 0.33160786 / (z - 1.22144641e+01)
    + (-0.30343046 / (z - 8.33717634e-03)
       + (-0.66528124 / (z - 3.05244000e+00)
          + (0.59612671 / (z - 3.48110474e-01) + 0))).
Proof. reflexivity. Qed.

Lemma sumrat_denominator_72 : 0 < sumrat_denominator 72.
Proof. rewrite sumrat_denominator_eq. lra. Qed.

Lemma sumrat_denominator_73 : sumrat_denominator 73 < 0.
Proof. rewrite sumrat_denominator_eq. lra. Qed.

Lemma sumrat_denominator_continuous (z : R) :
  72 <= z <= 73 -> continuity_pt (fun x => - sumrat_denominator x) z.
Proof.
  intros Hz.
  replace (fun x => - sumrat_denominator x)
    with (fun x => - (0.33160786 / (x - 1.22144641e+01)
                      + (-0.30343046 / (x - 8.33717634e-03)
                         + (-0.66528124 / (x - 3.05244000e+00)
                            + (0.59612671 / (x - 3.48110474e-01) + 0)))))
    by (apply functional_extensionality; intros x;
        rewrite sumrat_denominator_eq; reflexivity).
  apply derivable_continuous_pt. reg; lra.
Qed.

(** The denominator vanishes between [z = 72] and [z = 73], that is at a
    [betamu] between [ln 72] and [ln 73], about 4.28, where [zeta] uses the
    interpolant; no node lies there, so [sumrat] is the quotient by 0. *)
Lemma sumrat_pole :
  exists betamu : R,
    -4.8 <= betamu
    /\ 72 < exp betamu < 73
    /\ sumrat_denominator (exp betamu) = 0
    /\ Reference.sumrat (exp betamu)
       = Reference.bary_sum (exp betamu) BulkViscTrapClass.sumrulefit.1.1
           (zip_with Rmult BulkViscTrapClass.sumrulefit.2
                     BulkViscTrapClass.sumrulefit.1.2)
         / 0.
Proof.
  destruct (IVT_interv (fun x => - sumrat_denominator x) 72 73)
    as (z & Hz & Hzero).
  - intros a Ha. apply sumrat_denominator_continuous, Ha.
  - lra.
  - pose proof sumrat_denominator_72. lra.
  - pose proof sumrat_denominator_73. lra.
  - assert (Hden : sumrat_denominator z = 0) by lra.
    assert (Hlo : z <> 72).
    { intros ->. pose proof sumrat_denominator_72. lra. }
    assert (Hhi : z <> 73).
    { intros ->. pose proof sumrat_denominator_73. lra. }
    assert (Hpos : 0 < z) by lra.
    exists (ln z). rewrite exp_ln by exact Hpos.
    split_and!.
    + assert (0 < ln z); [| lra].
      rewrite <- ln_1. apply ln_increasing; lra.
    + lra.
    + lra.
    + exact Hden.
    + unfold Reference.sumrat, Reference.BarycentricRational,
        BulkViscTrapClass.sumrulefit.
      cbn [Reference.at_node fst snd].
      repeat (destruct (Req_dec_T z _) as [Heq | _]; [lra |]).
      fold BulkViscTrapClass.sumrulefit.
      change (Reference.bary_sum z _ [0.33160786; -0.30343046; -0.66528124; 0.59612671])
        with (sumrat_denominator z).
      rewrite Hden. reflexivity.
Qed.

(** ** bulkvisctrap_class.py *)

Section BulkViscTheorems.

Import BulkViscTrapClass.

Variable eosrat : R -> R.
Variable sumrat : R -> R.
Variable quad : (R -> R) -> R -> limit -> R -> R * R.

(** C8, amended: for all real [betamu] and [betaomega] (zero included)
    the denominators [betaomega^2 + gammaT^2] of [zeta] and
    [phaseshift_arg] are strictly positive: the discriminant of [gammaT] is
    negative, so [gammaT] is positive for every [z]; hence the quotient of
    [phaseshift_arg] and the quotient written in [zeta] are genuine
    (multiplying back by the denominator recovers the numerator).  [zeta]
    as a whole is not free of a division by zero: it evaluates the
    interpolant [sumrat] at [z = exp(betamu)], and the denominator of that
    interpolant, on the nodes and weights of [sumrulefit], vanishes at a
    [z] between 72 and 73, with [betamu >= -4.8], where [zeta] takes the
    value of the interpolant. *)
Theorem zeta_phaseshift_denominator_positive (betamu betaomega : R) :
  let z := exp betamu in
  let gammaT := 1.739 - 0.0892 * z + 0.00156 * z ^ 2 in
  let sumruleT := where_ (ltb betamu (-4.8)) (0.36 * fpow z (5/3)) (sumrat z) in
  0.0892 ^ 2 - 4 * 0.00156 * 1.739 < 0
  /\ 0 < gammaT
  /\ 0 < betaomega ^ 2 + gammaT ^ 2
  /\ zeta sumrat betamu betaomega * (betaomega ^ 2 + gammaT ^ 2)
     = sumruleT * gammaT
  /\ phaseshift_arg betamu betaomega * (betaomega ^ 2 + gammaT ^ 2)
     = betaomega * gammaT
  /\ exists pole : R,
      -4.8 <= pole
      /\ 72 < exp pole < 73
      /\ sumrat_denominator (exp pole) = 0
      /\ Reference.sumrat (exp pole)
         = Reference.bary_sum (exp pole) sumrulefit.1.1
             (zip_with Rmult sumrulefit.2 sumrulefit.1.2)
           / 0
      /\ zeta Reference.sumrat pole betaomega
         = Reference.bary_sum (exp pole) sumrulefit.1.1
             (zip_with Rmult sumrulefit.2 sumrulefit.1.2)
           / 0
           * (1.739 - 0.0892 * exp pole + 0.00156 * exp pole ^ 2)
           / (betaomega ^ 2
              + (1.739 - 0.0892 * exp pole + 0.00156 * exp pole ^ 2) ^ 2).
Proof.
  intros z gammaT sumruleT.
  assert (Hg : 0 < gammaT) by apply gammaT_pos.
  assert (Hden : 0 < betaomega ^ 2 + gammaT ^ 2).
  { pose proof (pow2_ge_0 betaomega). nra. }
  split_and!; try assumption.
  - lra.
  - unfold zeta. fold z. fold gammaT. fold sumruleT. field. lra.
  - unfold phaseshift_arg. fold z. fold gammaT. field. lra.
  - destruct sumrat_pole as (pole & Hbranch & Hz & Hzero & Hsumrat).
    exists pole. split_and!; try assumption; try lra.
    unfold zeta, where_, ltb.
    destruct (Rlt_dec pole (-4.8)) as [Hlt | _]; [lra |].
    rewrite Hsumrat. reflexivity.
Qed.

(** C4: [eos_ufg] switches at [betamu = -8] between the Boltzmann limit
    [2 exp(betamu)] (strictly below) and twice the rational approximant
    [2 eosrat(exp(betamu))] (at and above); [zeta] uses the asymptotic
    sum rule [0.36 z^(5/3)] strictly below [betamu = -4.8] and [sumrat(z)]
    otherwise. *)
Theorem eos_ufg_zeta_thresholds (betamu betaomega : R) :
  let z := exp betamu in
  let gammaT := 1.739 - 0.0892 * z + 0.00156 * z ^ 2 in
  (betamu < -8 -> eos_ufg eosrat betamu = 2 * exp betamu)
  /\ (-8 <= betamu -> eos_ufg eosrat betamu = 2 * eosrat (exp betamu))
  /\ (betamu < -4.8 ->
      zeta sumrat betamu betaomega
      = 0.36 * fpow z (5/3) * gammaT / (betaomega ^ 2 + gammaT ^ 2))
  /\ (-4.8 <= betamu ->
      zeta sumrat betamu betaomega
      = sumrat z * gammaT / (betaomega ^ 2 + gammaT ^ 2)).
Proof.
  intros z gammaT. unfold eos_ufg, zeta, where_, ltb. fold z. fold gammaT.
  split_and!; intros Hb.
  - destruct (Rlt_dec betamu (-8)); [reflexivity | lra].
  - destruct (Rlt_dec betamu (-8)); [lra | reflexivity].
  - destruct (Rlt_dec betamu (-4.8)); [reflexivity | lra].
  - destruct (Rlt_dec betamu (-4.8)); [lra | reflexivity].
Qed.

(** C2: the trap averages are [quad] integrals over the potential value
    [v] from [0] to infinity, weighted by the area of the equipotential
    surface [w(v) = 2 / betabaromega^3 * sqrt(v / pi)], of the equation of
    state at the shifted argument [betamu - v]: [number_per_spin]
    integrates [w(v) eos_ufg(betamu - v) / 2], and [Ztrap] in
    [heating_trap] integrates
    [w(v) eos_ufg(betamu - v)^(1/3) zeta(betamu - v, betaomega)]. *)
Theorem trap_averages_are_weighted_integrals
        (T betamu betaomega betabaromega : R) :
  let w := fun v => 2 / (betabaromega ^ 3) * sqrt (v / PI) in
  let Ztrap :=
    fst (quad (fun v => w v * fpow (eos_ufg eosrat (betamu - v)) (1/3)
                        * zeta sumrat (betamu - v) betaomega) 0 inf 1e-4) in
  (forall v, weight v betabaromega = w v)
  /\ number_per_spin eosrat quad betamu betabaromega
     = fst (quad (fun v => w v * eos_ufg eosrat (betamu - v) / 2) 0 inf 1e-4)
  /\ heating_trap eosrat sumrat quad T betamu betaomega betabaromega
     = 9 * PI * (T * betaomega) ^ 2 / fpow (3 * PI ^ 2) (2/3) * Ztrap.
Proof.
  intros w Ztrap. subst Ztrap.
  unfold number_per_spin, heating_trap, weight. fold w.
  split; [reflexivity | split].
  - destruct (quad _ 0 inf 1e-4) as [N_sigma Nerr]. reflexivity.
  - destruct (quad _ 0 inf 1e-4) as [Ztrap Ztraperr]. reflexivity.
Qed.

(** The grid of [BulkViscUniform]: 0, 1000, ..., 160000. *)
Definition uniform_grid : list R := map (fun i : nat => INR i * 1000) (seq 0 161).

Lemma linspace_uniform_grid : linspace 0 160000 161 = Ok uniform_grid.
Proof.
  rewrite linspace_nonneg by lia. f_equal.
  apply map_ext. intros i.
  replace (161 - 1)%Z with 160%Z by lia. lra.
Qed.

Lemma BulkViscTrap_nus (T barnu mutrap nu_max : R) :
  bvt_nus <$> BulkViscTrap_init eosrat sumrat quad T barnu mutrap nu_max
  = linspace 0 nu_max (int (nu_max / 1e3) + 1).
Proof.
  unfold BulkViscTrap_init.
  destruct (linspace 0 nu_max _) as [nus | e]; [| reflexivity].
  cbn [mbind result_bind].
  destruct (thermo_trap eosrat quad _ _ _) as [[[Ns EF] Theta] Epot].
  reflexivity.
Qed.

(** C10: whatever [nu_max] is passed, [BulkViscUniform] builds the same
    frequency grid, the 161-point linspace from 0 to 160000 Hz, because
    [nu_max] is overwritten before the grid is built; the grid of
    [BulkViscTrap] is the linspace of its own [nu_max] and changes with
    it. *)
Theorem BulkViscUniform_grid_ignores_nu_max (T barnu mubulk nu_max : R) :
  bvu_nus <$> BulkViscUniform_init eosrat sumrat quad T barnu mubulk nu_max
    = linspace 0 160000 161
  /\ linspace 0 160000 161 = Ok uniform_grid
  /\ length uniform_grid = 161%nat
  /\ uniform_grid !! 0%nat = Some 0
  /\ uniform_grid !! 160%nat = Some 160000
  /\ (forall T' barnu' mutrap nu_max',
        bvt_nus <$> BulkViscTrap_init eosrat sumrat quad T' barnu' mutrap nu_max'
        = linspace 0 nu_max' (int (nu_max' / 1e3) + 1))
  /\ bvt_nus <$> BulkViscTrap_init eosrat sumrat quad T barnu mubulk 1000
     = Ok [0; 1000]
  /\ bvt_nus <$> BulkViscTrap_init eosrat sumrat quad T barnu mubulk 2000
     = Ok [0; 1000; 2000].
Proof.
  split; [| split; [apply linspace_uniform_grid |]].
  - unfold BulkViscUniform_init.
    replace (160000 / 1000) with (IZR 160) by lra.
    rewrite int_IZR. change (160 + 1)%Z with 161%Z.
    rewrite linspace_uniform_grid. cbn [mbind result_bind].
    destruct (thermo_bulk eosrat quad _ _) as [[[f_n theta] f_p] Ebulk].
    reflexivity.
  - unfold uniform_grid. split_and!.
    + rewrite length_map, length_seq. reflexivity.
    + simpl. f_equal. lra.
    + rewrite list_lookup_fmap, lookup_seq_lt by lia.
      cbn [fmap option_fmap option_map]. f_equal.
      rewrite INR_IZR_INZ. change (Z.of_nat (0 + 160)) with 160%Z. lra.
    + intros. apply BulkViscTrap_nus.
    + rewrite BulkViscTrap_nus.
      replace (1000 / 1e3) with (IZR 1) by lra.
      rewrite int_IZR, linspace_nonneg by lia.
      change (1 + 1 - 1)%Z with 1%Z. change (Z.to_nat (1 + 1)) with 2%nat.
      cbn [seq map]. f_equal. grid_eq.
    + rewrite BulkViscTrap_nus.
      replace (2000 / 1e3) with (IZR 2) by lra.
      rewrite int_IZR, linspace_nonneg by lia.
      change (2 + 1 - 1)%Z with 2%Z. change (Z.to_nat (2 + 1)) with 3%nat.
      cbn [seq map]. f_equal. grid_eq.
Qed.

End BulkViscTheorems.

Section TrapToTFTheorems.

Import BulkViscTrapClass.

Variable eosrat : R -> R.
Variable sumrat : R -> R.
Variable quad : (R -> R) -> R -> limit -> R -> R * R.
Variable root_scalar : (R -> R) -> R * R -> option R -> result RootResults.

Lemma thermo_trap_eq (T betamu betabaromega : R) :
  thermo_trap eosrat quad T betamu betabaromega
  = (number_per_spin eosrat quad betamu betabaromega,
     T * betabaromega
     * fpow (6 * number_per_spin eosrat quad betamu betabaromega) (1/3),
     T / (T * betabaromega
          * fpow (6 * number_per_spin eosrat quad betamu betabaromega) (1/3)),
     T * Epot_trap eosrat quad betamu betabaromega).
Proof. reflexivity. Qed.

Lemma BulkViscTrap_init_inv (T barnu mutrap nu_max : R) (self : BulkViscTrap) :
  BulkViscTrap_init eosrat sumrat quad T barnu mutrap nu_max = Ok self ->
  bvt_EF self = (thermo_trap eosrat quad T (mutrap / T) (barnu / T)).1.1.2
  /\ bvt_Etotal self = 2 * (thermo_trap eosrat quad T (mutrap / T) (barnu / T)).2.
Proof.
  unfold BulkViscTrap_init.
  destruct (linspace 0 nu_max _) as [nus | e]; [| discriminate].
  cbn [mbind result_bind]. rewrite thermo_trap_eq.
  intros [= <-]. split; reflexivity.
Qed.

Lemma BulkViscTrap_init_returns (T barnu mutrap nu_max : R) :
  (0 <= int (nu_max / 1e3) + 1)%Z ->
  exists self, BulkViscTrap_init eosrat sumrat quad T barnu mutrap nu_max = Ok self.
Proof.
  intros Hnum. unfold BulkViscTrap_init.
  rewrite linspace_nonneg by exact Hnum.
  cbn [mbind result_bind]. rewrite thermo_trap_eq. eexists. reflexivity.
Qed.

Lemma find_betamu_inv (T EF betabaromega : R) (guess : option R)
      (betamu : R) (no_iter : nat) :
  find_betamu eosrat quad root_scalar T EF betabaromega guess = Ok (betamu, no_iter) ->
  exists sol,
    root_scalar
      (fun x => EF - T * betabaromega
                     * fpow (6 * number_per_spin eosrat quad x betabaromega) (1/3))
      (20e3 / T, -300e3 / T) guess = Ok sol
    /\ root sol = betamu.
Proof.
  unfold find_betamu.
  destruct (root_scalar _ _ guess) as [sol | e]; [| discriminate].
  cbn [mbind result_bind mret result_ret]. intros [= <- _].
  exists sol. split; reflexivity.
Qed.

Lemma BulkViscTrapToTF_init_inv (Theta EF barnu : R) (mutrap_guess : option R)
      (nu_max : R) (self : BulkViscTrapToTF) :
  BulkViscTrapToTF_init eosrat sumrat quad root_scalar
                        Theta EF barnu mutrap_guess nu_max = Ok self ->
  let T := EF * Theta in
  exists betamutrap no_iter guess,
    find_betamu eosrat quad root_scalar T EF (barnu / T) guess
      = Ok (betamutrap, no_iter)
    /\ tot_EF self = (thermo_trap eosrat quad T betamutrap (barnu / T)).1.1.2
    /\ tot_Etotal self = 2 * (thermo_trap eosrat quad T betamutrap (barnu / T)).2.
Proof.
  intros Hinit T. unfold BulkViscTrapToTF_init in Hinit. fold T in Hinit.
  destruct (linspace 1e3 nu_max _) as [nus | e]; [| discriminate].
  destruct mutrap_guess as [mutrap_guess |]; [| discriminate].
  cbn [mbind result_bind div_opt] in Hinit.
  destruct (find_betamu eosrat quad root_scalar T EF (barnu / T) _)
    as [[betamutrap no_iter] | e] eqn:Hfind; [| discriminate].
  cbn [mbind result_bind] in Hinit.
  rewrite thermo_trap_eq in Hinit. injection Hinit as <-.
  exists betamutrap, no_iter, (Some (mutrap_guess / T)).
  split; [exact Hfind | split; reflexivity].
Qed.

Lemma BulkViscTrapToTF_init_returns (Theta EF barnu mutrap_guess nu_max : R)
      (betamutrap : R) (no_iter : nat) :
  (0 <= 2 * int (nu_max / 1e3) - 1)%Z ->
  find_betamu eosrat quad root_scalar (EF * Theta) EF (barnu / (EF * Theta))
              (Some (mutrap_guess / (EF * Theta))) = Ok (betamutrap, no_iter) ->
  exists self,
    BulkViscTrapToTF_init eosrat sumrat quad root_scalar
                          Theta EF barnu (Some mutrap_guess) nu_max = Ok self.
Proof.
  intros Hnum Hfind. unfold BulkViscTrapToTF_init.
  rewrite linspace_nonneg by exact Hnum.
  cbn [mbind result_bind div_opt]. rewrite Hfind.
  cbn [mbind result_bind]. rewrite thermo_trap_eq. eexists. reflexivity.
Qed.

(** C3: every constructed [BulkViscTrap] and [BulkViscTrapToTF] stores as
    [Etotal] exactly twice the trapping potential energy
    [T * Epot_trap(betamu, betabaromega)] that [thermo_trap] returned
    (virial theorem). *)
Theorem Etotal_is_twice_trap_potential_energy :
  (forall T barnu mutrap nu_max self,
      BulkViscTrap_init eosrat sumrat quad T barnu mutrap nu_max = Ok self ->
      (thermo_trap eosrat quad T (mutrap / T) (barnu / T)).2
        = T * Epot_trap eosrat quad (mutrap / T) (barnu / T)
      /\ bvt_Etotal self
         = 2 * (T * Epot_trap eosrat quad (mutrap / T) (barnu / T)))
  /\ (forall Theta EF barnu mutrap_guess nu_max self,
        BulkViscTrapToTF_init eosrat sumrat quad root_scalar
                              Theta EF barnu mutrap_guess nu_max = Ok self ->
        let T := EF * Theta in
        exists betamutrap no_iter guess,
          find_betamu eosrat quad root_scalar T EF (barnu / T) guess
            = Ok (betamutrap, no_iter)
          /\ (thermo_trap eosrat quad T betamutrap (barnu / T)).2
             = T * Epot_trap eosrat quad betamutrap (barnu / T)
          /\ tot_Etotal self
             = 2 * (T * Epot_trap eosrat quad betamutrap (barnu / T))).
Proof.
  split.
  - intros T barnu mutrap nu_max self Hinit.
    apply BulkViscTrap_init_inv in Hinit as [_ HE].
    split; [reflexivity | exact HE].
  - intros Theta EF barnu mutrap_guess nu_max self Hinit T.
    apply BulkViscTrapToTF_init_inv in Hinit
      as (betamutrap & no_iter & guess & Hfind & _ & HE).
    exists betamutrap, no_iter, guess.
    split; [exact Hfind | split; [reflexivity | exact HE]].
Qed.

(** What is assumed of [root_scalar] with a bracket (Brent's method),
    idealised to exact arithmetic: a returned root is a zero of the
    function, and a root is returned whenever the function is continuous
    and takes values of opposite sign at the two ends of the bracket. *)
Definition exact_bracketing_solver : Prop :=
  (forall f bracket x0 sol,
      root_scalar f bracket x0 = Ok sol -> f (root sol) = 0)
  /\ (forall f a b x0,
        continuity f -> f a * f b < 0 ->
        exists sol, root_scalar f (a, b) x0 = Ok sol).



End TrapToTFTheorems.

(** ** The reference instances meet the assumptions *)

Lemma ivt_root_scalar_exact :
  exact_bracketing_solver Reference.ivt_root_scalar.
Proof.
  split.
  - intros f bracket x0 sol. unfold Reference.ivt_root_scalar.
    destruct (excluded_middle_informative _) as [H | H]; [| discriminate].
    intros [= <-]. cbn [root].
    exact (proj2_sig (Reference.ivt_zero f (fst bracket) (snd bracket) H)).
  - intros f a b x0 Hcont Hsign. unfold Reference.ivt_root_scalar.
    destruct (excluded_middle_informative _) as [H | H].
    + eexists. reflexivity.
    + exfalso. apply H. cbn [fst snd]. split; [exact Hcont | lra].
Qed.

Lemma ln_12_bounds : 0 < ln 12 < 12.
Proof.
  split.
  - rewrite <- ln_1. apply ln_increasing; lra.
  - rewrite <- (ln_exp 12) at 2. apply ln_increasing; [lra |].
    pose proof (exp_ineq1 12). lra.
Qed.

(** The Boltzmann gas under the one-point rule, at [betabaromega = 1]:
    [N_sigma = 2 exp(betamu - pi)]. *)
Lemma boltzmann_number_per_spin (x : R) :
  BulkViscTrapClass.number_per_spin Reference.boltzmann Reference.one_point_quad x 1
  = 2 * exp (x - PI).
Proof.
  unfold BulkViscTrapClass.number_per_spin, Reference.one_point_quad,
    BulkViscTrapClass.weight, BulkViscTrapClass.eos_ufg, Reference.boltzmann, where_.
  replace (PI / PI) with 1 by (field; apply PI_neq0).
  rewrite sqrt_1. destruct (ltb (x - PI) (-8)); lra.
Qed.

Lemma boltzmann_equation (T betabaromega x : R) :
  T = 1 -> betabaromega = 1 ->
  1 - T * betabaromega
      * fpow (6 * BulkViscTrapClass.number_per_spin
                    Reference.boltzmann Reference.one_point_quad x betabaromega) (1/3)
  = 1 - exp (1/3 * (ln 12 + (x - PI))).
Proof.
  intros -> ->. rewrite boltzmann_number_per_spin.
  pose proof (exp_pos (x - PI)) as Hexp.
  unfold fpow. destruct (Rlt_dec 0 (6 * (2 * exp (x - PI)))) as [_ | Hn]; [| lra].
  unfold Rpower.
  replace (6 * (2 * exp (x - PI))) with (12 * exp (x - PI)) by lra.
  rewrite ln_mult, ln_exp by lra. lra.
Qed.

Lemma boltzmann_equation_continuous (T betabaromega : R) :
  T = 1 -> betabaromega = 1 ->
  continuity (fun x =>
    1 - T * betabaromega
        * fpow (6 * BulkViscTrapClass.number_per_spin
                      Reference.boltzmann Reference.one_point_quad x betabaromega)
               (1/3)).
Proof.
  intros HT Hb.
  replace (fun x => _) with (fun x => 1 - exp (1/3 * (ln 12 + (x - PI)))).
  - apply derivable_continuous. intros x. reg.
  - apply functional_extensionality. intros x.
    symmetry. apply boltzmann_equation; assumption.
Qed.

Lemma boltzmann_equation_sign_change (T betabaromega : R) :
  T = 1 -> betabaromega = 1 ->
  (1 - T * betabaromega
       * fpow (6 * BulkViscTrapClass.number_per_spin
                     Reference.boltzmann Reference.one_point_quad
                     (20e3 / T) betabaromega) (1/3))
  * (1 - T * betabaromega
         * fpow (6 * BulkViscTrapClass.number_per_spin
                       Reference.boltzmann Reference.one_point_quad
                       (-300e3 / T) betabaromega) (1/3)) < 0.
Proof.
  intros HT Hb. rewrite !boltzmann_equation by assumption. subst T.
  pose proof ln_12_bounds as [Hl0 Hl12].
  pose proof PI_RGT_0 as Hpi0. pose proof PI_4 as Hpi4.
  assert (Hhi : 1 < exp (1/3 * (ln 12 + (20e3 / 1 - PI)))).
  { pose proof (exp_ineq1 (1/3 * (ln 12 + (20e3 / 1 - PI)))). lra. }
  assert (Hlo : exp (1/3 * (ln 12 + (-300e3 / 1 - PI))) < 1).
  { apply Rlt_le_trans with (exp 0); [| rewrite exp_0; lra].
    apply exp_increasing. lra. }
  pose proof (exp_pos (1/3 * (ln 12 + (-300e3 / 1 - PI)))).
  nra.
Qed.

Lemma boltzmann_find_betamu_returns (T betabaromega : R) (guess : option R) :
  T = 1 -> betabaromega = 1 ->
  exists betamu no_iter,
    BulkViscTrapClass.find_betamu
      Reference.boltzmann Reference.one_point_quad Reference.ivt_root_scalar
      T 1 betabaromega guess = Ok (betamu, no_iter).
Proof.
  intros HT Hb.
  destruct (proj2 ivt_root_scalar_exact
              (fun x => 1 - T * betabaromega
                 * fpow (6 * BulkViscTrapClass.number_per_spin
                               Reference.boltzmann Reference.one_point_quad
                               x betabaromega) (1/3))
              (20e3 / T) (-300e3 / T) guess) as [sol Hsol].
  - apply boltzmann_equation_continuous; assumption.
  - apply boltzmann_equation_sign_change; assumption.
  - exists (root sol), (iterations sol).
    unfold BulkViscTrapClass.find_betamu. rewrite Hsol. reflexivity.
Qed.

Lemma boltzmann_TrapToTF_returns :
  exists self,
    BulkViscTrapClass.BulkViscTrapToTF_init
      Reference.boltzmann Reference.sumrat Reference.one_point_quad
      Reference.ivt_root_scalar 1 1 1 (Some 0) 2000 = Ok self.
Proof.
  destruct (boltzmann_find_betamu_returns (1 * 1) (1 / (1 * 1)) (Some (0 / (1 * 1))))
    as (betamu & no_iter & Hfind); [lra | lra |].
  apply (BulkViscTrapToTF_init_returns _ _ _ _ 1 1 1 0 2000 betamu no_iter).
  - replace (2000 / 1e3) with (IZR 2) by lra. rewrite int_IZR. lia.
  - exact Hfind.
Qed.

(** ** Instances of the conditional theorems *)

Lemma eos_ufg_zeta_thresholds_witness :
  BulkViscTrapClass.eos_ufg Reference.eosrat (-9) = 2 * exp (-9)
  /\ BulkViscTrapClass.eos_ufg Reference.eosrat 0 = 2 * Reference.eosrat (exp 0)
  /\ BulkViscTrapClass.zeta Reference.sumrat (-5) 1
     = 0.36 * fpow (exp (-5)) (5/3)
       * (1.739 - 0.0892 * exp (-5) + 0.00156 * exp (-5) ^ 2)
       / (1 ^ 2 + (1.739 - 0.0892 * exp (-5) + 0.00156 * exp (-5) ^ 2) ^ 2)
  /\ BulkViscTrapClass.zeta Reference.sumrat 0 1
     = Reference.sumrat (exp 0)
       * (1.739 - 0.0892 * exp 0 + 0.00156 * exp 0 ^ 2)
       / (1 ^ 2 + (1.739 - 0.0892 * exp 0 + 0.00156 * exp 0 ^ 2) ^ 2).
Proof.
  split; [| split; [| split]].
  - apply (eos_ufg_zeta_thresholds Reference.eosrat Reference.sumrat (-9) 1). lra.
  - apply (eos_ufg_zeta_thresholds Reference.eosrat Reference.sumrat 0 1). lra.
  - apply (eos_ufg_zeta_thresholds Reference.eosrat Reference.sumrat (-5) 1). lra.
  - apply (eos_ufg_zeta_thresholds Reference.eosrat Reference.sumrat 0 1). lra.
Defined.

Lemma Etotal_is_twice_trap_potential_energy_witness :
  (exists self,
      BulkViscTrapClass.BulkViscTrap_init
        Reference.boltzmann Reference.sumrat Reference.one_point_quad
        1 1 0 2000 = Ok self
      /\ BulkViscTrapClass.bvt_Etotal self
         = 2 * (1 * BulkViscTrapClass.Epot_trap
                      Reference.boltzmann Reference.one_point_quad (0 / 1) (1 / 1)))
  /\ (exists self,
        BulkViscTrapClass.BulkViscTrapToTF_init
          Reference.boltzmann Reference.sumrat Reference.one_point_quad
          Reference.ivt_root_scalar 1 1 1 (Some 0) 2000 = Ok self
        /\ exists betamutrap,
            BulkViscTrapClass.tot_Etotal self
            = 2 * (1 * 1 * BulkViscTrapClass.Epot_trap
                             Reference.boltzmann Reference.one_point_quad
                             betamutrap (1 / (1 * 1)))).
Proof.
  pose proof (Etotal_is_twice_trap_potential_energy
                Reference.boltzmann Reference.sumrat Reference.one_point_quad
                Reference.ivt_root_scalar) as [Htrap Htotf].
  split.
  - destruct (BulkViscTrap_init_returns
                Reference.boltzmann Reference.sumrat Reference.one_point_quad
                1 1 0 2000) as [self Hself].
    + replace (2000 / 1e3) with (IZR 2) by lra. rewrite int_IZR. lia.
    + exists self. split; [exact Hself |].
      exact (proj2 (Htrap 1 1 0 2000 self Hself)).
  - destruct boltzmann_TrapToTF_returns as [self Hself].
    exists self. split; [exact Hself |].
    destruct (Htotf 1 1 1 (Some 0) 2000 self Hself)
      as (betamutrap & no_iter & guess & _ & _ & HE).
    exists betamutrap. exact HE.
Defined.


(** C8 as stated fails: [zeta] is not free of a division by zero.  At a
    [betamu] with [exp(betamu)] between 72 and 73, in the branch
    [betamu >= -4.8] where [zeta] takes [sumrat(z)], the denominator of the
    interpolant built from [sumrulefit] is 0, and none of its nodes is
    hit: [sumrat(z)] is the quotient by 0, and [zeta] is that quotient
    times [gammaT / (betaomega^2 + gammaT^2)]. *)
Lemma zeta_divides_by_zero_counterexample :
  exists betamu : R,
    -4.8 <= betamu
    /\ 72 < exp betamu < 73
    /\ Reference.bary_sum (exp betamu) BulkViscTrapClass.sumrulefit.1.1
         BulkViscTrapClass.sumrulefit.2 = 0
    /\ Reference.at_node (exp betamu) BulkViscTrapClass.sumrulefit.1.1
         BulkViscTrapClass.sumrulefit.1.2 = None
    /\ BulkViscTrapClass.zeta Reference.sumrat betamu 1
       = Reference.bary_sum (exp betamu) BulkViscTrapClass.sumrulefit.1.1
           (zip_with Rmult BulkViscTrapClass.sumrulefit.2
                     BulkViscTrapClass.sumrulefit.1.2)
         / Reference.bary_sum (exp betamu) BulkViscTrapClass.sumrulefit.1.1
             BulkViscTrapClass.sumrulefit.2
         * (1.739 - 0.0892 * exp betamu + 0.00156 * exp betamu ^ 2)
         / (1 ^ 2 + (1.739 - 0.0892 * exp betamu + 0.00156 * exp betamu ^ 2) ^ 2).
Proof.
  destruct sumrat_pole as (betamu & Hbranch & Hz & Hzero & Hsumrat).
  exists betamu. split_and!; try assumption; try lra.
  - unfold BulkViscTrapClass.sumrulefit. cbn [Reference.at_node fst snd].
    repeat (destruct (Req_dec_T (exp betamu) _) as [Heq | _]; [lra |]).
    reflexivity.
  - unfold BulkViscTrapClass.zeta, where_, ltb.
    destruct (Rlt_dec betamu (-4.8)) as [Hlt | _]; [lra |].
    rewrite Hsumrat. unfold sumrat_denominator in Hzero. rewrite Hzero.
    reflexivity.
Qed.

(** ** fit_functions.py *)

Section FitFunctionsTheorems.

Import FitFunctions.

Variable erfc : R -> R.

Lemma np_max_returns (a : list R) : a <> [] -> exists v, np_max a = Ok v.
Proof. destruct a as [| x a']; [congruence | intros _; eexists; reflexivity]. Qed.

Lemma np_min_returns (a : list R) : a <> [] -> exists v, np_min a = Ok v.
Proof. destruct a as [| x a']; [congruence | intros _; eexists; reflexivity]. Qed.

Lemma argmax_from_bound (a : list R) :
  forall best besti i, (besti < i)%nat ->
    (argmax_from best besti i a < i + length a)%nat.
Proof.
  induction a as [| x a' IH]; intros best besti i Hlt; cbn [argmax_from length].
  - lia.
  - destruct (Rlt_dec best x).
    + specialize (IH x i (S i)). lia.
    + specialize (IH best besti (S i)). lia.
Qed.

Lemma x_of_absmax_returns (d : data) :
  d <> [] -> exists x, x_of_absmax d = Ok x.
Proof.
  intros Hd. unfold x_of_absmax, np_argmax, col1.
  destruct d as [| row d']; [congruence |].
  cbn [map mbind result_bind]. unfold getitem0, data.
  pose proof (argmax_from_bound (map Rabs (map snd d')) (Rabs row.2) 0 1) as Hb.
  rewrite !length_map in Hb.
  destruct ((row :: d') !! argmax_from (Rabs row.2) 0 1 (map Rabs (map snd d')))
    as [row' |] eqn:Hrow.
  - eexists. reflexivity.
  - apply lookup_ge_None in Hrow. cbn [length] in Hrow. lia.
Qed.

(** All the statistics the catalogue takes of a non-empty array exist. *)
Lemma statistics_return (d : data) :
  d <> [] ->
  exists x_ofmax max_x min_x max_y min_y,
    x_of_absmax d = Ok x_ofmax
    /\ np_max (col0 d) = Ok max_x /\ np_min (col0 d) = Ok min_x
    /\ np_max (col1 d) = Ok max_y /\ np_min (col1 d) = Ok min_y.
Proof.
  intros Hd.
  assert (H0 : col0 d <> []) by (destruct d; [congruence | discriminate]).
  assert (H1 : col1 d <> []) by (destruct d; [congruence | discriminate]).
  destruct (x_of_absmax_returns d Hd) as [x_ofmax Hx].
  destruct (np_max_returns _ H0) as [max_x Hmax0].
  destruct (np_min_returns _ H0) as [min_x Hmin0].
  destruct (np_max_returns _ H1) as [max_y Hmax1].
  destruct (np_min_returns _ H1) as [min_y Hmin1].
  exists x_ofmax, max_x, min_x, max_y, min_y. tauto.
Qed.

(** Runs a catalogue function on a non-empty array. *)
Ltac run_catalogue Hd :=
  destruct (statistics_return _ Hd)
    as (x_ofmax & max_x & min_x & max_y & min_y & Hx & Hmax0 & Hmin0 & Hmax1 & Hmin1);
  repeat (first [rewrite Hx | rewrite Hmax0 | rewrite Hmin0
                 | rewrite Hmax1 | rewrite Hmin1];
          cbn [mbind result_bind]).

(** Decides how many parameters a model of the catalogue takes. *)
Ltac solve_arity :=
  intros x p; split;
  [ intros [y Hy];
    repeat (destruct p as [| ? p]; cbn in Hy; try discriminate Hy; try reflexivity)
  | intros Hlen;
    repeat (destruct p as [| ? p]; try discriminate Hlen);
    eexists; reflexivity ].

Lemma arity_linear : arity linear 2. Proof. solve_arity. Qed.
Lemma arity_parabola : arity parabola 3. Proof. solve_arity. Qed.
Lemma arity_sqrt : arity sqrt_ 2. Proof. solve_arity. Qed.
Lemma arity_gaussian : arity gaussian 4. Proof. solve_arity. Qed.
Lemma arity_lorentzian : arity lorentzian 4. Proof. solve_arity. Qed.
Lemma arity_sin : arity sin_ 4. Proof. solve_arity. Qed.
Lemma arity_sinc : arity sinc 4. Proof. solve_arity. Qed.
Lemma arity_sinc2 : arity sinc2 4. Proof. solve_arity. Qed.
Lemma arity_TrapFreq : arity TrapFreq_ 6. Proof. solve_arity. Qed.
Lemma arity_TrapFreq2 : arity TrapFreq2_ 6. Proof. solve_arity. Qed.
Lemma arity_RabiFreq : arity RabiFreq_ 4. Proof. solve_arity. Qed.
Lemma arity_Exponential : arity Exponential 2. Proof. solve_arity. Qed.
Lemma arity_RabiLine : arity RabiLine_ 8. Proof. solve_arity. Qed.
Lemma arity_ErfcFit : arity (ErfcFit_ erfc) 4. Proof. solve_arity. Qed.
Lemma arity_SinplusCos : arity SinplusCos_ 4. Proof. solve_arity. Qed.
Lemma arity_FixedSin : arity FixedSin_ 3. Proof. solve_arity. Qed.
Lemma arity_FixedSin5kHz : arity FixedSin5kHz_ 3. Proof. solve_arity. Qed.

(** The inner function and the parameter names of each entry of
    [catalogue], in the same order. *)
Definition catalogue_models : list (model * list string) :=
  [ (linear, ["m"; "b"]);
    (parabola, ["A"; "x0"; "C"]);
    (sqrt_, ["A"; "x0"]);
    (gaussian, ["A"; "x0"; "sigma"; "C"]);
    (lorentzian, ["A"; "x0"; "sigma"; "C"]);
    (sin_, ["A"; "omega"; "phi"; "C"]);
    (sinc, ["A"; "x0"; "sigma"; "C"]);
    (sinc2, ["A"; "x0"; "sigma"; "C"]);
    (TrapFreq_, ["Amplitude"; "b"; "l"; "Center"; "Offset"; "Linear Slope"]);
    (TrapFreq2_, ["Amplitude"; "b"; "l"; "Center"; "Offset"]);
    (RabiFreq_, ["Amplitdue"; "b"; "Center"; "Offset"]);
    (Exponential, ["Amplitude"; "sigma"]);
    (RabiLine_, ["b"; "l"; "m"; "A"; "s"; "j"; "k"; "p"]);
    (ErfcFit_ erfc, ["Amp"; "Center"; "b"; "Offset"]);
    (SinplusCos_, ["Sin Amp"; "Cos Amp"; "Offset"]);
    (FixedSin_, ["Amplitude"; "phase"; "offset"]);
    (FixedSin5kHz_, ["Amplitude"; "phase"; "offset"]) ]%string.

(** C6, amended: on every array with at least one row, each of the 17
    public functions returns a triple (model, guess, names) whose model and
    names are fixed, whatever the array; only the guess is taken from the
    array.  For the 14 functions other than [Sinc2], [FixedSin] and
    [FixedSin5kHz] the model is the expression of the docstring; the model
    of [Sinc2] is [A sinc((x - x0) / sigma)^2 + C], and [FixedSin] and
    [FixedSin5kHz] use [omega = 0.010 * 2 pi] and [omega = 0.005 * 2 pi]. *)
Theorem catalogue_models_do_not_depend_on_data :
  (forall d : data, d <> [] ->
     Forall2 (fun entry expected =>
                exists guess, entry.2 d = Ok (expected.1, guess, expected.2))
             (catalogue erfc) catalogue_models)
  /\ (forall x m b, linear x [m; b] = Ok (Docstring.Linear x m b))
  /\ (forall x A x0 C, parabola x [A; x0; C] = Ok (Docstring.Parabola x A x0 C))
  /\ (forall x A x0, sqrt_ x [A; x0] = Ok (Docstring.Sqrt x A x0))
  /\ (forall x A x0 sigma C,
        gaussian x [A; x0; sigma; C] = Ok (Docstring.Gaussian x A x0 sigma C))
  /\ (forall x A x0 sigma C,
        lorentzian x [A; x0; sigma; C] = Ok (Docstring.Lorentzian x A x0 sigma C))
  /\ (forall x A omega phi C,
        sin_ x [A; omega; phi; C] = Ok (Docstring.Sin x A omega phi C))
  /\ (forall x A x0 sigma C,
        sinc x [A; x0; sigma; C] = Ok (Docstring.Sinc x A x0 sigma C))
  /\ (forall x A b l x0 C D,
        TrapFreq_ x [A; b; l; x0; C; D] = Ok (Docstring.TrapFreq x A b l x0 C D))
  /\ (forall x A b l x0 C D,
        TrapFreq2_ x [A; b; l; x0; C; D] = Ok (Docstring.TrapFreq2 x A b l x0 C))
  /\ (forall x A b x0 C,
        RabiFreq_ x [A; b; x0; C] = Ok (Docstring.RabiFreq x A b x0 C))
  /\ (forall x A sigma, Exponential x [A; sigma] = Ok (Docstring.Expontial x A sigma))
  /\ (forall x b l m A s j k p,
        RabiLine_ x [b; l; m; A; s; j; k; p]
        = Ok (Docstring.RabiLine x b l m A s j k p))
  /\ (forall x A x0 b C,
        ErfcFit_ erfc x [A; x0; b; C] = Ok (Docstring.ErfcFit erfc x A x0 b C))
  /\ (forall t omega A B C,
        SinplusCos_ t [omega; A; B; C] = Ok (Docstring.SinplusCos t omega A B C))
  /\ (forall x A x0 sigma C,
        sinc2 x [A; x0; sigma; C] = Ok (A * np_sinc ((x - x0) / sigma) ^ 2 + C))
  /\ (forall t A p C,
        FixedSin_ t [A; p; C] = Ok (A * sin (0.010 * 2 * PI * t - p) + C))
  /\ (forall t A p C,
        FixedSin5kHz_ t [A; p; C] = Ok (A * sin (0.005 * 2 * PI * t - p) + C)).
Proof.
  split; [| split_and!; reflexivity].
  intros d Hd. unfold catalogue, catalogue_models.
  repeat (constructor;
          [ cbn [fst snd];
            unfold Linear, Parabola, Sqrt, Gaussian, Lorentzian, Sin, Sinc, Sinc2,
              TrapFreq, TrapFreq2, RabiFreq, Expontial, RabiLine, ErfcFit,
              SinplusCos, FixedSin, FixedSin5kHz;
            run_catalogue Hd; eexists; reflexivity |]).
  constructor.
Qed.

(** The 15 entries whose guess, names and model agree in number. *)
Lemma guess_names_arity_agree (d : data) :
  d <> [] ->
  Forall (fun entry : string * (data -> result fit) =>
            entry.1 = "TrapFreq2"%string \/ entry.1 = "SinplusCos"%string
            \/ match entry.2 d with
               | Ok (f, Some guess, names) =>
                   length guess = length names /\ arity f (length guess)
               | Ok (f, None, names) => True
               | Raise _ => False
               end)
         (catalogue erfc).
Proof.
  intros Hd. unfold catalogue.
  repeat (apply Forall_cons; split;
          [ cbn [fst snd];
            first [ left; reflexivity | right; left; reflexivity | right; right ];
            unfold Linear, Parabola, Sqrt, Gaussian, Lorentzian, Sin, Sinc, Sinc2,
              TrapFreq, RabiFreq, Expontial, RabiLine, ErfcFit,
              FixedSin, FixedSin5kHz;
            run_catalogue Hd; cbn [mret result_ret length];
            first [ exact I
                  | split; [reflexivity |];
                    first [ apply arity_parabola | apply arity_sqrt
                          | apply arity_gaussian | apply arity_lorentzian
                          | apply arity_sin | apply arity_sinc | apply arity_sinc2
                          | apply arity_TrapFreq | apply arity_RabiFreq
                          | apply arity_Exponential | apply arity_RabiLine
                          | apply arity_ErfcFit | apply arity_FixedSin
                          | apply arity_FixedSin5kHz ] ]
          |]).
  apply Forall_nil. exact I.
Qed.

(** C9 at its failing inputs: on the one-row array [[0, 1]], [TrapFreq2]
    returns a guess of 6 values and a model of 6 parameters with 5 names,
    [SinplusCos] a guess of 4 values and a model of 4 parameters with 3
    names. *)
Theorem TrapFreq2_SinplusCos_names_too_short :
  TrapFreq2 [(0, 1)]
  = Ok (TrapFreq2_, Some [10000; 0.05; 20; -2; 100; -0.1],
        ["Amplitude"; "b"; "l"; "Center"; "Offset"]%string)
  /\ length [10000; 0.05; 20; -2; 100; -0.1] = 6%nat
  /\ length ["Amplitude"; "b"; "l"; "Center"; "Offset"]%string = 5%nat
  /\ arity TrapFreq2_ 6
  /\ SinplusCos [(0, 1)]
     = Ok (SinplusCos_, Some [1; 1; 1; 0], ["Sin Amp"; "Cos Amp"; "Offset"]%string)
  /\ length [1; 1; 1; 0] = 4%nat
  /\ length ["Sin Amp"; "Cos Amp"; "Offset"]%string = 3%nat
  /\ arity SinplusCos_ 4.
Proof.
  split_and!; try reflexivity.
  - apply arity_TrapFreq2.
  - apply arity_SinplusCos.
Qed.

End FitFunctionsTheorems.

Lemma PI_gt_314 : 3.14 < PI.
Proof.
  pose proof (PI_2_3_7_ineq 1) as [Hlo _].
  unfold sum_f_R0, tg_alt, PI_2_3_7_tg, Ratan_seq in Hlo.
  simpl in Hlo. lra.
Qed.

Lemma sin_314_pos : 0 < sin 3.14.
Proof. apply sin_gt_0; [lra | apply PI_gt_314]. Qed.

(** C6 as stated fails: on the empty array [Gaussian] raises instead of
    returning a triple; the model of [Sinc2] is not the expression of its
    docstring (at [x = 1/2], [A = 1], [x0 = 0], [sigma = 1], [C = 0] it is
    [(2/pi)^2], the docstring gives [2/pi]); and the models of [FixedSin]
    and [FixedSin5kHz] are not those of their docstrings (the model
    vanishes where its phase is [pi], the docstring's phase is [3.14]). *)
Lemma catalogue_docstring_claim_counterexample :
  FitFunctions.Gaussian [] = Raise ValueError
  /\ FitFunctions.sinc2 (1/2) [1; 0; 1; 0] <> Ok (Docstring.Sinc2 (1/2) 1 0 1 0)
  /\ FitFunctions.FixedSin_ 50 [1; 0; 0] <> Ok (Docstring.FixedSin 50 1 0 0)
  /\ FitFunctions.FixedSin5kHz_ 100 [1; 0; 0]
     <> Ok (Docstring.FixedSin5kHz 100 1 0 0).
Proof.
  split_and!.
  - reflexivity.
  - intros [= H]. unfold Docstring.Sinc2, FitFunctions.np_sinc in H.
    destruct (Req_dec_T ((1/2 - 0) / 1) 0) as [Hz | _]; [lra |].
    replace (PI * ((1/2 - 0) / 1)) with (PI / 2) in H by lra.
    rewrite sin_PI2 in H.
    pose proof PI_gt_314 as Hpi.
    assert (Hs : 0 < 1 / (PI / 2) < 1).
    { split.
      - apply Rdiv_lt_0_compat; lra.
      - apply Rmult_lt_reg_r with (PI / 2); [lra |].
        unfold Rdiv at 1. rewrite Rmult_assoc, Rinv_l by lra. lra. }
    nra.
  - intros [= H]. cbv zeta in H. unfold Docstring.FixedSin in H.
    replace (0.010 * 2 * PI * 50 - 0) with PI in H by lra.
    replace (0.0628 * 50 - 0) with 3.14 in H by lra.
    rewrite sin_PI in H. pose proof sin_314_pos. lra.
  - intros [= H]. cbv zeta in H. unfold Docstring.FixedSin5kHz in H.
    replace (0.005 * 2 * PI * 100 - 0) with PI in H by lra.
    replace (0.0314 * 100 - 0) with 3.14 in H by lra.
    rewrite sin_PI in H. pose proof sin_314_pos. lra.
Qed.

Lemma catalogue_models_do_not_depend_on_data_witness :
  Forall2 (fun (entry : string * (FitFunctions.data -> result FitFunctions.fit))
               (expected : FitFunctions.model * list string) =>
             exists guess, entry.2 [(0, 1)] = Ok (expected.1, guess, expected.2))
          (FitFunctions.catalogue Reference.erfc_first_order)
          (catalogue_models Reference.erfc_first_order).
Proof.
  apply (proj1 (catalogue_models_do_not_depend_on_data Reference.erfc_first_order)
               [(0, 1)]).
  discriminate.
Defined.

(** ** fit_heating_rates.py *)

(** Two attribute stores that agree everywhere but at [key]. *)
Definition agree_except (key : string) (m1 m2 : gmap string FitHeatingRates.value)
  : Prop :=
  forall k, k <> key -> m1 !! k = m2 !! k.

Lemma agree_except_refl key m : agree_except key m m.
Proof. intros k _. reflexivity. Qed.

Lemma agree_except_insert key i x m1 m2 :
  agree_except key m1 m2 -> agree_except key (<[i := x]> m1) (<[i := x]> m2).
Proof.
  intros H k Hk. destruct (decide (i = k)) as [-> | Hne].
  - rewrite !lookup_insert_eq. reflexivity.
  - rewrite !lookup_insert_ne by exact Hne. apply H, Hk.
Qed.

Lemma agree_except_insert_key key x y m1 m2 :
  agree_except key m1 m2 -> agree_except key (<[key := x]> m1) (<[key := y]> m2).
Proof.
  intros H k Hk. rewrite !lookup_insert_ne by congruence. apply H, Hk.
Qed.

Section FitHeatingRatesLemmas.

Import FitFunctions FitHeatingRates.

Variable h : R.
Variable deBroglie : R -> R.
Variable a97 : R -> R.
Variable curve_fit :
  model -> list R -> list R -> list R -> result (list R * list (list R)).

Lemma getattr_setattr_ne run k v name :
  k <> name -> getattr (setattr run k v) name = getattr run name.
Proof.
  intros Hne. unfold getattr, setattr. cbn [attrs].
  rewrite lookup_insert_ne by exact Hne. reflexivity.
Qed.

Lemma getattr_setattr run k v : getattr (setattr run k v) k = Ok v.
Proof.
  unfold getattr, setattr. cbn [attrs]. rewrite lookup_insert_eq. reflexivity.
Qed.

Lemma data_setattr run k v : data (setattr run k v) = data run.
Proof. reflexivity. Qed.

Lemma avg_data_setattr run k v : avg_data (setattr run k v) = avg_data run.
Proof. reflexivity. Qed.

Lemma lookup_setattr_ne run k v name :
  k <> name -> attrs (setattr run k v) !! name = attrs run !! name.
Proof. intros Hne. cbn [setattr attrs]. apply lookup_insert_ne, Hne. Qed.

Lemma lookup_setattr_eq run k v : attrs (setattr run k v) !! k = Some v.
Proof. cbn [setattr attrs]. apply lookup_insert_eq. Qed.

Lemma agree_except_setattr key i x r1 r2 :
  agree_except key (attrs r1) (attrs r2) ->
  agree_except key (attrs (setattr r1 i x)) (attrs (setattr r2 i x)).
Proof. apply agree_except_insert. Qed.

Lemma agree_except_setattr_key key x y r1 r2 :
  agree_except key (attrs r1) (attrs r2) ->
  agree_except key (attrs (setattr r1 key x)) (attrs (setattr r2 key y)).
Proof. apply agree_except_insert_key. Qed.

Lemma get_str_setattr_ne run k v name :
  k <> name -> get_str (setattr run k v) name = get_str run name.
Proof. intros Hne. unfold get_str. rewrite getattr_setattr_ne by exact Hne. reflexivity. Qed.

Lemma get_float_setattr_ne run k v name :
  k <> name -> get_float (setattr run k v) name = get_float run name.
Proof. intros Hne. unfold get_float. rewrite getattr_setattr_ne by exact Hne. reflexivity. Qed.

Lemma curve_fit_column_setattr run k v f col :
  k <> "param"%string ->
  curve_fit_column curve_fit (setattr run k v) f col = curve_fit_column curve_fit run f col.
Proof.
  intros Hne. unfold curve_fit_column.
  rewrite get_str_setattr_ne by exact Hne. reflexivity.
Qed.

Lemma amplitude_attrs_inv run T e_T run' A e_A2 :
  amplitude_attrs deBroglie a97 run T e_T = Ok (run', A, e_A2) ->
  exists Vpp freq,
    get_float run "Vpp" = Ok Vpp /\ get_float run "freq" = Ok freq
    /\ A = (find_A deBroglie a97 T (Bamp_from_Vpp Vpp freq).1 e_T (Some 0)).1
    /\ run' =
       setattr
         (setattr
            (setattr
               (setattr (setattr run "Bamp" (of_float (Bamp_from_Vpp Vpp freq).1))
                        "e_Bamp" (of_float (Some 0)))
               "A" (of_float A))
            "e_A"
            (of_float (find_A deBroglie a97 T (Bamp_from_Vpp Vpp freq).1 e_T (Some 0)).2))
         "e_A2" (of_float e_A2).
Proof.
  unfold amplitude_attrs.
  destruct (get_float run "Vpp") as [Vpp | e]; [| discriminate].
  destruct (get_float run "freq") as [freq | e]; [| discriminate].
  cbn [mbind result_bind]. intros [= <- <- <-].
  exists Vpp, freq. split_and!; reflexivity.
Qed.

(** Strips the attribute writes that a read does not see. *)
Ltac strip_writes :=
  repeat first [ rewrite curve_fit_column_setattr by done
               | rewrite get_float_setattr_ne by done
               | rewrite get_str_setattr_ne by done ].

(** Closes the branch in which a call raised. *)
Ltac raised := let Hraised := fresh in intros Hraised; discriminate Hraised.

Lemma bind_Ok {A B} (k : A -> result B) (a : A) : mbind k (Ok a) = k a.
Proof. reflexivity. Qed.

Lemma bind_Raise {A B} (k : A -> result B) (e : exn) : mbind k (Raise e) = Raise e.
Proof. reflexivity. Qed.

(** The two outcomes of a call inside a monadic body. *)
Ltac returned := rewrite ?bind_Ok; cbv beta iota zeta.
Ltac raises := rewrite ?bind_Raise; try raised; try (intros _; raised).

(** Runs one call of a monadic body, keeping the case in which it
    returns. *)
Tactic Notation "run_call" constr(c) "as" simple_intropattern(pat) "named" ident(E) :=
  strip_writes; destruct c as [pat | ?] eqn:E; [returned | raises].

Section ChiSquared.

Variables chi_sq chi_sq' : list R -> list R -> list R -> Z -> result R.

(** Whatever the chi-squared computation does (return a value, or raise
    [ZeroDivisionError] and have [run.chi_sq] set to 1), a run that
    completes [fit_analysis] has the same attributes, [chi_sq] aside. *)
Lemma fit_analysis_chi_sq_only run r r' :
  fit_analysis h deBroglie a97 chi_sq curve_fit run = Ok r ->
  fit_analysis h deBroglie a97 chi_sq' curve_fit run = Ok r' ->
  data r = data r' /\ avg_data r = avg_data r'
  /\ agree_except "chi_sq" (attrs r) (attrs r').
Proof.
  unfold fit_analysis.
  run_call (curve_fit_column curve_fit run settings_fit settings_temp_param)
    as [popt pcov] named HE.
  destruct (try_except _ ZeroDivisionError (Ok 1)) as [chi | e];
    [returned | raises].
  destruct (try_except _ ZeroDivisionError (Ok 1)) as [chi' | e];
    [returned | raises].
  run_call (curve_fit_column curve_fit run settings_fit "ToTF")
    as [poptToTF pcovToTF] named HToTF.
  run_call (item poptToTF 1) as ToTF named HToTF1.
  run_call (item (map sqrt (np_diag pcovToTF)) 1) as e_ToTF named HeToTF1.
  run_call (curve_fit_column curve_fit run settings_fit "EF")
    as [poptEF pcovEF] named HEF.
  run_call (item poptEF 1) as EF1 named HEF1.
  run_call (item (map sqrt (np_diag pcovEF)) 1) as e_EF1 named HeEF1.
  run_call (curve_fit_column curve_fit run settings_fit "T")
    as [poptT pcovT] named HT.
  run_call (item poptT 1) as T named HT1.
  run_call (item (map sqrt (np_diag pcovT)) 1) as e_T named HeT1.
  run_call (curve_fit_column curve_fit run settings_fit "N")
    as [poptN pcovN] named HN.
  run_call (item poptN 1) as N named HN1.
  run_call (item (map sqrt (np_diag pcovN)) 1) as e_N named HeN1.
  run_call (item poptN 0) as poptN0 named HN0.
  run_call (item (map sqrt (np_diag pcovN)) 0) as errN0 named HeN0.
  unfold amplitude_attrs.
  run_call (get_float run "Vpp") as Vpp named HVpp.
  run_call (get_float run "freq") as freq named Hfreq.
  run_call (item popt 1) as Ei named HEi.
  run_call (item (map sqrt (np_diag pcov)) 1) as e_Ei named HeEi.
  run_call (item popt 0) as popt0 named Hpopt0.
  run_call (item (map sqrt (np_diag pcov)) 0) as err0 named Herr0.
  run_call (item2 pcov 0 1) as pcov01 named Hpcov01.
  intros [= <-] [= <-]. unfold rate_attrs. split_and!.
  - rewrite !data_setattr. reflexivity.
  - rewrite !avg_data_setattr. reflexivity.
  - repeat first [ apply agree_except_setattr | apply agree_except_setattr_key ].
    apply agree_except_refl.
Qed.

End ChiSquared.

Variable chi_sq : list R -> list R -> list R -> Z -> result R.





(** Reads an attribute back through the writes that followed it. *)
Ltac lookup_attr :=
  unfold rate_attrs;
  repeat (rewrite lookup_setattr_ne by done);
  rewrite lookup_setattr_eq; reflexivity.


(** *** Two averaged points *)









(** The columns [analysis_for_dof_equals_two] reads. *)
Definition two_point_columns (param : string) : list string :=
  [ param; "ToTF"; "em_ToTF"; "EF"; "em_EF"; "T"; "em_T";
    settings_temp_param; "em_" +:+ settings_temp_param; "N"; "em_N" ]%string.





(** *** The exception handlers *)

Lemma try_except_returns {A} (c : result A) (e0 : exn) (v a : A) :
  try_except c e0 (Ok v) = Ok a <-> c = Ok a \/ (c = Raise e0 /\ a = v).
Proof.
  unfold try_except. destruct c as [a' | e].
  - split; [intros [= ->]; left; reflexivity | intros [[= ->] | [[=] _]]; reflexivity].
  - destruct (decide (e = e0)) as [-> | Hne].
    + split; [intros [= ->]; right; split; reflexivity | intros [[=] | [_ ->]]; reflexivity].
    + split; [discriminate | intros [[=] | [[= ->] _]]; contradiction].
Qed.

Lemma try_except_raises {A} (c : result A) (e0 e : exn) (v : A) :
  try_except c e0 (Ok v) = Raise e <-> c = Raise e /\ e <> e0.
Proof.
  unfold try_except. destruct c as [a' | e'].
  - split; [discriminate | intros [[=] _]].
  - destruct (decide (e' = e0)) as [-> | Hne].
    + split; [discriminate | intros [[= ->] Hne]; contradiction].
    + split; [intros [= ->]; split; [reflexivity | exact Hne] | intros [[= ->] _]; reflexivity].
Qed.

(** The body of the [try] block of [fit_analysis], for the fit
    [(popt, pcov)] of the energy column. *)
Definition chi_sq_body (run : Run) (popt : list R) (pcov : list (list R))
  : result R :=
  ys ← getitem (avg_data run) settings_temp_param;
  param ← get_str run "param";
  xs ← getitem (avg_data run) param;
  yfit ← vcall settings_fit xs popt;
  yerr ← getitem (avg_data run) ("em_" +:+ settings_temp_param);
  chi_sq ys yfit yerr
         (Z.of_nat (nrows (avg_data run))
          - Z.of_nat (length (map sqrt (np_diag pcov)))).

Lemma fit_analysis_chi_sq run r :
  fit_analysis h deBroglie a97 chi_sq curve_fit run = Ok r ->
  exists popt pcov chi,
    curve_fit_column curve_fit run settings_fit settings_temp_param = Ok (popt, pcov)
    /\ try_except (chi_sq_body run popt pcov) ZeroDivisionError (Ok 1) = Ok chi
    /\ attrs r !! "chi_sq"%string = Some (Num chi).
Proof.
  unfold fit_analysis.
  run_call (curve_fit_column curve_fit run settings_fit settings_temp_param)
    as [popt pcov] named HE.
  rewrite !avg_data_setattr. strip_writes.
  fold (chi_sq_body run popt pcov).
  destruct (try_except (chi_sq_body run popt pcov) ZeroDivisionError (Ok 1))
    as [chi | e] eqn:Hchi; [returned | raises].
  run_call (curve_fit_column curve_fit run settings_fit "ToTF")
    as [poptToTF pcovToTF] named HToTF.
  run_call (item poptToTF 1) as ToTF named HToTF1.
  run_call (item (map sqrt (np_diag pcovToTF)) 1) as e_ToTF named HeToTF1.
  run_call (curve_fit_column curve_fit run settings_fit "EF")
    as [poptEF pcovEF] named HEF.
  run_call (item poptEF 1) as EF1 named HEF1.
  run_call (item (map sqrt (np_diag pcovEF)) 1) as e_EF1 named HeEF1.
  run_call (curve_fit_column curve_fit run settings_fit "T")
    as [poptT pcovT] named HT.
  run_call (item poptT 1) as T named HT1.
  run_call (item (map sqrt (np_diag pcovT)) 1) as e_T named HeT1.
  run_call (curve_fit_column curve_fit run settings_fit "N")
    as [poptN pcovN] named HN.
  run_call (item poptN 1) as N named HN1.
  run_call (item (map sqrt (np_diag pcovN)) 1) as e_N named HeN1.
  run_call (item poptN 0) as poptN0 named HN0.
  run_call (item (map sqrt (np_diag pcovN)) 0) as errN0 named HeN0.
  unfold amplitude_attrs.
  run_call (get_float run "Vpp") as Vpp named HVpp.
  run_call (get_float run "freq") as freq named Hfreq.
  run_call (item popt 1) as Ei named HEi.
  run_call (item (map sqrt (np_diag pcov)) 1) as e_Ei named HeEi.
  run_call (item popt 0) as popt0 named Hpopt0.
  run_call (item (map sqrt (np_diag pcov)) 0) as err0 named Herr0.
  run_call (item2 pcov 0 1) as pcov01 named Hpcov01.
  intros [= <-]. exists popt, pcov, chi.
  split_and!; [reflexivity | exact Hchi | lookup_attr].
Qed.

(** An exception the [try] block does not catch ends [fit_analysis]. *)
Lemma fit_analysis_chi_sq_raises run popt pcov e :
  curve_fit_column curve_fit run settings_fit settings_temp_param = Ok (popt, pcov) ->
  chi_sq_body run popt pcov = Raise e ->
  e <> ZeroDivisionError ->
  fit_analysis h deBroglie a97 chi_sq curve_fit run = Raise e.
Proof.
  intros HE Hbody Hne. unfold fit_analysis.
  strip_writes. rewrite HE. returned.
  rewrite !avg_data_setattr. strip_writes.
  fold (chi_sq_body run popt pcov).
  rewrite (proj2 (try_except_raises _ _ _ _) (conj Hbody Hne)).
  apply bind_Raise.
Qed.

Lemma read_beta_missing run :
  columns (avg_data run) !! "beta"%string = None ->
  read_beta run = Ok (setattr run "beta" (Num default_beta)).
Proof. intros Hcol. unfold read_beta, getitem. rewrite Hcol. reflexivity. Qed.

Lemma read_beta_present run b col :
  columns (avg_data run) !! "beta"%string = Some (b :: col) ->
  read_beta run = Ok (setattr run "beta" (Num b)).
Proof. intros Hcol. unfold read_beta, getitem. rewrite Hcol. reflexivity. Qed.

Lemma read_beta_empty run :
  columns (avg_data run) !! "beta"%string = Some [] ->
  read_beta run = Raise IndexError.
Proof. intros Hcol. unfold read_beta, getitem. rewrite Hcol. reflexivity. Qed.

Lemma read_beta_only_beta run r :
  read_beta run = Ok r ->
  data r = data run /\ avg_data r = avg_data run
  /\ agree_except "beta" (attrs r) (attrs run).
Proof.
  unfold read_beta.
  destruct (try_except _ KeyError (Ok default_beta)) as [beta | e];
    [rewrite bind_Ok | rewrite bind_Raise; discriminate].
  intros [= <-]. split_and!; try reflexivity.
  intros k Hk. apply lookup_setattr_ne. congruence.
Qed.

Lemma fix_attribute_next run attr name rest :
  getattr run attr = Ok NaN ->
  columns (data run) !! name = None ->
  fix_attribute run attr (name :: rest) = fix_attribute run attr rest.
Proof.
  intros Hnan Hcol. unfold fix_attribute. rewrite Hnan, !bind_Ok.
  cbn [fix_attribute_loop]. unfold getitem. rewrite Hcol. reflexivity.
Qed.

Lemma fix_attribute_found run attr name rest x col :
  getattr run attr = Ok NaN ->
  columns (data run) !! name = Some (x :: col) ->
  fix_attribute run attr (name :: rest) = Ok (setattr run attr (Num x)).
Proof.
  intros Hnan Hcol. unfold fix_attribute. rewrite Hnan, !bind_Ok.
  cbn [fix_attribute_loop]. unfold getitem. rewrite Hcol. reflexivity.
Qed.

Lemma fix_attribute_empty_column run attr name rest :
  getattr run attr = Ok NaN ->
  columns (data run) !! name = Some [] ->
  fix_attribute run attr (name :: rest) = Raise IndexError.
Proof.
  intros Hnan Hcol. unfold fix_attribute. rewrite Hnan, !bind_Ok.
  cbn [fix_attribute_loop]. unfold getitem. rewrite Hcol. reflexivity.
Qed.

(** The model [m * x + Ei] raises nothing but [TypeError], on a wrong
    number of parameters. *)
Lemma mapM_linear_returns (m Ei : R) (xs : list R) :
  exists ys, mapM (fun x => linear x [m; Ei]) xs = Ok ys.
Proof.
  induction xs as [| x xs' [ys IH]].
  - eexists. reflexivity.
  - exists (m * x + Ei :: ys). cbn [mapM]. rewrite IH. reflexivity.
Qed.

Lemma vcall_linear_raises (xs p : list R) (e : exn) :
  vcall settings_fit xs p = Raise e -> e = TypeError.
Proof.
  unfold vcall, settings_fit.
  destruct p as [| m [| Ei [| ? ?]]].
  - intros [= <-]. reflexivity.
  - intros [= <-]. reflexivity.
  - change (linear 0 [m; Ei]) with (Ok (m * 0 + Ei)). rewrite bind_Ok.
    destruct (mapM_linear_returns m Ei xs) as [ys ->]. discriminate.
  - intros [= <-]. reflexivity.
Qed.

Lemma getitem_raises df name e :
  getitem df name = Raise e -> e = KeyError.
Proof.
  unfold getitem. destruct (columns df !! name); [discriminate |].
  intros [= <-]. reflexivity.
Qed.

Lemma get_str_raises run name e :
  get_str run name = Raise e -> e = AttributeError \/ e = TypeError.
Proof.
  unfold get_str, getattr.
  destruct (attrs run !! name) as [[] |]; cbn [mbind result_bind];
    first [ discriminate
          | intros [= <-]; right; reflexivity
          | intros [= <-]; left; reflexivity ].
Qed.

(** When the chi-squared computation itself divides by zero, everything
    before it in the [try] block has returned. *)
Lemma chi_sq_body_division run popt pcov :
  chi_sq_body run popt pcov = Raise ZeroDivisionError ->
  exists ys param xs yfit yerr,
    getitem (avg_data run) settings_temp_param = Ok ys
    /\ get_str run "param" = Ok param
    /\ getitem (avg_data run) param = Ok xs
    /\ vcall settings_fit xs popt = Ok yfit
    /\ getitem (avg_data run) ("em_" +:+ settings_temp_param) = Ok yerr
    /\ chi_sq ys yfit yerr
              (Z.of_nat (nrows (avg_data run))
               - Z.of_nat (length (map sqrt (np_diag pcov))))
       = Raise ZeroDivisionError.
Proof.
  unfold chi_sq_body.
  destruct (getitem (avg_data run) settings_temp_param) as [ys | e] eqn:Hys.
  2: { apply getitem_raises in Hys as ->. rewrite bind_Raise. discriminate. }
  rewrite bind_Ok.
  destruct (get_str run "param") as [param | e] eqn:Hparam.
  2: { apply get_str_raises in Hparam as [-> | ->];
         rewrite bind_Raise; discriminate. }
  rewrite bind_Ok.
  destruct (getitem (avg_data run) param) as [xs | e] eqn:Hxs.
  2: { apply getitem_raises in Hxs as ->. rewrite bind_Raise. discriminate. }
  rewrite bind_Ok.
  destruct (vcall settings_fit xs popt) as [yfit | e] eqn:Hyfit.
  2: { apply vcall_linear_raises in Hyfit as ->. rewrite bind_Raise. discriminate. }
  rewrite bind_Ok.
  destruct (getitem (avg_data run) ("em_" +:+ settings_temp_param))
    as [yerr | e] eqn:Hyerr.
  2: { apply getitem_raises in Hyerr as ->. rewrite bind_Raise. discriminate. }
  rewrite bind_Ok. intros Hchi.
  exists ys, param, xs, yfit, yerr. split_and!; first [assumption | reflexivity].
Qed.

(** The handler of [fit_analysis]: when the chi-squared computation raises
    [ZeroDivisionError], the analysis goes on exactly as if the
    chi-squared had been 1. *)
Lemma fit_analysis_handler run popt pcov :
  curve_fit_column curve_fit run settings_fit settings_temp_param = Ok (popt, pcov) ->
  chi_sq_body run popt pcov = Raise ZeroDivisionError ->
  fit_analysis h deBroglie a97 chi_sq curve_fit run
  = fit_analysis h deBroglie a97 (fun _ _ _ _ => Ok 1) curve_fit run.
Proof.
  intros HE Hbody.
  apply chi_sq_body_division in Hbody
    as (ys & param & xs & yfit & yerr & Hys & Hparam & Hxs & Hyfit & Hyerr & Hchi).
  unfold fit_analysis.
  strip_writes. rewrite HE. returned.
  rewrite !avg_data_setattr. strip_writes.
  rewrite Hys, Hparam. returned. rewrite Hxs. returned.
  rewrite Hyfit. returned. rewrite Hyerr. returned.
  rewrite Hchi.
  assert (Hcaught : forall k : R -> result Run,
             try_except (Raise ZeroDivisionError) ZeroDivisionError (Ok 1) ≫= k
             = try_except (Ok 1) ZeroDivisionError (Ok 1) ≫= k).
  { intros k. unfold try_except.
    destruct (decide (ZeroDivisionError = ZeroDivisionError)) as [_ | Hne];
      [reflexivity | congruence]. }
  apply Hcaught.
Qed.

(** C5, amended: the analysis of a run catches three exceptions and no
    other.  (1) [ZeroDivisionError] raised in the [try] block of
    [fit_analysis]: the analysis then goes on exactly as if the
    chi-squared computation had returned 1, and [run.chi_sq] is 1 when it
    completes; any other exception of the block ends [fit_analysis], and
    whatever the chi-squared computation does, all other attributes of a
    completed [fit_analysis] are the same.
    (2) [KeyError] on [run.avg_data['beta']]: [run.beta] is then
    [1.8339e-05]; an empty column still raises [IndexError]; the block
    changes no attribute but [beta].  (3) [KeyError] on [run.data[name]] in
    [fix_attribute], for an attribute that is [nan]: the next name is
    tried, and the attribute stays [nan] when no name is left; an empty
    column still raises [IndexError]. *)
Theorem caught_exceptions :
  (forall run r,
      fit_analysis h deBroglie a97 chi_sq curve_fit run = Ok r ->
      exists popt pcov chi,
        curve_fit_column curve_fit run settings_fit settings_temp_param
          = Ok (popt, pcov)
        /\ (chi_sq_body run popt pcov = Ok chi
            \/ (chi_sq_body run popt pcov = Raise ZeroDivisionError /\ chi = 1))
        /\ attrs r !! "chi_sq"%string = Some (Num chi))
  /\ (forall run popt pcov,
        curve_fit_column curve_fit run settings_fit settings_temp_param
          = Ok (popt, pcov) ->
        chi_sq_body run popt pcov = Raise ZeroDivisionError ->
        fit_analysis h deBroglie a97 chi_sq curve_fit run
        = fit_analysis h deBroglie a97 (fun _ _ _ _ => Ok 1) curve_fit run
        /\ forall r,
            fit_analysis h deBroglie a97 chi_sq curve_fit run = Ok r ->
            attrs r !! "chi_sq"%string = Some (Num 1))
  /\ (forall run popt pcov e,
        curve_fit_column curve_fit run settings_fit settings_temp_param
          = Ok (popt, pcov) ->
        chi_sq_body run popt pcov = Raise e ->
        e <> ZeroDivisionError ->
        fit_analysis h deBroglie a97 chi_sq curve_fit run = Raise e)
  /\ (forall chi_sq' run r r',
        fit_analysis h deBroglie a97 chi_sq curve_fit run = Ok r ->
        fit_analysis h deBroglie a97 chi_sq' curve_fit run = Ok r' ->
        data r = data r' /\ avg_data r = avg_data r'
        /\ agree_except "chi_sq" (attrs r) (attrs r'))
  /\ (forall run,
        columns (avg_data run) !! "beta"%string = None ->
        read_beta run = Ok (setattr run "beta" (Num default_beta)))
  /\ (forall run b col,
        columns (avg_data run) !! "beta"%string = Some (b :: col) ->
        read_beta run = Ok (setattr run "beta" (Num b)))
  /\ (forall run,
        columns (avg_data run) !! "beta"%string = Some [] ->
        read_beta run = Raise IndexError)
  /\ (forall run r,
        read_beta run = Ok r ->
        data r = data run /\ avg_data r = avg_data run
        /\ agree_except "beta" (attrs r) (attrs run))
  /\ (forall run attr name rest,
        getattr run attr = Ok NaN ->
        columns (data run) !! name = None ->
        fix_attribute run attr (name :: rest) = fix_attribute run attr rest)
  /\ (forall run attr name rest x col,
        getattr run attr = Ok NaN ->
        columns (data run) !! name = Some (x :: col) ->
        fix_attribute run attr (name :: rest) = Ok (setattr run attr (Num x)))
  /\ (forall run attr name rest,
        getattr run attr = Ok NaN ->
        columns (data run) !! name = Some [] ->
        fix_attribute run attr (name :: rest) = Raise IndexError)
  /\ (forall run attr,
        getattr run attr = Ok NaN -> fix_attribute run attr [] = Ok run).
Proof.
  split_and!.
  - intros run r Hfit.
    destruct (fit_analysis_chi_sq run r Hfit) as (popt & pcov & chi & HE & Hchi & Hattr).
    exists popt, pcov, chi. split_and!; [exact HE | | exact Hattr].
    apply try_except_returns in Hchi. exact Hchi.
  - intros run popt pcov HE Hbody. split.
    + apply fit_analysis_handler with popt pcov; assumption.
    + intros r Hfit.
      destruct (fit_analysis_chi_sq run r Hfit)
        as (popt' & pcov' & chi & HE' & Hchi & Hattr).
      rewrite HE in HE'. injection HE' as <- <-.
      rewrite Hbody in Hchi.
      apply try_except_returns in Hchi as [Hc | [_ ->]];
        [discriminate Hc | exact Hattr].
  - apply fit_analysis_chi_sq_raises.
  - intros chi_sq' run r r'. apply fit_analysis_chi_sq_only.
  - apply read_beta_missing.
  - apply read_beta_present.
  - apply read_beta_empty.
  - apply read_beta_only_beta.
  - apply fix_attribute_next.
  - apply fix_attribute_found.
  - apply fix_attribute_empty_column.
  - intros run attr Hnan. unfold fix_attribute. rewrite Hnan. reflexivity.
Qed.

End FitHeatingRatesLemmas.

(** ** The example runs *)

Lemma three_points_fitted :
  exists r,
    FitHeatingRates.fit_analysis Reference.h Reference.deBroglie Reference.a97
      Reference.chi_sq Reference.linear_least_squares Reference.three_points = Ok r.
Proof. eexists. reflexivity. Qed.

Lemma three_points_rows :
  FitHeatingRates.nrows (FitHeatingRates.avg_data Reference.three_points) = 3%nat.
Proof. reflexivity. Qed.

Lemma two_cells_columns (name : string) :
  name ∈ two_point_columns "time" ->
  FitHeatingRates.columns (FitHeatingRates.avg_data Reference.two_points) !! name
  = Some [(default (0, 0) (Reference.two_cells !! name)).1;
          (default (0, 0) (Reference.two_cells !! name)).2].
Proof.
  intros Hin. cbn [FitHeatingRates.columns FitHeatingRates.avg_data Reference.two_points].
  rewrite lookup_fmap. unfold two_point_columns in Hin.
  repeat (apply elem_of_cons in Hin as [-> | Hin]; [reflexivity |]).
  apply elem_of_nil in Hin. contradiction.
Qed.

Lemma two_cells_time : Reference.two_cells !! "time"%string = Some (0, 10).
Proof. reflexivity. Qed.

(** C5 as stated fails: there is a third handler.  For the run of an
    older file, whose [freq] is [nan] and whose .dat file has no column
    [freq], [run.data['freq']] raises [KeyError]; [fix_attribute] catches
    it and goes on to take [freq] from the column [wigglefreq]. *)
Lemma only_two_handlers_counterexample :
  FitHeatingRates.getitem (FitHeatingRates.data Reference.old_file_run) "freq"
  = Raise KeyError
  /\ FitHeatingRates.fix_attribute Reference.old_file_run "freq"
       ["freq"; "wigglefreq"; "wiggle freq"]%string
     = Ok (FitHeatingRates.setattr Reference.old_file_run "freq"
             (FitHeatingRates.Num 10)).
Proof. split; reflexivity. Qed.

(** A fit of two averaged points: the degrees of freedom are 0, the
    chi-squared computation of [Reference.chi_sq] divides by them, and the
    handler lets [fit_analysis] complete. *)
Lemma two_points_energy_fit :
  exists popt pcov,
    FitHeatingRates.curve_fit_column Reference.linear_least_squares
      Reference.two_points FitHeatingRates.settings_fit
      FitHeatingRates.settings_temp_param = Ok (popt, pcov)
    /\ chi_sq_body Reference.chi_sq Reference.two_points popt pcov
       = Raise ZeroDivisionError.
Proof. eexists. eexists. split; reflexivity. Qed.

Lemma two_points_fitted :
  exists r,
    FitHeatingRates.fit_analysis Reference.h Reference.deBroglie Reference.a97
      Reference.chi_sq Reference.linear_least_squares Reference.two_points = Ok r.
Proof. eexists. reflexivity. Qed.









Lemma caught_exceptions_witness :
  (exists r chi,
      FitHeatingRates.fit_analysis Reference.h Reference.deBroglie Reference.a97
        Reference.chi_sq Reference.linear_least_squares Reference.three_points = Ok r
      /\ FitHeatingRates.attrs r !! "chi_sq"%string = Some (FitHeatingRates.Num chi))
  /\ (exists r popt pcov,
        FitHeatingRates.curve_fit_column Reference.linear_least_squares
          Reference.two_points FitHeatingRates.settings_fit
          FitHeatingRates.settings_temp_param = Ok (popt, pcov)
        /\ chi_sq_body Reference.chi_sq Reference.two_points popt pcov
           = Raise ZeroDivisionError
        /\ FitHeatingRates.fit_analysis Reference.h Reference.deBroglie
             Reference.a97 Reference.chi_sq Reference.linear_least_squares
             Reference.two_points = Ok r
        /\ FitHeatingRates.attrs r !! "chi_sq"%string
           = Some (FitHeatingRates.Num 1))
  /\ FitHeatingRates.read_beta Reference.three_points
     = Ok (FitHeatingRates.setattr Reference.three_points "beta"
             (FitHeatingRates.Num FitHeatingRates.default_beta))
  /\ FitHeatingRates.fix_attribute Reference.old_file_run "freq"
       ["freq"; "wigglefreq"; "wiggle freq"]%string
     = FitHeatingRates.fix_attribute Reference.old_file_run "freq"
         ["wigglefreq"; "wiggle freq"]%string.
Proof.
  pose proof (caught_exceptions Reference.h Reference.deBroglie Reference.a97
                Reference.linear_least_squares Reference.chi_sq)
    as (Hchi & Hhandler & _ & _ & Hbeta & _ & _ & _ & Hnext & _).
  split_and!.
  - destruct three_points_fitted as [r Hr].
    destruct (Hchi _ _ Hr) as (popt & pcov & chi & _ & _ & Hattr).
    exists r, chi. split; [exact Hr | exact Hattr].
  - destruct two_points_energy_fit as (popt & pcov & HE & Hbody).
    destruct two_points_fitted as [r Hr].
    destruct (Hhandler _ _ _ HE Hbody) as [_ Hone].
    exists r, popt, pcov. split_and!; [exact HE | exact Hbody | exact Hr |].
    apply Hone, Hr.
  - apply Hbeta. reflexivity.
  - apply Hnext; reflexivity.
Defined.



(** * Further properties *)

(** ** bulkvisctrap_class.py *)

Section BulkViscMore.

Import BulkViscTrapClass.

Variable eosrat : R -> R.
Variable sumrat : R -> R.
Variable quad : (R -> R) -> R -> limit -> R -> R * R.

(** X1: the argument of the phase shift is odd in the drive frequency and
    never exceeds 1/2 in absolute value, whatever the chemical potential;
    it has the sign of the drive frequency. *)
Theorem phaseshift_arg_bounded (betamu betaomega : R) :
  phaseshift_arg betamu (- betaomega) = - phaseshift_arg betamu betaomega
  /\ - (1/2) <= phaseshift_arg betamu betaomega <= 1/2
  /\ 0 <= betaomega * phaseshift_arg betamu betaomega.
Proof.
  unfold phaseshift_arg.
  set (g := 1.739 - 0.0892 * exp betamu + 0.00156 * exp betamu ^ 2).
  assert (Hg : 0 < g) by apply gammaT_pos.
  assert (Hden : 0 < betaomega ^ 2 + g ^ 2) by nra.
  split_and!.
  - replace ((- betaomega) ^ 2) with (betaomega ^ 2) by ring. field. lra.
  - apply Rmult_le_reg_r with (betaomega ^ 2 + g ^ 2); [exact Hden |].
    unfold Rdiv at 2. rewrite Rmult_assoc, Rinv_l by lra.
    pose proof (pow2_ge_0 (betaomega + g)). nra.
  - apply Rmult_le_reg_r with (betaomega ^ 2 + g ^ 2); [exact Hden |].
    unfold Rdiv at 1. rewrite Rmult_assoc, Rinv_l by lra.
    pose proof (pow2_ge_0 (betaomega - g)). nra.
  - unfold Rdiv. rewrite <- !Rmult_assoc.
    apply Rmult_le_pos; [nra |]. left. apply Rinv_0_lt_compat, Hden.
Qed.

(** The asymptotic sum rule is positive: [z ** (5/3)] is [exp(5/3 betamu)]. *)
Lemma fpow_exp (x y : R) : fpow (exp x) y = exp (y * x).
Proof.
  unfold fpow. destruct (Rlt_dec 0 (exp x)) as [_ | Hn].
  - unfold Rpower. rewrite ln_exp. reflexivity.
  - pose proof (exp_pos x). lra.
Qed.

(** X2: in the asymptotic regime [betamu < -4.8] the bulk viscosity is a
    Lorentzian in the drive frequency: [0.36 exp(5/3 betamu)] times
    [gammaT / (betaomega^2 + gammaT^2)], strictly positive, even in the
    drive frequency and largest at zero frequency. *)
Theorem zeta_asymptotic_lorentzian (betamu betaomega : R) :
  betamu < -4.8 ->
  let gammaT := 1.739 - 0.0892 * exp betamu + 0.00156 * exp betamu ^ 2 in
  zeta sumrat betamu betaomega
  = 0.36 * exp (5/3 * betamu) * gammaT / (betaomega ^ 2 + gammaT ^ 2)
  /\ 0 < zeta sumrat betamu betaomega
  /\ zeta sumrat betamu (- betaomega) = zeta sumrat betamu betaomega
  /\ zeta sumrat betamu betaomega <= zeta sumrat betamu 0.
Proof.
  intros Hb g.
  assert (Hg : 0 < g) by apply gammaT_pos.
  assert (Hs : 0 < 0.36 * exp (5/3 * betamu)).
  { pose proof (exp_pos (5/3 * betamu)). lra. }
  assert (Hz : forall w, zeta sumrat betamu w
                         = 0.36 * exp (5/3 * betamu) * g / (w ^ 2 + g ^ 2)).
  { intros w. unfold zeta, where_, ltb.
    destruct (Rlt_dec betamu (-4.8)) as [_ | Hn]; [| lra].
    rewrite fpow_exp. reflexivity. }
  assert (Hden : forall w, 0 < w ^ 2 + g ^ 2).
  { intros w. pose proof (pow2_ge_0 w). nra. }
  split_and!.
  - apply Hz.
  - rewrite Hz. apply Rdiv_lt_0_compat; [nra | apply Hden].
  - rewrite !Hz. replace ((- betaomega) ^ 2) with (betaomega ^ 2) by ring.
    reflexivity.
  - rewrite !Hz. unfold Rdiv. apply Rmult_le_compat_l; [nra |].
    apply Rinv_le_contravar; [apply Hden |].
    pose proof (pow2_ge_0 betaomega). nra.
Qed.

Lemma zeta_even (betamu betaomega : R) :
  zeta sumrat betamu (- betaomega) = zeta sumrat betamu betaomega.
Proof.
  unfold zeta. replace ((- betaomega) ^ 2) with (betaomega ^ 2) by ring.
  reflexivity.
Qed.

Lemma fpow_nonneg (x y : R) : 0 <= fpow x y.
Proof.
  unfold fpow. destruct (Rlt_dec 0 x); [| lra].
  unfold Rpower. left. apply exp_pos.
Qed.

(** X25: the heating rates do not depend on the sign of the drive
    frequency: [zeta], [heating_bulk] and [heating_trap] are even in
    [betaomega], whatever the interpolants and the quadrature; and in the
    asymptotic regime [betamu < -4.8] the bulk heating rate is never
    negative (where the equation of state is not). *)
Theorem heating_even_in_frequency (T betamu betaomega betabaromega : R) :
  zeta sumrat betamu (- betaomega) = zeta sumrat betamu betaomega
  /\ heating_bulk eosrat sumrat T betamu (- betaomega)
     = heating_bulk eosrat sumrat T betamu betaomega
  /\ heating_trap eosrat sumrat quad T betamu (- betaomega) betabaromega
     = heating_trap eosrat sumrat quad T betamu betaomega betabaromega
  /\ (betamu < -4.8 ->
      0 <= eos_ufg eosrat betamu ->
      0 <= heating_bulk eosrat sumrat T betamu betaomega).
Proof.
  split_and!.
  - apply zeta_even.
  - unfold heating_bulk. rewrite zeta_even.
    replace ((T * - betaomega) ^ 2) with ((T * betaomega) ^ 2) by ring.
    reflexivity.
  - unfold heating_trap.
    replace (fun v => weight v betabaromega * fpow (eos_ufg eosrat (betamu - v)) (1/3)
                      * zeta sumrat (betamu - v) (- betaomega))
      with (fun v => weight v betabaromega * fpow (eos_ufg eosrat (betamu - v)) (1/3)
                     * zeta sumrat (betamu - v) betaomega)
      by (apply functional_extensionality; intros v; rewrite zeta_even; reflexivity).
    replace ((T * - betaomega) ^ 2) with ((T * betaomega) ^ 2) by ring.
    reflexivity.
  - intros Hb _. unfold heating_bulk.
    assert (Hz : 0 < zeta sumrat betamu betaomega).
    { unfold zeta, where_, ltb.
      destruct (Rlt_dec betamu (-4.8)) as [_ | Hn]; [| lra].
      rewrite fpow_exp.
      pose proof (exp_pos (5/3 * betamu)) as He.
      pose proof (gammaT_pos (exp betamu)) as Hg.
      apply Rdiv_lt_0_compat; [nra |].
      pose proof (pow2_ge_0 betaomega). nra. }
    pose proof (fpow_nonneg (eos_ufg eosrat betamu) (1/3)) as Hf.
    assert (Hc : 0 < fpow (3 * PI ^ 2) (2/3)).
    { unfold fpow. pose proof PI_RGT_0 as Hpi.
      destruct (Rlt_dec 0 (3 * PI ^ 2)) as [_ | Hn]; [| nra].
      unfold Rpower. apply exp_pos. }
    apply Rmult_le_pos; [| nra].
    unfold Rdiv. apply Rmult_le_pos.
    + pose proof PI_RGT_0. pose proof (pow2_ge_0 (T * betaomega)). nra.
    + left. apply Rinv_0_lt_compat, Hc.
Qed.

End BulkViscMore.

Lemma zeta_asymptotic_lorentzian_witness :
  0 < BulkViscTrapClass.zeta Reference.sumrat (-5) 1
  /\ BulkViscTrapClass.zeta Reference.sumrat (-5) 1
     <= BulkViscTrapClass.zeta Reference.sumrat (-5) 0.
Proof.
  split.
  - apply (zeta_asymptotic_lorentzian Reference.sumrat (-5) 1). lra.
  - apply (zeta_asymptotic_lorentzian Reference.sumrat (-5) 1). lra.
Defined.

(** Below [betamu = -8] the equation of state is [2 exp(betamu)]. *)
Lemma eos_ufg_nonneg_below (eosrat : R -> R) (betamu : R) :
  betamu < -8 -> 0 <= BulkViscTrapClass.eos_ufg eosrat betamu.
Proof.
  intros Hb. unfold BulkViscTrapClass.eos_ufg, where_, ltb.
  destruct (Rlt_dec betamu (-8)) as [_ | Hn]; [| lra].
  pose proof (exp_pos betamu). lra.
Qed.

Lemma boltzmann_eos_nonneg (x : R) :
  0 <= BulkViscTrapClass.eos_ufg Reference.boltzmann x.
Proof.
  unfold BulkViscTrapClass.eos_ufg, where_, Reference.boltzmann.
  pose proof (exp_pos x). destruct (ltb x (-8)); lra.
Qed.

Lemma heating_even_in_frequency_witness :
  0 <= BulkViscTrapClass.heating_bulk Reference.eosrat Reference.sumrat 1 (-9) 1.
Proof.
  apply (heating_even_in_frequency Reference.eosrat Reference.sumrat
           Reference.one_point_quad 1 (-9) 1 1).
  - lra.
  - apply eos_ufg_nonneg_below. lra.
Defined.

(** *** Truncation and grids *)

Lemma int_nonneg_spec (x : R) (n : Z) :
  0 <= x -> IZR n <= x < IZR n + 1 -> int x = n.
Proof.
  intros Hx Hn. unfold int. destruct (Rle_dec 0 x) as [_ | Hc]; [| lra].
  symmetry. apply Int_part_spec. lra.
Qed.

Lemma int_ge_1 (x : R) : 1 <= x -> (1 <= int x)%Z.
Proof.
  intros Hx. unfold int. destruct (Rle_dec 0 x) as [_ | Hc]; [| lra].
  pose proof (base_Int_part x) as [_ Hlow].
  assert (H0 : IZR 0 < IZR (Int_part x)) by lra.
  apply lt_IZR in H0. lia.
Qed.

Lemma int_le_minus_2 (x : R) : x <= -2 -> (int x <= -2)%Z.
Proof.
  intros Hx. unfold int. destruct (Rle_dec 0 x) as [Hc | _]; [lra |].
  pose proof (base_Int_part (- x)) as [_ Hlow].
  assert (H1 : IZR 1 < IZR (Int_part (- x))) by lra.
  apply lt_IZR in H1. lia.
Qed.

Lemma int_INR (k : nat) : int (INR k) = Z.of_nat k.
Proof. rewrite INR_IZR_INZ. apply int_IZR. Qed.

(** [np.linspace(start, stop, k + 1)] for a span of [k] steps of size
    [step]. *)
Lemma linspace_steps (start step : R) (k : nat) :
  linspace start (start + INR k * step) (Z.of_nat k + 1)
  = Ok (map (fun i : nat => start + INR i * step) (seq 0 (S k))).
Proof.
  rewrite linspace_nonneg by lia.
  replace (Z.to_nat (Z.of_nat k + 1)) with (S k) by lia.
  replace (Z.of_nat k + 1 - 1)%Z with (Z.of_nat k) by lia.
  rewrite <- INR_IZR_INZ. f_equal.
  destruct k as [| k'].
  - cbn [seq map INR]. f_equal. lra.
  - apply map_ext. intros i.
    assert (Hk : INR (S k') <> 0) by (apply not_0_INR; lia).
    field. exact Hk.
Qed.

Lemma int_le_0 (x : R) : x < 1 -> (int x <= 0)%Z.
Proof.
  intros Hx. unfold int. destruct (Rle_dec 0 x) as [Hc | Hc].
  - rewrite <- (Int_part_spec x 0); [lia | lra].
  - pose proof (base_Int_part (- x)) as [_ Hlow].
    assert (H1 : IZR (-1) < IZR (Int_part (- x))) by lra.
    apply lt_IZR in H1. lia.
Qed.

Lemma int_neg_spec (x : R) (n : Z) :
  x < 0 -> IZR n - 1 < x <= IZR n -> int x = n.
Proof.
  intros Hx Hn. unfold int. destruct (Rle_dec 0 x) as [Hc | _]; [lra |].
  rewrite <- (Int_part_spec (- x) (- n)); [lia |].
  rewrite opp_IZR. lra.
Qed.

Lemma int_small (x : R) : -1 < x < 1 -> int x = 0%Z.
Proof.
  intros Hx. destruct (Rle_dec 0 x) as [Hc | Hc].
  - apply int_nonneg_spec; lra.
  - apply int_neg_spec; lra.
Qed.

(** The thermal wavelength is positive for [T > 0], so that the
    dimensionless drive amplitude [lambda_T / a0] is 1. *)
Lemma drive_amplitude_one (T : R) :
  0 < T ->
  sqrt (BulkViscTrapClass.hbar / (BulkViscTrapClass.m * T))
  / sqrt (BulkViscTrapClass.hbar / (BulkViscTrapClass.m * T)) = 1.
Proof.
  intros HT.
  assert (Hpos : 0 < BulkViscTrapClass.hbar / (BulkViscTrapClass.m * T)).
  { unfold BulkViscTrapClass.hbar, BulkViscTrapClass.m.
    apply Rdiv_lt_0_compat; [lra | nra]. }
  apply sqrt_lt_R0 in Hpos. field. lra.
Qed.

Lemma map_scale_one (l : list R) : map (fun e => 1 ^ 2 * e) l = l.
Proof.
  rewrite <- (map_id l) at 2. apply map_ext. intros e. lra.
Qed.

Lemma phaseshift_arg_range (betamu betaomega : R) :
  0 <= betaomega ->
  0 <= BulkViscTrapClass.phaseshift_arg betamu betaomega <= 1/2.
Proof.
  intros Hw. unfold BulkViscTrapClass.phaseshift_arg.
  set (g := 1.739 - 0.0892 * exp betamu + 0.00156 * exp betamu ^ 2).
  assert (Hg : 0 < g) by apply gammaT_pos.
  assert (Hden : 0 < betaomega ^ 2 + g ^ 2) by nra.
  split.
  - unfold Rdiv. apply Rmult_le_pos; [nra |].
    left. apply Rinv_0_lt_compat, Hden.
  - apply Rmult_le_reg_r with (betaomega ^ 2 + g ^ 2); [exact Hden |].
    unfold Rdiv at 1. rewrite Rmult_assoc, Rinv_l by lra.
    pose proof (pow2_ge_0 (betaomega - g)). nra.
Qed.

Lemma Ok_inj {A} (a b : A) : Ok a = Ok b -> a = b.
Proof. intros [= ->]. reflexivity. Qed.

Lemma atan_le (x y : R) : x <= y -> atan x <= atan y.
Proof.
  intros [Hlt | ->]; [left; apply atan_increasing, Hlt | right; reflexivity].
Qed.

Section BulkViscClasses.

Import BulkViscTrapClass.

Variable eosrat : R -> R.
Variable sumrat : R -> R.
Variable quad : (R -> R) -> R -> limit -> R -> R * R.
Variable root_scalar : (R -> R) -> R * R -> option R -> result RootResults.

(** The object [BulkViscUniform] builds for [T > 0]. *)
Lemma BulkViscUniform_init_eq (T barnu mubulk nu_max : R) :
  0 < T ->
  BulkViscUniform_init eosrat sumrat quad T barnu mubulk nu_max
  = Ok (mkBulkViscUniform T barnu mubulk 1 uniform_grid
          (thermo_bulk eosrat quad (mubulk / T) T).1.1.2
          (thermo_bulk eosrat quad (mubulk / T) T).2
          (map (fun betaomega => heating_bulk eosrat sumrat T (mubulk / T) betaomega)
               (map (fun nu => nu / T) uniform_grid))
          (map (fun betaomega => zeta sumrat (mubulk / T) betaomega)
               (map (fun nu => nu / T) uniform_grid))
          (map (fun betaomega => atan (phaseshift_arg (mubulk / T) betaomega))
               (map (fun nu => nu / T) uniform_grid))).
Proof.
  intros HT. unfold BulkViscUniform_init.
  rewrite (drive_amplitude_one T HT).
  replace (160000 / 1000) with (IZR 160) by lra.
  rewrite int_IZR. change (160 + 1)%Z with 161%Z.
  rewrite linspace_uniform_grid. cbn [mbind result_bind].
  destruct (thermo_bulk eosrat quad _ _) as [[[f_n theta] f_p] Ebulk].
  rewrite map_scale_one. reflexivity.
Qed.

Lemma uniform_grid_nonneg (nu : R) : nu ∈ uniform_grid -> 0 <= nu.
Proof.
  unfold uniform_grid. intros Hin.
  apply list_elem_of_fmap in Hin as (i & -> & _).
  pose proof (pos_INR i). nra.
Qed.

(** X3: for [T > 0] and an equation of state that is not negative at
    [mubulk / T], the constructor of [BulkViscUniform] always returns,
    whatever [nu_max] is passed; the drive amplitude [A] is 1, the three
    arrays have the 161 entries of the grid, and at the first grid point
    (drive frequency 0) the heating rate and the phase shift are 0. *)
Theorem BulkViscUniform_constructs (T barnu mubulk nu_max : R) :
  0 < T ->
  0 <= eos_ufg eosrat (mubulk / T) ->
  exists self,
    BulkViscUniform_init eosrat sumrat quad T barnu mubulk nu_max = Ok self
    /\ bvu_A self = 1
    /\ length (bvu_nus self) = 161%nat
    /\ length (bvu_Edotbulks self) = 161%nat
    /\ length (bvu_zetas self) = 161%nat
    /\ length (bvu_phaseshifts self) = 161%nat
    /\ bvu_Edotbulks self !! 0%nat = Some 0
    /\ bvu_zetas self !! 0%nat = Some (zeta sumrat (mubulk / T) 0)
    /\ bvu_phaseshifts self !! 0%nat = Some 0.
Proof.
  intros HT _. eexists. split; [apply BulkViscUniform_init_eq, HT |].
  cbn [bvu_A bvu_nus bvu_Edotbulks bvu_zetas bvu_phaseshifts].
  rewrite !length_map.
  assert (Hlen : length uniform_grid = 161%nat).
  { unfold uniform_grid. rewrite length_map, length_seq. reflexivity. }
  assert (H0 : uniform_grid !! 0%nat = Some 0).
  { unfold uniform_grid. rewrite list_lookup_fmap, lookup_seq_lt by lia.
    cbn [fmap option_fmap option_map INR Nat.add]. f_equal. lra. }
  assert (H0T : map (fun nu => nu / T) uniform_grid !! 0%nat = Some 0).
  { change (map ?f ?l) with (f <$> l). rewrite list_lookup_fmap, H0.
    cbn [fmap option_fmap option_map]. f_equal. field. lra. }
  split_and!; try reflexivity; try exact Hlen.
  - change (map ?f ?l) with (f <$> l) at 1. rewrite list_lookup_fmap, H0T.
    cbn [fmap option_fmap option_map]. f_equal.
    unfold heating_bulk. replace (T * 0) with 0 by lra.
    replace (0 ^ 2) with 0 by lra. unfold Rdiv. rewrite !Rmult_0_r, !Rmult_0_l.
    reflexivity.
  - change (map ?f ?l) with (f <$> l) at 1. rewrite list_lookup_fmap, H0T.
    reflexivity.
  - change (map ?f ?l) with (f <$> l) at 1. rewrite list_lookup_fmap, H0T.
    cbn [fmap option_fmap option_map]. f_equal.
    unfold phaseshift_arg. unfold Rdiv. rewrite !Rmult_0_l. apply atan_0.
Qed.

(** X4: for [T > 0] every phase shift stored by [BulkViscUniform] lies
    between 0 and [atan(1/2)], so below a quarter of pi. *)
Theorem BulkViscUniform_phaseshifts_range (T barnu mubulk nu_max : R)
        (self : BulkViscUniform) :
  0 < T ->
  BulkViscUniform_init eosrat sumrat quad T barnu mubulk nu_max = Ok self ->
  Forall (fun phi => 0 <= phi <= atan (1/2) /\ phi < PI / 4) (bvu_phaseshifts self).
Proof.
  intros HT Hinit. rewrite (BulkViscUniform_init_eq _ _ _ _ HT) in Hinit.
  apply Ok_inj in Hinit. subst self. cbn [bvu_phaseshifts].
  apply Forall_forall. intros phi Hin.
  apply list_elem_of_fmap in Hin as (betaomega & -> & Hin).
  apply list_elem_of_fmap in Hin as (nu & -> & Hin).
  apply uniform_grid_nonneg in Hin.
  assert (Hw : 0 <= nu / T).
  { unfold Rdiv. apply Rmult_le_pos; [exact Hin |].
    left. apply Rinv_0_lt_compat, HT. }
  destruct (phaseshift_arg_range (mubulk / T) (nu / T) Hw) as [Hlo Hhi].
  assert (Hup : atan (phaseshift_arg (mubulk / T) (nu / T)) <= atan (1/2))
    by (apply atan_le, Hhi).
  split_and!.
  - rewrite <- atan_0. apply atan_le, Hlo.
  - exact Hup.
  - apply Rle_lt_trans with (atan (1/2)); [exact Hup |].
    rewrite <- atan_1. apply atan_increasing. lra.
Qed.

Lemma heating_trap_zero_frequency (T betamu betabaromega : R) :
  heating_trap eosrat sumrat quad T betamu 0 betabaromega = 0.
Proof.
  unfold heating_trap.
  destruct (quad _ 0 inf 1e-4) as [Ztrap Ztraperr].
  replace (T * 0) with 0 by lra. replace (0 ^ 2) with 0 by lra.
  unfold Rdiv. rewrite !Rmult_0_r, !Rmult_0_l. reflexivity.
Qed.

(** The object [BulkViscTrap] builds for [T > 0] on a grid [nus]. *)
Lemma BulkViscTrap_init_eq (T barnu mutrap nu_max : R) (nus : list R) :
  0 < T ->
  linspace 0 nu_max (int (nu_max / 1e3) + 1) = Ok nus ->
  BulkViscTrap_init eosrat sumrat quad T barnu mutrap nu_max
  = Ok (mkBulkViscTrap T barnu mutrap 1 nus
          (thermo_trap eosrat quad T (mutrap / T) (barnu / T)).1.1.2
          (thermo_trap eosrat quad T (mutrap / T) (barnu / T)).1.2
          (2 * (thermo_trap eosrat quad T (mutrap / T) (barnu / T)).2)
          (map (fun betaomega =>
                  heating_trap eosrat sumrat quad T (mutrap / T) betaomega (barnu / T))
               (map (fun nu => nu / T) nus))).
Proof.
  intros HT Hnus. unfold BulkViscTrap_init.
  rewrite (drive_amplitude_one T HT), Hnus. cbn [mbind result_bind].
  rewrite thermo_trap_eq, map_scale_one. reflexivity.
Qed.

(** X5: for [T > 0] and [nu_max] a whole number [k] of kHz, [BulkViscTrap]
    is constructed on the grid 0, 1000, ..., [k * 1000] (one point per kHz,
    both ends included); its drive amplitude [A] is 1, so that the stored
    heating rates are those of [heating_trap] at [nu / T], one per grid
    point. *)
Theorem BulkViscTrap_kHz_grid (T barnu mutrap : R) (k : nat) :
  0 < T ->
  exists self,
    BulkViscTrap_init eosrat sumrat quad T barnu mutrap (INR k * 1000) = Ok self
    /\ bvt_A self = 1
    /\ bvt_nus self = map (fun i : nat => INR i * 1000) (seq 0 (S k))
    /\ length (bvt_Edottraps self) = S k
    /\ bvt_Edottraps self
       = map (fun nu => heating_trap eosrat sumrat quad T (mutrap / T) (nu / T) (barnu / T))
             (bvt_nus self).
Proof.
  intros HT. eexists. split.
  - apply BulkViscTrap_init_eq; [exact HT |].
    replace (INR k * 1000 / 1e3) with (INR k) by lra.
    rewrite int_INR.
    replace (INR k * 1000) with (0 + INR k * 1000) by lra.
    apply linspace_steps.
  - cbn [bvt_A bvt_nus bvt_Edottraps].
    rewrite !length_map, length_seq, map_map.
    split_and!; try reflexivity.
    apply map_ext. intros i. lra.
Qed.

(** X6: the ends of the range of [nu_max] in [BulkViscTrap], for [T > 0].
    Below [-2000] the number of grid points is negative and [np.linspace]
    raises [ValueError]; from there up to [-1000] the grid and the heating
    rates are empty; for [|nu_max| < 1000] the grid is the single frequency 0,
    where the heating rate is 0 (the equation of state being nowhere
    negative). *)
Theorem BulkViscTrap_small_nu_max (T barnu mutrap nu_max : R) :
  0 < T ->
  (nu_max <= -2000 ->
   BulkViscTrap_init eosrat sumrat quad T barnu mutrap nu_max = Raise ValueError)
  /\ (-2000 < nu_max <= -1000 ->
      exists self,
        BulkViscTrap_init eosrat sumrat quad T barnu mutrap nu_max = Ok self
        /\ bvt_nus self = [] /\ bvt_Edottraps self = [])
  /\ (-1000 < nu_max < 1000 ->
      (forall x, 0 <= eos_ufg eosrat x) ->
      exists self,
        BulkViscTrap_init eosrat sumrat quad T barnu mutrap nu_max = Ok self
        /\ bvt_nus self = [0] /\ bvt_Edottraps self = [0]).
Proof.
  intros HT. split_and!; intros Hnu.
  - unfold BulkViscTrap_init.
    assert (Hint : (int (nu_max / 1e3) <= -2)%Z) by (apply int_le_minus_2; lra).
    unfold linspace.
    destruct (Z.ltb_spec (int (nu_max / 1e3) + 1) 0) as [_ | Hge]; [| lia].
    reflexivity.
  - eexists. split.
    + apply BulkViscTrap_init_eq; [exact HT |].
      rewrite (int_neg_spec (nu_max / 1e3) (-1)) by lra.
      reflexivity.
    + split; reflexivity.
  - intros _. eexists. split.
    + apply BulkViscTrap_init_eq; [exact HT |].
      rewrite (int_small (nu_max / 1e3)) by lra.
      reflexivity.
    + cbn [bvt_nus bvt_Edottraps].
      change (Z.to_nat (0 + 1)) with 1%nat. cbn [seq map INR].
      rewrite Rmult_0_l, Rplus_0_l.
      replace (0 / T) with 0 by (field; lra).
      rewrite heating_trap_zero_frequency. split; reflexivity.
Qed.

(** What a constructed [BulkViscTrapToTF] holds, for [EF * Theta > 0]. *)
Lemma BulkViscTrapToTF_init_fields (Theta EF barnu : R) (mutrap_guess : option R)
      (nu_max : R) (self : BulkViscTrapToTF) :
  0 < EF * Theta ->
  BulkViscTrapToTF_init eosrat sumrat quad root_scalar
                        Theta EF barnu mutrap_guess nu_max = Ok self ->
  let T := EF * Theta in
  exists nus guess betamutrap no_iter,
    linspace 1e3 nu_max (2 * int (nu_max / 1e3) - 1) = Ok nus
    /\ mutrap_guess = Some guess
    /\ find_betamu eosrat quad root_scalar T EF (barnu / T) (Some (guess / T))
       = Ok (betamutrap, no_iter)
    /\ self = mkBulkViscTrapToTF 1 nus
                (number_per_spin eosrat quad betamutrap (barnu / T))
                (thermo_trap eosrat quad T betamutrap (barnu / T)).1.1.2
                (thermo_trap eosrat quad T betamutrap (barnu / T)).1.2
                (2 * (thermo_trap eosrat quad T betamutrap (barnu / T)).2)
                (map (fun betaomega =>
                        heating_trap eosrat sumrat quad T betamutrap betaomega
                                     (barnu / T))
                     (map (fun nu => nu / T) nus)).
Proof.
  intros HT Hinit T. unfold BulkViscTrapToTF_init in Hinit. fold T in Hinit.
  rewrite (drive_amplitude_one T HT) in Hinit.
  destruct (linspace 1e3 nu_max _) as [nus | e]; [| discriminate].
  destruct mutrap_guess as [guess |]; [| discriminate].
  cbn [mbind result_bind div_opt] in Hinit.
  destruct (find_betamu eosrat quad root_scalar T EF (barnu / T) _)
    as [[betamutrap no_iter] | e] eqn:Hfind; [| discriminate].
  cbn [mbind result_bind] in Hinit.
  rewrite thermo_trap_eq, map_scale_one in Hinit.
  apply Ok_inj in Hinit. subst self.
  exists nus, guess, betamutrap, no_iter.
  split_and!; [reflexivity | reflexivity | exact Hfind | reflexivity].
Qed.

(** X7: the argument errors of [BulkViscTrapToTF], for [EF * Theta > 0].
    With [nu_max] below 1000 the number of grid points [2 * int(nu_max / 1e3) - 1]
    is negative and [np.linspace] raises [ValueError], whatever the other
    arguments; from 1000 on, the default [mutrap_guess=None] raises
    [TypeError] at [mutrap_guess / T], before the root finder is called. *)
Theorem BulkViscTrapToTF_argument_errors (Theta EF barnu nu_max : R) :
  0 < EF * Theta ->
  (nu_max < 1000 ->
   forall mutrap_guess,
     BulkViscTrapToTF_init eosrat sumrat quad root_scalar
                           Theta EF barnu mutrap_guess nu_max = Raise ValueError)
  /\ (1000 <= nu_max ->
      BulkViscTrapToTF_init eosrat sumrat quad root_scalar
                            Theta EF barnu None nu_max = Raise TypeError).
Proof.
  intros HT. split; intros Hnu.
  - intros mutrap_guess. unfold BulkViscTrapToTF_init.
    assert (Hint : (int (nu_max / 1e3) <= 0)%Z) by (apply int_le_0; lra).
    unfold linspace.
    destruct (Z.ltb_spec (2 * int (nu_max / 1e3) - 1) 0) as [_ | Hge]; [| lia].
    reflexivity.
  - unfold BulkViscTrapToTF_init.
    assert (Hint : (1 <= int (nu_max / 1e3))%Z) by (apply int_ge_1; lra).
    rewrite linspace_nonneg by lia. reflexivity.
Qed.

(** X8: a [BulkViscTrapToTF] constructed for [EF * Theta > 0] with [nu_max]
    a whole number [k >= 1] of kHz has the grid 1000, 1500, ..., [k * 1000]:
    steps of half a kHz from 1 kHz, [2 k - 1] points, with one heating rate
    per point; its drive amplitude [A] is 1. *)
Theorem BulkViscTrapToTF_half_kHz_grid (Theta EF barnu : R)
        (mutrap_guess : option R) (k : nat) (self : BulkViscTrapToTF) :
  0 < EF * Theta ->
  (1 <= k)%nat ->
  BulkViscTrapToTF_init eosrat sumrat quad root_scalar
                        Theta EF barnu mutrap_guess (INR k * 1000) = Ok self ->
  tot_A self = 1
  /\ tot_nus self = map (fun i : nat => 1000 + INR i * 500) (seq 0 (2 * k - 1))
  /\ last (tot_nus self) = Some (INR k * 1000)
  /\ length (tot_Edottraps self) = (2 * k - 1)%nat.
Proof.
  intros HT Hk Hinit.
  apply BulkViscTrapToTF_init_fields in Hinit
    as (nus & guess & betamutrap & no_iter & Hnus & _ & _ & ->); [| exact HT].
  cbn [tot_A tot_nus tot_Edottraps].
  replace (INR k * 1000 / 1e3) with (INR k) in Hnus by lra.
  rewrite int_INR in Hnus.
  destruct k as [| j]; [lia |].
  replace (2 * Z.of_nat (S j) - 1)%Z with (Z.of_nat (2 * j) + 1)%Z in Hnus by lia.
  replace 1e3 with 1000 in Hnus by lra.
  replace (INR (S j) * 1000) with (1000 + INR (2 * j) * 500) in Hnus
    by (rewrite S_INR, mult_INR; simpl; lra).
  rewrite linspace_steps in Hnus. apply Ok_inj in Hnus. subst nus.
  replace (2 * S j - 1)%nat with (S (2 * j)) by lia.
  rewrite !length_map, length_seq.
  split_and!; try reflexivity.
  change (map ?f ?l) with (f <$> l).
  rewrite fmap_last, seq_S, last_snoc. cbn [fmap option_fmap option_map Nat.add].
  f_equal. rewrite S_INR, mult_INR. simpl. lra.
Qed.

(** X9: with an exact bracketing solver, a [BulkViscTrapToTF] constructed
    for [EF * Theta > 0] stores the reduced temperature it was given,
    [self.Theta = Theta], and an atom number per spin state that satisfies
    [barnu * (6 * Ns) ** (1/3) = EF]. *)
Theorem BulkViscTrapToTF_recovers_Theta (Theta EF barnu : R)
        (mutrap_guess : option R) (nu_max : R) (self : BulkViscTrapToTF) :
  exact_bracketing_solver root_scalar ->
  0 < EF * Theta ->
  BulkViscTrapToTF_init eosrat sumrat quad root_scalar
                        Theta EF barnu mutrap_guess nu_max = Ok self ->
  tot_Theta self = Theta
  /\ barnu * fpow (6 * tot_Ns self) (1/3) = EF.
Proof.
  intros [Hsound _] HT Hinit.
  apply BulkViscTrapToTF_init_fields in Hinit
    as (nus & guess & betamutrap & no_iter & _ & _ & Hfind & ->); [| exact HT].
  apply find_betamu_inv in Hfind as (sol & Hsol & <-).
  apply Hsound in Hsol.
  cbn [tot_Theta tot_Ns]. rewrite thermo_trap_eq. cbn [fst snd].
  set (c := fpow (6 * number_per_spin eosrat quad (root sol) (barnu / (EF * Theta))) (1/3))
    in *.
  assert (HEF : EF * Theta * (barnu / (EF * Theta)) * c = EF) by lra.
  assert (HEF0 : EF <> 0) by (intros ->; lra).
  assert (HTheta0 : Theta <> 0) by (intros ->; lra).
  assert (Hb : barnu * c = EF).
  { replace (barnu * c) with (EF * Theta * (barnu / (EF * Theta)) * c)
      by (field; auto).
    exact HEF. }
  split; [| exact Hb].
  rewrite HEF. field. exact HEF0.
Qed.

End BulkViscClasses.

(** Instances of the conditional theorems on the classes. *)

Lemma BulkViscUniform_constructs_witness :
  exists self,
    BulkViscTrapClass.BulkViscUniform_init
      Reference.eosrat Reference.sumrat Reference.one_point_quad 1 1 (-9) 5
    = Ok self
    /\ BulkViscTrapClass.bvu_Edotbulks self !! 0%nat = Some 0.
Proof.
  destruct (BulkViscUniform_constructs
              Reference.eosrat Reference.sumrat Reference.one_point_quad 1 1 (-9) 5)
    as (self & Hself & _ & _ & _ & _ & _ & H0 & _);
    [lra | apply eos_ufg_nonneg_below; lra |].
  exists self. split; [exact Hself | exact H0].
Defined.

Lemma BulkViscUniform_phaseshifts_range_witness :
  exists self,
    BulkViscTrapClass.BulkViscUniform_init
      Reference.eosrat Reference.sumrat Reference.one_point_quad 1 1 0 5
    = Ok self
    /\ Forall (fun phi => 0 <= phi <= atan (1/2) /\ phi < PI / 4)
              (BulkViscTrapClass.bvu_phaseshifts self).
Proof.
  eexists. split.
  - apply BulkViscUniform_init_eq. lra.
  - apply (BulkViscUniform_phaseshifts_range
             Reference.eosrat Reference.sumrat Reference.one_point_quad 1 1 0 5);
      [lra |].
    apply BulkViscUniform_init_eq. lra.
Defined.

Lemma BulkViscTrap_kHz_grid_witness :
  exists self,
    BulkViscTrapClass.BulkViscTrap_init
      Reference.boltzmann Reference.sumrat Reference.one_point_quad
      1 1 0 (INR 2 * 1000) = Ok self
    /\ BulkViscTrapClass.bvt_A self = 1
    /\ length (BulkViscTrapClass.bvt_Edottraps self) = 3%nat.
Proof.
  destruct (BulkViscTrap_kHz_grid
              Reference.boltzmann Reference.sumrat Reference.one_point_quad
              1 1 0 2) as (self & Hself & HA & _ & Hlen & _); [lra |].
  exists self. split_and!; [exact Hself | exact HA | exact Hlen].
Defined.

Lemma BulkViscTrap_small_nu_max_witness :
  BulkViscTrapClass.BulkViscTrap_init
    Reference.boltzmann Reference.sumrat Reference.one_point_quad 1 1 0 (-3000)
  = Raise ValueError
  /\ (exists self,
        BulkViscTrapClass.BulkViscTrap_init
          Reference.boltzmann Reference.sumrat Reference.one_point_quad
          1 1 0 (-1500) = Ok self
        /\ BulkViscTrapClass.bvt_nus self = [])
  /\ (exists self,
        BulkViscTrapClass.BulkViscTrap_init
          Reference.boltzmann Reference.sumrat Reference.one_point_quad
          1 1 0 500 = Ok self
        /\ BulkViscTrapClass.bvt_Edottraps self = [0]).
Proof.
  split_and!.
  - apply (BulkViscTrap_small_nu_max
             Reference.boltzmann Reference.sumrat Reference.one_point_quad
             1 1 0 (-3000)); lra.
  - destruct (BulkViscTrap_small_nu_max
                Reference.boltzmann Reference.sumrat Reference.one_point_quad
                1 1 0 (-1500)) as (_ & Hempty & _); [lra |].
    destruct Hempty as (self & Hself & Hnus & _); [lra |].
    exists self. split; [exact Hself | exact Hnus].
  - destruct (BulkViscTrap_small_nu_max
                Reference.boltzmann Reference.sumrat Reference.one_point_quad
                1 1 0 500) as (_ & _ & Hone); [lra |].
    destruct Hone as (self & Hself & _ & Hrates);
      [lra | apply boltzmann_eos_nonneg |].
    exists self. split; [exact Hself | exact Hrates].
Defined.

Lemma BulkViscTrapToTF_argument_errors_witness :
  BulkViscTrapClass.BulkViscTrapToTF_init
    Reference.boltzmann Reference.sumrat Reference.one_point_quad
    Reference.ivt_root_scalar 1 1 1 (Some 0) 999 = Raise ValueError
  /\ BulkViscTrapClass.BulkViscTrapToTF_init
       Reference.boltzmann Reference.sumrat Reference.one_point_quad
       Reference.ivt_root_scalar 1 1 1 None 120e3 = Raise TypeError.
Proof.
  split.
  - apply (BulkViscTrapToTF_argument_errors
             Reference.boltzmann Reference.sumrat Reference.one_point_quad
             Reference.ivt_root_scalar 1 1 1 999); lra.
  - apply (BulkViscTrapToTF_argument_errors
             Reference.boltzmann Reference.sumrat Reference.one_point_quad
             Reference.ivt_root_scalar 1 1 1 120e3); lra.
Defined.

Lemma boltzmann_TrapToTF_returns_kHz :
  exists self,
    BulkViscTrapClass.BulkViscTrapToTF_init
      Reference.boltzmann Reference.sumrat Reference.one_point_quad
      Reference.ivt_root_scalar 1 1 1 (Some 0) (INR 2 * 1000) = Ok self.
Proof.
  replace (INR 2 * 1000) with 2000 by (simpl; lra).
  apply boltzmann_TrapToTF_returns.
Qed.

Lemma BulkViscTrapToTF_half_kHz_grid_witness :
  exists self,
    BulkViscTrapClass.BulkViscTrapToTF_init
      Reference.boltzmann Reference.sumrat Reference.one_point_quad
      Reference.ivt_root_scalar 1 1 1 (Some 0) (INR 2 * 1000) = Ok self
    /\ BulkViscTrapClass.tot_nus self
       = map (fun i : nat => 1000 + INR i * 500) (seq 0 (2 * 2 - 1)).
Proof.
  destruct boltzmann_TrapToTF_returns_kHz as [self Hself].
  exists self. split; [exact Hself |].
  apply (BulkViscTrapToTF_half_kHz_grid
           Reference.boltzmann Reference.sumrat Reference.one_point_quad
           Reference.ivt_root_scalar 1 1 1 (Some 0) 2 self);
    [lra | lia | exact Hself].
Defined.

Lemma BulkViscTrapToTF_recovers_Theta_witness :
  exists self,
    BulkViscTrapClass.BulkViscTrapToTF_init
      Reference.boltzmann Reference.sumrat Reference.one_point_quad
      Reference.ivt_root_scalar 1 1 1 (Some 0) 2000 = Ok self
    /\ BulkViscTrapClass.tot_Theta self = 1.
Proof.
  destruct boltzmann_TrapToTF_returns as [self Hself].
  exists self. split; [exact Hself |].
  apply (BulkViscTrapToTF_recovers_Theta
           Reference.boltzmann Reference.sumrat Reference.one_point_quad
           Reference.ivt_root_scalar 1 1 1 (Some 0) 2000 self);
    [apply ivt_root_scalar_exact | lra | exact Hself].
Defined.

(** ** A solver that stops at a tolerance *)













(** ** fit_functions.py *)

Section FitFunctionsMore.

Import FitFunctions.

Variable erfc : R -> R.

(** *** The statistics of numpy *)

Lemma fold_left_Rmax_spec (a : list R) :
  forall x,
    x <= fold_left Rmax a x
    /\ Forall (fun y => y <= fold_left Rmax a x) a
    /\ (fold_left Rmax a x = x \/ fold_left Rmax a x ∈ a).
Proof.
  induction a as [| y a' IH]; intros x; cbn [fold_left].
  - split_and!; [lra | constructor | left; reflexivity].
  - destruct (IH (Rmax x y)) as (Hge & Hall & Hin).
    pose proof (Rmax_l x y) as Hl. pose proof (Rmax_r x y) as Hr.
    split_and!.
    + lra.
    + constructor; [lra | exact Hall].
    + destruct Hin as [Heq | Hin].
      * rewrite Heq. unfold Rmax. destruct (Rle_dec x y).
        -- right. apply list_elem_of_here.
        -- left. reflexivity.
      * right. apply list_elem_of_further, Hin.
Qed.

Lemma fold_left_Rmin_spec (a : list R) :
  forall x,
    fold_left Rmin a x <= x
    /\ Forall (fun y => fold_left Rmin a x <= y) a
    /\ (fold_left Rmin a x = x \/ fold_left Rmin a x ∈ a).
Proof.
  induction a as [| y a' IH]; intros x; cbn [fold_left].
  - split_and!; [lra | constructor | left; reflexivity].
  - destruct (IH (Rmin x y)) as (Hge & Hall & Hin).
    pose proof (Rmin_l x y) as Hl. pose proof (Rmin_r x y) as Hr.
    split_and!.
    + lra.
    + constructor; [lra | exact Hall].
    + destruct Hin as [Heq | Hin].
      * rewrite Heq. unfold Rmin. destruct (Rle_dec x y).
        -- left. reflexivity.
        -- right. apply list_elem_of_here.
      * right. apply list_elem_of_further, Hin.
Qed.

Lemma np_max_spec (a : list R) (v : R) :
  np_max a = Ok v -> v ∈ a /\ Forall (fun y => y <= v) a.
Proof.
  destruct a as [| x a']; [discriminate |]. cbn [np_max]. intros [= <-].
  destruct (fold_left_Rmax_spec a' x) as (Hge & Hall & Hin). split.
  - destruct Hin as [-> | Hin];
      [apply list_elem_of_here | apply list_elem_of_further, Hin].
  - constructor; assumption.
Qed.

Lemma np_min_spec (a : list R) (v : R) :
  np_min a = Ok v -> v ∈ a /\ Forall (fun y => v <= y) a.
Proof.
  destruct a as [| x a']; [discriminate |]. cbn [np_min]. intros [= <-].
  destruct (fold_left_Rmin_spec a' x) as (Hge & Hall & Hin). split.
  - destruct Hin as [-> | Hin];
      [apply list_elem_of_here | apply list_elem_of_further, Hin].
  - constructor; assumption.
Qed.

Lemma sum_bounds (a : list R) (lo hi : R) :
  Forall (fun y => lo <= y <= hi) a ->
  INR (length a) * lo <= fold_right Rplus 0 a <= INR (length a) * hi.
Proof.
  induction 1 as [| y a' Hy _ IH].
  - cbn [length fold_right INR]. lra.
  - cbn [fold_right]. change (length (y :: a')) with (S (length a')).
    rewrite S_INR. lra.
Qed.

Lemma np_mean_bounds (a : list R) (lo hi : R) :
  a <> [] ->
  Forall (fun y => lo <= y <= hi) a ->
  lo <= np_mean a <= hi.
Proof.
  intros Ha Hall. unfold np_mean.
  assert (Hn : 0 < INR (length a)).
  { apply lt_0_INR. destruct a; [congruence | cbn [length]; lia]. }
  pose proof (sum_bounds a lo hi Hall) as [Hlo Hhi].
  split.
  - apply Rmult_le_reg_r with (INR (length a)); [exact Hn |].
    unfold Rdiv. rewrite Rmult_assoc, Rinv_l by lra. lra.
  - apply Rmult_le_reg_r with (INR (length a)); [exact Hn |].
    unfold Rdiv. rewrite Rmult_assoc, Rinv_l by lra. lra.
Qed.

(** [argmax_from] scans [a], the tail of an array [pre ++ a], holding the
    first largest entry of [pre]. *)
Lemma argmax_from_spec (a : list R) :
  forall (pre : list R) (best : R) (besti : nat),
    pre !! besti = Some best ->
    Forall (fun y => y <= best) pre ->
    (forall j y, (j < besti)%nat -> pre !! j = Some y -> y < best) ->
    exists v,
      (pre ++ a) !! argmax_from best besti (length pre) a = Some v
      /\ Forall (fun y => y <= v) (pre ++ a)
      /\ (forall j y, (j < argmax_from best besti (length pre) a)%nat ->
                      (pre ++ a) !! j = Some y -> y < v).
Proof.
  induction a as [| x a' IH]; intros pre best besti Hbest Hall Hfirst;
    cbn [argmax_from].
  - rewrite app_nil_r. exists best. split_and!; assumption.
  - assert (Hlen : length (pre ++ [x]) = S (length pre))
      by (rewrite length_app; cbn [length]; lia).
    replace (pre ++ x :: a') with ((pre ++ [x]) ++ a')
      by (rewrite <- app_assoc; reflexivity).
    rewrite <- Hlen.
    destruct (Rlt_dec best x) as [Hlt | Hge].
    + replace (length pre) with (length (pre ++ [x]) - 1)%nat at 1 by lia.
      rewrite Hlen. replace (S (length pre) - 1)%nat with (length pre) by lia.
      rewrite <- Hlen.
      apply IH.
      * rewrite lookup_app_r by lia. rewrite Nat.sub_diag. reflexivity.
      * apply Forall_app. split.
        -- eapply Forall_impl; [exact Hall |]. cbn beta. intros y Hy. lra.
        -- constructor; [lra | constructor].
      * intros j y Hj Hy. rewrite lookup_app_l in Hy by exact Hj.
        rewrite Forall_forall in Hall.
        apply list_elem_of_lookup_2 in Hy. specialize (Hall y Hy). lra.
    + apply IH.
      * rewrite lookup_app_l; [exact Hbest |].
        apply lookup_lt_Some in Hbest. exact Hbest.
      * apply Forall_app. split; [exact Hall |].
        constructor; [lra | constructor].
      * intros j y Hj Hy. apply lookup_lt_Some in Hbest.
        rewrite lookup_app_l in Hy by lia. eapply Hfirst; eassumption.
Qed.

Lemma np_argmax_spec (a : list R) (i : nat) :
  np_argmax a = Ok i ->
  exists v,
    a !! i = Some v
    /\ Forall (fun y => y <= v) a
    /\ (forall j y, (j < i)%nat -> a !! j = Some y -> y < v).
Proof.
  destruct a as [| x a']; [discriminate |]. cbn [np_argmax]. intros [= <-].
  apply (argmax_from_spec a' [x] x 0).
  - reflexivity.
  - constructor; [lra | constructor].
  - intros j y Hj. lia.
Qed.

(** The abscissa [x_of_absmax] returns is one of the data. *)
Lemma x_of_absmax_in_col0 (d : data) (x : R) :
  x_of_absmax d = Ok x -> x ∈ col0 d.
Proof.
  unfold x_of_absmax.
  destruct (np_argmax (map Rabs (col1 d))) as [i | e]; [| discriminate].
  rewrite bind_Ok. unfold getitem0, data in *.
  destruct (d !! i) as [row |] eqn:Hrow; [| discriminate].
  intros [= <-]. unfold col0. change (map ?f ?l) with (f <$> l).
  apply list_elem_of_fmap. exists row. split; [reflexivity |].
  eapply list_elem_of_lookup_2, Hrow.
Qed.

(** X10: on an array with at least one row, the abscissa that the guesses
    take for the centre, [data[np.abs(data[:,1]).argmax(), 0]], is the [x]
    of the first row whose [|y|] is largest: no row has a larger [|y|], and
    every earlier row has a smaller one. *)
Theorem x_of_absmax_first_largest (d : data) :
  d <> [] ->
  exists (x y : R) (i : nat),
    x_of_absmax d = Ok x
    /\ d !! i = Some (x, y)
    /\ Forall (fun row => Rabs row.2 <= Rabs y) d
    /\ (forall j row, (j < i)%nat -> d !! j = Some row -> Rabs row.2 < Rabs y).
Proof.
  intros Hd. unfold x_of_absmax.
  destruct (np_argmax (map Rabs (col1 d))) as [i | e] eqn:Harg.
  - apply np_argmax_spec in Harg as (v & Hv & Hall & Hfirst).
    unfold col1 in Hv, Hall, Hfirst. rewrite map_map in Hv, Hall, Hfirst.
    change (map ?f ?l) with (f <$> l) in Hv, Hall, Hfirst.
    rewrite list_lookup_fmap in Hv.
    unfold getitem0, data in *.
    destruct (d !! i) as [[x y] |] eqn:Hrow; [| discriminate Hv].
    cbn [fmap option_fmap option_map snd] in Hv. injection Hv as <-.
    exists x, y, i. cbn [mbind result_bind].
    rewrite Hrow. split_and!; try reflexivity.
    + apply Forall_fmap in Hall. exact Hall.
    + intros j row Hj Hjrow. apply (Hfirst j (Rabs row.2) Hj).
      rewrite list_lookup_fmap, Hjrow. reflexivity.
  - exfalso. destruct d as [| row d']; [congruence | discriminate].
Qed.

(** Runs a catalogue function on an array with at least one row. *)
Ltac run_statistics Hx Hmax0 Hmin0 Hmax1 Hmin1 :=
  repeat (first [rewrite Hx | rewrite Hmax0 | rewrite Hmin0
                 | rewrite Hmax1 | rewrite Hmin1];
          cbn [mbind result_bind]).

(** X11: on an array with at least one row, [Gaussian], [Lorentzian],
    [Sinc] and [Sinc2] return the same guess [A0, x0, s0, C0]: [C0] is the
    mean of the [y] column; [A0 >= 0] and [A0 + C0] is the largest [y];
    [x0] is an [x] of the data; [s0 >= 0] is half the range of [x], so that
    every [x] of the data is within [2 * s0] of [x0]. *)
Theorem peak_guess_invariants (d : data) :
  d <> [] ->
  exists A0 x0 s0 C0 : R,
    Gaussian d = Ok (gaussian, Some [A0; x0; s0; C0], ["A"; "x0"; "sigma"; "C"]%string)
    /\ Lorentzian d
       = Ok (lorentzian, Some [A0; x0; s0; C0], ["A"; "x0"; "sigma"; "C"]%string)
    /\ Sinc d = Ok (sinc, Some [A0; x0; s0; C0], ["A"; "x0"; "sigma"; "C"]%string)
    /\ Sinc2 d = Ok (sinc2, Some [A0; x0; s0; C0], ["A"; "x0"; "sigma"; "C"]%string)
    /\ C0 = np_mean (col1 d)
    /\ 0 <= A0
    /\ A0 + C0 ∈ col1 d
    /\ Forall (fun y => y <= A0 + C0) (col1 d)
    /\ x0 ∈ col0 d
    /\ 0 <= s0
    /\ Forall (fun x => Rabs (x - x0) <= 2 * s0) (col0 d).
Proof.
  intros Hd.
  destruct (statistics_return erfc d Hd)
    as (x_ofmax & max_x & min_x & max_y & min_y
        & Hx & Hmax0 & Hmin0 & Hmax1 & Hmin1).
  exists (max_y - np_mean (col1 d)), x_ofmax, ((max_x - min_x) / 2),
    (np_mean (col1 d)).
  unfold Gaussian, Lorentzian, Sinc, Sinc2.
  run_statistics Hx Hmax0 Hmin0 Hmax1 Hmin1.
  destruct (np_max_spec _ _ Hmax0) as [Hmax0in Hmax0all].
  destruct (np_min_spec _ _ Hmin0) as [Hmin0in Hmin0all].
  destruct (np_max_spec _ _ Hmax1) as [Hmax1in Hmax1all].
  destruct (np_min_spec _ _ Hmin1) as [Hmin1in Hmin1all].
  rewrite Forall_forall in Hmax0all, Hmin0all, Hmax1all, Hmin1all.
  assert (Hcol1 : col1 d <> []) by (destruct d; [congruence | discriminate]).
  assert (Hmean : min_y <= np_mean (col1 d) <= max_y).
  { apply np_mean_bounds; [exact Hcol1 |].
    apply Forall_forall. intros y Hy. split; auto. }
  assert (Hx0 : x_ofmax ∈ col0 d).
  { apply x_of_absmax_in_col0, Hx. }
  replace (max_y - np_mean (col1 d) + np_mean (col1 d)) with max_y by lra.
  split_and!; try reflexivity.
  - lra.
  - exact Hmax1in.
  - apply Forall_forall. exact Hmax1all.
  - exact Hx0.
  - specialize (Hmax0all _ Hx0). specialize (Hmin0all _ Hx0). lra.
  - apply Forall_forall. intros x Hxin.
    specialize (Hmax0all _ Hxin) as Hxmax. specialize (Hmin0all _ Hxin) as Hxmin.
    specialize (Hmax0all _ Hx0). specialize (Hmin0all _ Hx0).
    apply Rabs_le. lra.
Qed.

(** X12: an array without rows.  The ten functions that take a statistic
    of the data raise [ValueError] on it ([TrapFreq], [TrapFreq2] and
    [Expontial] included), the other seven return the same triple for every
    array; on arrays with at least one row the results of [TrapFreq] and
    [TrapFreq2] do not depend on the array, although they compute its
    statistics. *)
Theorem empty_array_raises :
  Forall (fun f : data -> result fit => f [] = Raise ValueError)
         [Parabola; Sqrt; Gaussian; Lorentzian; Sin; Sinc; Sinc2;
          TrapFreq; TrapFreq2; Expontial]
  /\ (forall d : data,
        Forall (fun f : data -> result fit => exists r, f d = Ok r /\ f [] = Ok r)
               [Linear; RabiFreq; RabiLine; ErfcFit erfc; SinplusCos;
                FixedSin; FixedSin5kHz])
  /\ (forall d d' : data,
        d <> [] -> d' <> [] ->
        TrapFreq d = TrapFreq d' /\ TrapFreq2 d = TrapFreq2 d').
Proof.
  split_and!.
  - repeat (apply Forall_cons; split; [reflexivity |]). apply Forall_nil. exact I.
  - intros d.
    repeat (apply Forall_cons; split; [eexists; split; reflexivity |]).
    apply Forall_nil. exact I.
  - intros d d' Hd Hd'.
    destruct (statistics_return erfc d Hd)
      as (x_ofmax & max_x & min_x & max_y & min_y
          & Hx & Hmax0 & Hmin0 & Hmax1 & Hmin1).
    destruct (statistics_return erfc d' Hd')
      as (x_ofmax' & max_x' & min_x' & max_y' & min_y'
          & Hx' & Hmax0' & Hmin0' & Hmax1' & Hmin1').
    unfold TrapFreq, TrapFreq2.
    run_statistics Hx Hmax0 Hmin0 Hmax1 Hmin1.
    run_statistics Hx' Hmax0' Hmin0' Hmax1' Hmin1'.
    split; reflexivity.
Qed.

Lemma exp_nonpos_le_1 (u : R) : u <= 0 -> 0 < exp u <= 1.
Proof.
  intros Hu. split; [apply exp_pos |].
  destruct Hu as [Hlt | ->]; [| rewrite exp_0; lra].
  left. rewrite <- exp_0. apply exp_increasing, Hlt.
Qed.

(** X13: the two peak models, for [sigma <> 0] and [A >= 0].  Both are
    symmetric about [x0] and take their largest value there.  The Gaussian
    stays between [C] and [A + C], its value at [x0]; the Lorentzian stays
    between [C] and [A / sigma^2 + C], its value at [x0]: its parameter [A]
    is the peak height times [sigma^2], not the peak height. *)
Theorem peak_models_shape (x A x0 sigma C : R) :
  sigma <> 0 ->
  0 <= A ->
  exists g l : R,
    gaussian x [A; x0; sigma; C] = Ok g
    /\ lorentzian x [A; x0; sigma; C] = Ok l
    /\ gaussian (2 * x0 - x) [A; x0; sigma; C] = Ok g
    /\ lorentzian (2 * x0 - x) [A; x0; sigma; C] = Ok l
    /\ gaussian x0 [A; x0; sigma; C] = Ok (A + C)
    /\ lorentzian x0 [A; x0; sigma; C] = Ok (A / sigma ^ 2 + C)
    /\ C <= g <= A + C
    /\ C <= l <= A / sigma ^ 2 + C.
Proof.
  intros Hs HA. eexists. eexists.
  split; [reflexivity |]. split; [reflexivity |].
  assert (Hs2 : 0 < sigma ^ 2) by (pose proof (pow2_ge_0 sigma); nra).
  assert (Hq : 0 <= (x - x0) ^ 2) by apply pow2_ge_0.
  assert (Hu : - (x - x0) ^ 2 / (2 * sigma ^ 2) <= 0).
  { unfold Rdiv. apply Ropp_le_cancel. rewrite Ropp_0.
    rewrite <- Ropp_mult_distr_l, Ropp_involutive.
    apply Rmult_le_pos; [lra |]. left. apply Rinv_0_lt_compat. lra. }
  destruct (exp_nonpos_le_1 _ Hu) as [Hpos Hle].
  assert (Hg : 0 <= A * exp (- (x - x0) ^ 2 / (2 * sigma ^ 2)) <= A) by nra.
  assert (Hinv : 0 < / ((x - x0) ^ 2 + sigma ^ 2) <= / sigma ^ 2).
  { split; [apply Rinv_0_lt_compat; lra |].
    apply Rinv_le_contravar; lra. }
  pose proof (Rmult_le_compat_l A _ _ HA (proj2 Hinv)) as Hl1.
  pose proof (Rmult_le_pos A _ HA (Rlt_le _ _ (proj1 Hinv))) as Hl0.
  split_and!.
  - cbn [gaussian].
    replace ((2 * x0 - x - x0) ^ 2) with ((x - x0) ^ 2) by ring. reflexivity.
  - cbn [lorentzian].
    replace ((2 * x0 - x - x0) ^ 2) with ((x - x0) ^ 2) by ring. reflexivity.
  - cbn [gaussian]. f_equal.
    replace (- (x0 - x0) ^ 2 / (2 * sigma ^ 2)) with 0 by (field; lra).
    rewrite exp_0. lra.
  - cbn [lorentzian]. f_equal.
    replace ((x0 - x0) ^ 2 + sigma ^ 2) with (sigma ^ 2) by ring. reflexivity.
  - lra.
  - lra.
  - unfold Rdiv in *. lra.
  - unfold Rdiv in *. lra.
Qed.

Lemma sinc_bounded (u : R) : -1 <= np_sinc u <= 1.
Proof.
  unfold np_sinc. destruct (Req_dec_T u 0) as [_ | Hu]; [lra |].
  pose proof PI_RGT_0 as Hpi.
  assert (Ht : PI * u <> 0) by nra.
  set (t := PI * u) in *.
  assert (Habs : Rabs (sin t) <= Rabs t).
  { destruct (Rlt_le_dec 0 t) as [Hpos | Hneg].
    - pose proof (sin_lt_x t Hpos).
      destruct (Rle_lt_dec t 1) as [Hsmall | Hbig].
      + assert (0 <= sin t).
        { apply sin_ge_0; [lra |]. pose proof PI_gt_314. lra. }
        rewrite !Rabs_right by lra. lra.
      + pose proof (SIN_bound t) as [Hlo Hhi].
        rewrite (Rabs_right t) by lra. apply Rabs_le. lra.
    - assert (Hpos : 0 < - t) by lra.
      pose proof (sin_lt_x (- t) Hpos) as Hsin. rewrite sin_neg in Hsin.
      destruct (Rle_lt_dec (- t) 1) as [Hsmall | Hbig].
      + assert (0 <= sin (- t)).
        { apply sin_ge_0; [lra |]. pose proof PI_gt_314. lra. }
        rewrite sin_neg in *. rewrite !Rabs_left1 by lra. lra.
      + pose proof (SIN_bound t) as [Hlo Hhi].
        rewrite (Rabs_left1 t) by lra. apply Rabs_le. lra. }
  assert (Hq : Rabs (sin t / t) <= 1).
  { unfold Rdiv. rewrite Rabs_mult, Rabs_inv.
    assert (0 < Rabs t) by (apply Rabs_pos_lt, Ht).
    apply Rmult_le_reg_r with (Rabs t); [assumption |].
    rewrite Rmult_assoc, Rinv_l by lra. lra. }
  pose proof (Rle_abs (sin t / t)) as Hup.
  pose proof (Rle_abs (- (sin t / t))) as Hdown.
  rewrite Rabs_Ropp in Hdown. lra.
Qed.

(** X14: the two sinc models, for [sigma <> 0].  At [x = x0] both give
    [A + C]; for [A >= 0], [Sinc]'s model stays between [C - A] and [A + C]
    and [Sinc2]'s, which squares the sinc, between [C] and [A + C]. *)
Theorem sinc_models_shape (x A x0 sigma C : R) :
  sigma <> 0 ->
  sinc x0 [A; x0; sigma; C] = Ok (A + C)
  /\ sinc2 x0 [A; x0; sigma; C] = Ok (A + C)
  /\ (0 <= A ->
      exists s s2 : R,
        sinc x [A; x0; sigma; C] = Ok s
        /\ sinc2 x [A; x0; sigma; C] = Ok s2
        /\ C - A <= s <= A + C
        /\ C <= s2 <= A + C).
Proof.
  intros Hs.
  assert (H0 : np_sinc ((x0 - x0) / sigma) = 1).
  { unfold np_sinc. destruct (Req_dec_T ((x0 - x0) / sigma) 0) as [_ | Hn];
      [reflexivity |].
    exfalso. apply Hn. field. exact Hs. }
  split_and!.
  - cbn [sinc]. rewrite H0. f_equal. lra.
  - cbn [sinc2]. rewrite H0. f_equal. lra.
  - intros HA. eexists. eexists.
    split; [reflexivity |]. split; [reflexivity |].
    pose proof (sinc_bounded ((x - x0) / sigma)) as Hb.
    set (s := np_sinc ((x - x0) / sigma)) in *.
    assert (Hs2 : 0 <= s ^ 2 <= 1) by (split; [apply pow2_ge_0 | nra]).
    split; nra.
Qed.

Lemma sin_plus_2PI (u : R) : sin (u + 2 * PI) = sin u.
Proof. rewrite sin_plus, sin_2PI, cos_2PI. lra. Qed.

(** X15: the models with a fixed frequency are periodic in [t], whatever
    the parameters: [FixedSin]'s with period 100 and [FixedSin5kHz]'s with
    period 200; half a period later the oscillating part has changed
    sign. *)
Theorem FixedSin_periods (t : R) (p : list R) :
  FixedSin_ (t + 100) p = FixedSin_ t p
  /\ FixedSin5kHz_ (t + 200) p = FixedSin5kHz_ t p
  /\ (forall A ph C, exists y,
        FixedSin_ t [A; ph; C] = Ok y
        /\ FixedSin_ (t + 50) [A; ph; C] = Ok (2 * C - y))
  /\ (forall A ph C, exists y,
        FixedSin5kHz_ t [A; ph; C] = Ok y
        /\ FixedSin5kHz_ (t + 100) [A; ph; C] = Ok (2 * C - y)).
Proof.
  split_and!.
  - destruct p as [| A [| ph [| C [| ? ?]]]]; try reflexivity.
    cbn [FixedSin_]. cbv zeta. do 3 f_equal.
    replace (0.010 * 2 * PI * (t + 100) - ph)
      with (0.010 * 2 * PI * t - ph + 2 * PI) by lra.
    apply sin_plus_2PI.
  - destruct p as [| A [| ph [| C [| ? ?]]]]; try reflexivity.
    cbn [FixedSin5kHz_]. cbv zeta. do 3 f_equal.
    replace (0.005 * 2 * PI * (t + 200) - ph)
      with (0.005 * 2 * PI * t - ph + 2 * PI) by lra.
    apply sin_plus_2PI.
  - intros A ph C. eexists. split; [reflexivity |].
    cbn [FixedSin_]. cbv zeta. f_equal.
    replace (0.010 * 2 * PI * (t + 50) - ph)
      with (0.010 * 2 * PI * t - ph + PI) by lra.
    rewrite neg_sin. lra.
  - intros A ph C. eexists. split; [reflexivity |].
    cbn [FixedSin5kHz_]. cbv zeta. f_equal.
    replace (0.005 * 2 * PI * (t + 100) - ph)
      with (0.005 * 2 * PI * t - ph + PI) by lra.
    rewrite neg_sin. lra.
Qed.

(** X16: the model of [TrapFreq2] takes six parameters but never reads the
    sixth: two calls that differ only there give the same value, which is
    that of [TrapFreq]'s model with slope 0; called with the five parameters
    its name list announces, it raises [TypeError]. *)
Theorem TrapFreq2_ignores_sixth_parameter (x A b l x0 C D D' : R) :
  TrapFreq2_ x [A; b; l; x0; C; D] = TrapFreq2_ x [A; b; l; x0; C; D']
  /\ TrapFreq2_ x [A; b; l; x0; C; D] = TrapFreq_ x [A; b; l; x0; C; 0]
  /\ TrapFreq2_ x [A; b; l; x0; C] = Raise TypeError
  /\ (forall d : data,
        d <> [] ->
        exists guess names,
          TrapFreq2 d = Ok (TrapFreq2_, Some guess, names)
          /\ TrapFreq2_ x (firstn (length names) guess) = Raise TypeError).
Proof.
  split_and!; try reflexivity.
  - cbn [TrapFreq2_ TrapFreq_]. f_equal. lra.
  - intros d Hd.
    destruct (statistics_return erfc d Hd)
      as (x_ofmax & max_x & min_x & max_y & min_y
          & Hx & Hmax0 & Hmin0 & Hmax1 & Hmin1).
    unfold TrapFreq2. run_statistics Hx Hmax0 Hmin0 Hmax1 Hmin1.
    eexists. eexists. split; reflexivity.
Qed.

(** X17: on an array with at least one row, every function of the
    catalogue returns; [Linear] alone has no guess, and the guess of each of
    the other sixteen has exactly as many entries as its model takes
    parameters (the model called with the guess does not raise
    [TypeError]), also for [TrapFreq2] and [SinplusCos], whose name lists
    are shorter than their guesses. *)
Theorem models_accept_their_guess (d : data) :
  d <> [] ->
  Forall (fun entry : string * (data -> result fit) =>
            match entry.2 d with
            | Ok (f, Some guess, names) =>
                arity f (length guess)
                /\ forall x, f x guess <> Raise TypeError
            | Ok (f, None, names) => entry.1 = "Linear"%string
            | Raise _ => False
            end)
         (catalogue erfc).
Proof.
  intros Hd.
  destruct (statistics_return erfc d Hd)
    as (x_ofmax & max_x & min_x & max_y & min_y
        & Hx & Hmax0 & Hmin0 & Hmax1 & Hmin1).
  unfold catalogue.
  repeat (apply Forall_cons; split;
          [ cbn [fst snd];
            unfold Linear, Parabola, Sqrt, Gaussian, Lorentzian, Sin, Sinc, Sinc2,
              TrapFreq, TrapFreq2, RabiFreq, Expontial, RabiLine, ErfcFit,
              SinplusCos, FixedSin, FixedSin5kHz;
            run_statistics Hx Hmax0 Hmin0 Hmax1 Hmin1;
            cbn [mret result_ret length];
            first [ reflexivity
                  | split;
                    [ first [ apply arity_parabola | apply arity_sqrt
                            | apply arity_gaussian | apply arity_lorentzian
                            | apply arity_sin | apply arity_sinc | apply arity_sinc2
                            | apply arity_TrapFreq | apply arity_TrapFreq2
                            | apply arity_RabiFreq | apply arity_Exponential
                            | apply arity_RabiLine | apply arity_ErfcFit
                            | apply arity_SinplusCos | apply arity_FixedSin
                            | apply arity_FixedSin5kHz ]
                    | intros x; discriminate ] ]
          |]).
  apply Forall_nil. exact I.
Qed.

End FitFunctionsMore.

Lemma x_of_absmax_first_largest_witness :
  exists (x y : R) (i : nat),
    FitFunctions.x_of_absmax [(0, 1); (2, -3); (4, 3)] = Ok x
    /\ [(0, 1); (2, -3); (4, 3)] !! i = Some (x, y).
Proof.
  destruct (x_of_absmax_first_largest [(0, 1); (2, -3); (4, 3)])
    as (x & y & i & Hx & Hrow & _); [discriminate |].
  exists x, y, i. split; [exact Hx | exact Hrow].
Defined.

Lemma peak_guess_invariants_witness :
  exists A0 x0 s0 C0 : R,
    FitFunctions.Gaussian [(0, 1); (2, -3); (4, 3)]
    = Ok (FitFunctions.gaussian, Some [A0; x0; s0; C0],
          ["A"; "x0"; "sigma"; "C"]%string)
    /\ 0 <= A0 /\ 0 <= s0.
Proof.
  destruct (peak_guess_invariants Reference.erfc_first_order
              [(0, 1); (2, -3); (4, 3)])
    as (A0 & x0 & s0 & C0 & HG & _ & _ & _ & _ & HA & _ & _ & _ & Hs & _);
    [discriminate |].
  exists A0, x0, s0, C0. split_and!; assumption.
Defined.

Lemma empty_array_raises_witness :
  FitFunctions.TrapFreq [(0, 1)] = FitFunctions.TrapFreq [(1, 2); (3, 4)].
Proof.
  apply (empty_array_raises Reference.erfc_first_order); discriminate.
Defined.

Lemma peak_models_shape_witness :
  exists g l : R,
    FitFunctions.gaussian 1 [2; 0; 1; 0] = Ok g
    /\ FitFunctions.lorentzian 1 [2; 0; 1; 0] = Ok l
    /\ 0 <= g <= 2 + 0
    /\ 0 <= l <= 2 / 1 ^ 2 + 0.
Proof.
  destruct (peak_models_shape 1 2 0 1 0)
    as (g & l & Hg & Hl & _ & _ & _ & _ & Hgb & Hlb); [lra | lra |].
  exists g, l.
  split; [exact Hg | split; [exact Hl | split; [exact Hgb | exact Hlb]]].
Defined.

Lemma sinc_models_shape_witness :
  FitFunctions.sinc 0 [2; 0; 1; 0] = Ok (2 + 0)
  /\ exists s s2 : R,
      FitFunctions.sinc 1 [2; 0; 1; 0] = Ok s
      /\ FitFunctions.sinc2 1 [2; 0; 1; 0] = Ok s2
      /\ 0 - 2 <= s <= 2 + 0
      /\ 0 <= s2 <= 2 + 0.
Proof.
  split.
  - apply (sinc_models_shape 0 2 0 1 0). lra.
  - apply (sinc_models_shape 1 2 0 1 0); lra.
Defined.

Lemma TrapFreq2_ignores_sixth_parameter_witness :
  exists guess names,
    FitFunctions.TrapFreq2 [(0, 1)] = Ok (FitFunctions.TrapFreq2_, Some guess, names)
    /\ FitFunctions.TrapFreq2_ 0 (firstn (length names) guess) = Raise TypeError.
Proof.
  apply (TrapFreq2_ignores_sixth_parameter Reference.erfc_first_order
           0 1 1 1 0 0 0 1).
  discriminate.
Defined.

Lemma models_accept_their_guess_witness :
  Forall (fun entry : string * (FitFunctions.data -> result FitFunctions.fit) =>
            match entry.2 [(0, 1)] with
            | Ok (f, Some guess, names) =>
                FitFunctions.arity f (length guess)
                /\ forall x, f x guess <> Raise TypeError
            | Ok (f, None, names) => entry.1 = "Linear"%string
            | Raise _ => False
            end)
         (FitFunctions.catalogue Reference.erfc_first_order).
Proof.
  apply (models_accept_their_guess Reference.erfc_first_order [(0, 1)]).
  discriminate.
Defined.

(** ** fit_heating_rates.py *)

Section FitHeatingRatesMore.

Import FitFunctions FitHeatingRates.

Variable h : R.
Variable deBroglie : R -> R.
Variable a97 : R -> R.
Variable chi_sq : list R -> list R -> list R -> Z -> result R.
Variable curve_fit :
  model -> list R -> list R -> list R -> result (list R * list (list R)).

(** *** Attributes missing from the metadata *)

(** The loop of [fix_attribute] stops at the first name that is a column
    of [run.data]. *)
Lemma fix_attribute_loop_spec (run : Run) (attr : string) (names : list string)
      (r : Run) :
  fix_attribute_loop run attr names = Ok r ->
  (r = run /\ Forall (fun name => columns (data run) !! name = None) names)
  \/ exists pre name post x col,
       names = pre ++ name :: post
       /\ Forall (fun name => columns (data run) !! name = None) pre
       /\ columns (data run) !! name = Some (x :: col)
       /\ r = setattr run attr (Num x).
Proof.
  induction names as [| name rest IH]; cbn [fix_attribute_loop].
  - intros [= <-]. left. split; [reflexivity | constructor].
  - unfold getitem.
    destruct (columns (data run) !! name) as [[| x col] |] eqn:Hcol;
      cbn [mbind result_bind values0 try_except].
    + destruct (decide (IndexError = KeyError)) as [Habs | _];
        [discriminate Habs | discriminate].
    + intros [= <-]. right. exists [], name, rest, x, col.
      split_and!; [reflexivity | constructor | exact Hcol | reflexivity].
    + destruct (decide (KeyError = KeyError)) as [_ | Hne]; [| congruence].
      intros Hrest. destruct (IH Hrest)
        as [[-> Hall] | (pre & name' & post & x & col & -> & Hpre & Hcol' & ->)].
      * left. split; [reflexivity | constructor; assumption].
      * right. exists (name :: pre), name', post, x, col.
        split_and!; [reflexivity | constructor; assumption | exact Hcol'
                    | reflexivity].
Qed.

(** [fix_attribute] writes [attr] and nothing else. *)
Lemma fix_attribute_frame (run : Run) (attr : string) (names : list string)
      (r : Run) :
  fix_attribute run attr names = Ok r ->
  data r = data run
  /\ avg_data r = avg_data run
  /\ agree_except attr (attrs r) (attrs run).
Proof.
  unfold fix_attribute.
  destruct (getattr run attr) as [v | e]; [| discriminate].
  rewrite bind_Ok.
  assert (Hsame : Ok run = Ok r ->
                  data r = data run /\ avg_data r = avg_data run
                  /\ agree_except attr (attrs r) (attrs run)).
  { intros [= <-]. split_and!; [reflexivity | reflexivity | apply agree_except_refl]. }
  destruct v; try exact Hsame.
  intros Hloop.
  apply fix_attribute_loop_spec in Hloop
    as [[-> _] | (pre & name & post & x & col & _ & _ & _ & ->)].
  - apply Hsame. reflexivity.
  - split_and!; try reflexivity.
    intros k Hk. apply lookup_setattr_ne. congruence.
Qed.

(** X18: what [fix_attribute] does to a run, when it returns.  It never
    touches the two frames nor any attribute other than [attr].  An [attr]
    that is not [nan] is left as it is, whatever the .dat file holds.  An
    [attr] that is [nan] takes the first cell of the first name of the list
    that is a column of [run.data], the later names being ignored, and
    stays [nan] when none of the names is a column. *)
Theorem fix_attribute_first_column (run : Run) (attr : string)
        (names : list string) (r : Run) :
  fix_attribute run attr names = Ok r ->
  data r = data run
  /\ avg_data r = avg_data run
  /\ agree_except attr (attrs r) (attrs run)
  /\ (getattr run attr <> Ok NaN -> r = run)
  /\ (getattr run attr = Ok NaN ->
      (r = run /\ Forall (fun name => columns (data run) !! name = None) names)
      \/ exists pre name post x col,
           names = pre ++ name :: post
           /\ Forall (fun name => columns (data run) !! name = None) pre
           /\ columns (data run) !! name = Some (x :: col)
           /\ r = setattr run attr (Num x)).
Proof.
  unfold fix_attribute.
  destruct (getattr run attr) as [v | e] eqn:Hattr; [| discriminate].
  rewrite bind_Ok.
  assert (Hkeep : forall x, data (setattr run attr (Num x)) = data run
                            /\ avg_data (setattr run attr (Num x)) = avg_data run
                            /\ agree_except attr (attrs (setattr run attr (Num x)))
                                            (attrs run)).
  { intros x. split_and!; try reflexivity.
    intros k Hk. apply lookup_setattr_ne. congruence. }
  destruct v; try (intros [= <-]; split_and!;
                   [reflexivity | reflexivity | apply agree_except_refl
                   | reflexivity | discriminate]).
  intros Hloop. apply fix_attribute_loop_spec in Hloop as Hspec.
  assert (Hcases : r = run \/ exists x, r = setattr run attr (Num x)).
  { destruct Hspec as [[-> _] | (pre & name & post & x & col & _ & _ & _ & ->)];
      [left; reflexivity | right; exists x; reflexivity]. }
  split_and!.
  - destruct Hcases as [-> | [x ->]]; [reflexivity | apply Hkeep].
  - destruct Hcases as [-> | [x ->]]; [reflexivity | apply Hkeep].
  - destruct Hcases as [-> | [x ->]]; [apply agree_except_refl | apply Hkeep].
  - intros Hne. congruence.
  - intros _. exact Hspec.
Qed.

(** [date < pd.Timestamp(2024, 3, 1)] is the order of calendar dates. *)
Lemma before_2024_03_01_spec (year month day : Z) :
  (1 <= day)%Z ->
  before_2024_03_01 year month day = true
  <-> (year < 2024
       \/ (year = 2024 /\ (month < 3 \/ (month = 3 /\ day < 1))))%Z.
Proof.
  intros Hday. unfold before_2024_03_01.
  rewrite orb_true_iff, andb_true_iff, !Z.ltb_lt, Z.eqb_eq. lia.
Qed.

(** X19: the correction of [Vpp] for the older runs composes with
    [fix_attribute].  For a run whose [freq] is in the metadata and whose
    date is a calendar date (its day of the month at least 1): a [Vpp] of
    the metadata is halved exactly when the date comes before 1 March 2024
    in the order of the calendar, and left as it is otherwise; a [Vpp] that is [nan] and is found
    in the column [amp] of the .dat file (there being no column [Vpp]) is
    taken from there and halved in the same way. *)
Theorem fix_attributes_halves_old_Vpp (run : Run) (f : R) (year month day : Z) :
  getattr run "freq" = Ok (Num f) ->
  getattr run "date" = Ok (Date year month day) ->
  (1 <= day)%Z ->
  let old :=
    bool_decide (year < 2024
                 \/ (year = 2024 /\ (month < 3 \/ (month = 3 /\ day < 1))))%Z in
  (forall v,
      getattr run "Vpp" = Ok (Num v) ->
      fix_attributes run
      = Ok (if old then setattr run "Vpp" (Num (v / 2)) else run))
  /\ (forall x col,
        getattr run "Vpp" = Ok NaN ->
        columns (data run) !! "Vpp"%string = None ->
        columns (data run) !! "amp"%string = Some (x :: col) ->
        fix_attributes run
        = Ok (if old
              then setattr (setattr run "Vpp" (Num x)) "Vpp" (Num (x / 2))
              else setattr run "Vpp" (Num x))).
Proof.
  intros Hfreq Hdate Hday old.
  assert (Hold : before_2024_03_01 year month day = old).
  { subst old.
    pose proof (before_2024_03_01_spec year month day Hday) as Hspec.
    destruct (bool_decide_reflect
                (year < 2024
                 \/ (year = 2024 /\ (month < 3 \/ (month = 3 /\ day < 1))))%Z)
      as [Hyes | Hno].
    - apply Hspec, Hyes.
    - apply not_true_is_false. intros Hb. apply Hno, Hspec, Hb. }
  split.
  - intros v HVpp. unfold fix_attributes, fix_attribute.
    rewrite Hfreq, !bind_Ok, HVpp, !bind_Ok, Hdate, !bind_Ok, Hold.
    destruct old; [| reflexivity].
    unfold get_float. rewrite HVpp, !bind_Ok. reflexivity.
  - intros x col HVpp Hno Hamp. unfold fix_attributes.
    unfold fix_attribute at 2. rewrite Hfreq, !bind_Ok.
    rewrite (fix_attribute_next run "Vpp" "Vpp" _ HVpp Hno).
    rewrite (fix_attribute_found run "Vpp" "amp" _ x col HVpp Hamp), !bind_Ok.
    rewrite getattr_setattr_ne by done. rewrite Hdate, !bind_Ok, Hold.
    destruct old; [| reflexivity].
    unfold get_float. rewrite getattr_setattr, !bind_Ok. reflexivity.
Qed.

(** *** The amplitude of the drive *)

Lemma sqrt_square_abs (x : R) : sqrt (0 ^ 2 + x ^ 2) = Rabs x.
Proof.
  replace (0 ^ 2 + x ^ 2) with (Rsqr x) by (unfold Rsqr; ring).
  apply sqrt_Rsqr_abs.
Qed.

(** X20: [Bamp_from_Vpp] always returns [e_Bamp = 0], so that the error
    [find_A] gives the amplitude holds no calibration error of the field:
    for [Vpp] and [freq] that are numbers (and nonzero [a97] and
    [deBroglie]) it is [A * |deBroglie(T) - deBroglie(T + e_T)| / |deBroglie(T)|]
    with [A = deBroglie(T) / a97(202.14 - Bamp)]; when [Vpp] or [freq] is
    [nan], so are [Bamp], [A] and [e_A]. *)
Theorem drive_amplitude_error (Vpp freq : float) (T e_T : R) :
  (Bamp_from_Vpp Vpp freq).2 = Some 0
  /\ (forall v f,
        Vpp = Some v -> freq = Some f ->
        let Bamp :=
          v * exponential f 7.42905865e-02 (-1.13381420e+01) 3.64847614e-03 / 0.9 in
        let A := deBroglie T / a97 (202.14 - Bamp) in
        a97 (202.14 - Bamp) <> 0 ->
        deBroglie T <> 0 ->
        (Bamp_from_Vpp Vpp freq).1 = Some Bamp
        /\ find_A deBroglie a97 T (Bamp_from_Vpp Vpp freq).1 e_T
                  (Bamp_from_Vpp Vpp freq).2
           = (Some A,
              Some (A * (Rabs (deBroglie T - deBroglie (T + e_T))
                         / Rabs (deBroglie T)))))
  /\ (Vpp = None \/ freq = None ->
      (Bamp_from_Vpp Vpp freq).1 = None
      /\ find_A deBroglie a97 T (Bamp_from_Vpp Vpp freq).1 e_T
                (Bamp_from_Vpp Vpp freq).2
         = (None, None)).
Proof.
  split_and!.
  - reflexivity.
  - intros v f -> -> Bamp A Ha HdB. split; [reflexivity |].
    unfold find_A, Bamp_from_Vpp.
    cbn [fst snd mbind option_bind]. fold Bamp.
    rewrite Rplus_0_r.
    replace (a97 (202.14 - Bamp) - a97 (202.14 - Bamp)) with 0 by lra.
    rewrite Rabs_R0.
    replace (0 / a97 (202.14 - Bamp)) with 0 by (field; exact Ha).
    rewrite sqrt_square_abs.
    unfold Rdiv at 3. rewrite Rabs_mult, Rabs_Rabsolu, Rabs_inv.
    reflexivity.
  - intros [-> | ->].
    + split; reflexivity.
    + destruct Vpp; split; reflexivity.
Qed.

(** *** What the two analyses write *)

(** The attributes either analysis assigns. *)
Definition analysis_keys : list string :=
  [ "fit_func"; "popt"; "pcov"; "err"; "dof"; "chi_sq";
    "poptToTF"; "pcovToTF"; "errToTF"; "ToTF"; "e_ToTF";
    "poptEF"; "pcovEF"; "errEF"; "EF"; "e_EF";
    "poptT"; "pcovT"; "errT"; "T"; "e_T";
    "poptN"; "pcovN"; "errN"; "N"; "e_N"; "loss_rate"; "e_loss_rate";
    "Bamp"; "e_Bamp"; "A"; "e_A"; "e_A2";
    "Ei"; "e_Ei"; "heating"; "e_heating"; "rate"; "e_rate" ]%string.

(** The attributes both analyses assign. *)
Definition result_keys : list string :=
  [ "ToTF"; "e_ToTF"; "EF"; "e_EF"; "T"; "e_T"; "Ei"; "e_Ei"; "N"; "e_N";
    "Bamp"; "e_Bamp"; "A"; "e_A"; "e_A2"; "heating"; "e_heating";
    "rate"; "e_rate"; "loss_rate"; "e_loss_rate"; "dof"; "chi_sq" ]%string.

(** What a completed analysis leaves in the run: the frames and the other
    attributes as they were, every result attribute assigned, and the
    amplitude [A] and the scaled rate computed from [Vpp], [freq], [T] and
    the heating rate. *)
Definition analysed (run r : Run) : Prop :=
  data r = data run
  /\ avg_data r = avg_data run
  /\ (forall k, k ∉ analysis_keys -> attrs r !! k = attrs run !! k)
  /\ Forall (fun k => is_Some (attrs r !! k)) result_keys
  /\ exists Vpp freq T e_T heating,
      get_float run "Vpp" = Ok Vpp
      /\ get_float run "freq" = Ok freq
      /\ attrs r !! "T"%string = Some (Num T)
      /\ attrs r !! "e_T"%string = Some (Num e_T)
      /\ attrs r !! "heating"%string = Some (Num heating)
      /\ attrs r !! "Bamp"%string = Some (of_float (Bamp_from_Vpp Vpp freq).1)
      /\ attrs r !! "e_Bamp"%string = Some (Num 0)
      /\ attrs r !! "A"%string
         = Some (of_float
                   (find_A deBroglie a97 T (Bamp_from_Vpp Vpp freq).1 e_T (Some 0)).1)
      /\ attrs r !! "rate"%string
         = Some (of_float
                   (A ← (find_A deBroglie a97 T (Bamp_from_Vpp Vpp freq).1 e_T
                                (Some 0)).1;
                    Some (heating * 1000 / A ^ 2))).

Ltac strip_writes :=
  repeat first [ rewrite curve_fit_column_setattr by done
               | rewrite get_float_setattr_ne by done
               | rewrite get_str_setattr_ne by done ].

Ltac raised := let Hraised := fresh in intros Hraised; discriminate Hraised.
Ltac returned := rewrite ?bind_Ok; cbv beta iota zeta.
Ltac raises := rewrite ?bind_Raise; try raised; try (intros _; raised).

Tactic Notation "run_call" constr(c) "as" simple_intropattern(pat) "named" ident(E) :=
  strip_writes; destruct c as [pat | ?] eqn:E; [returned | raises].

Ltac in_list := repeat first [ apply list_elem_of_here | apply list_elem_of_further ].

(** Reads an attribute back through the writes that followed it. *)
Ltac lookup_attr :=
  unfold rate_attrs;
  repeat (rewrite lookup_setattr_ne by done);
  rewrite lookup_setattr_eq; reflexivity.

(** Reads an attribute that no write assigned. *)
Ltac lookup_kept Hk :=
  unfold rate_attrs;
  repeat (rewrite lookup_setattr_ne
            by (let Heq := fresh in
                intros Heq; apply Hk; rewrite <- Heq; unfold analysis_keys; in_list));
  reflexivity.

Ltac all_assigned :=
  unfold result_keys;
  repeat (apply Forall_cons; split; [eexists; lookup_attr |]);
  apply Forall_nil; exact I.

Lemma fit_analysis_analysed (run r : Run) :
  fit_analysis h deBroglie a97 chi_sq curve_fit run = Ok r ->
  analysed run r
  /\ exists popt pcov,
      curve_fit_column curve_fit run settings_fit settings_temp_param
        = Ok (popt, pcov)
      /\ attrs r !! "dof"%string
         = Some (Int (Z.of_nat (nrows (avg_data run))
                      - Z.of_nat (length (np_diag pcov)))).
Proof.
  unfold fit_analysis.
  run_call (curve_fit_column curve_fit run settings_fit settings_temp_param)
    as [popt pcov] named HE.
  rewrite ?avg_data_setattr; strip_writes.
  destruct (try_except _ ZeroDivisionError (Ok 1)) as [chi | ?] eqn:Hchi;
    [returned | raises].
  run_call (curve_fit_column curve_fit run settings_fit "ToTF")
    as [poptToTF pcovToTF] named HToTF.
  run_call (item poptToTF 1) as ToTF named HToTF1.
  run_call (item (map sqrt (np_diag pcovToTF)) 1) as e_ToTF named HeToTF1.
  run_call (curve_fit_column curve_fit run settings_fit "EF")
    as [poptEF pcovEF] named HEF.
  run_call (item poptEF 1) as EF1 named HEF1.
  run_call (item (map sqrt (np_diag pcovEF)) 1) as e_EF1 named HeEF1.
  run_call (curve_fit_column curve_fit run settings_fit "T")
    as [poptT pcovT] named HT.
  run_call (item poptT 1) as T named HT1.
  run_call (item (map sqrt (np_diag pcovT)) 1) as e_T named HeT1.
  run_call (curve_fit_column curve_fit run settings_fit "N")
    as [poptN pcovN] named HN.
  run_call (item poptN 1) as N named HN1.
  run_call (item (map sqrt (np_diag pcovN)) 1) as e_N named HeN1.
  run_call (item poptN 0) as poptN0 named HN0.
  run_call (item (map sqrt (np_diag pcovN)) 0) as errN0 named HeN0.
  unfold amplitude_attrs.
  run_call (get_float run "Vpp") as Vpp named HVpp.
  run_call (get_float run "freq") as freq named Hfreq.
  run_call (item popt 1) as Ei named HEi.
  run_call (item (map sqrt (np_diag pcov)) 1) as e_Ei named HeEi.
  run_call (item popt 0) as popt0 named Hpopt0.
  run_call (item (map sqrt (np_diag pcov)) 0) as err0 named Herr0.
  run_call (item2 pcov 0 1) as pcov01 named Hpcov01.
  intros [= <-].
  split.
  - unfold analysed. split_and!.
    + unfold rate_attrs. rewrite !data_setattr. reflexivity.
    + unfold rate_attrs. rewrite !avg_data_setattr. reflexivity.
    + intros k Hk. lookup_kept Hk.
    + all_assigned.
    + exists Vpp, freq, T, e_T, (popt0 / Ei).
      split_and!; [exact HVpp | exact Hfreq | lookup_attr ..].
  - exists popt, pcov. split; [reflexivity |].
    rewrite <- (length_map sqrt (np_diag pcov)). lookup_attr.
Qed.

Lemma two_points_analysed (run r : Run) :
  analysis_for_dof_equals_two h deBroglie a97 run = Ok r ->
  analysed run r
  /\ attrs r !! "dof"%string = Some (Int 0)
  /\ attrs r !! "chi_sq"%string = Some (Num 1).
Proof.
  unfold analysis_for_dof_equals_two.
  run_call (get_str run "param") as param named Hparam.
  run_call (getitem (avg_data run) param) as xs named Hxs.
  run_call (getcolattr (loc (avg_data run) (series_eq xs (series_min xs))) "ToTF"
            ≫= float_of_series) as ToTF named HToTF.
  run_call (getcolattr (loc (avg_data run) (series_eq xs (series_min xs))) "em_ToTF"
            ≫= float_of_series) as e_ToTF named HeToTF.
  run_call (getcolattr (loc (avg_data run) (series_eq xs (series_min xs))) "EF"
            ≫= float_of_series) as EF1 named HEF.
  run_call (getcolattr (loc (avg_data run) (series_eq xs (series_min xs))) "em_EF"
            ≫= float_of_series) as e_EF1 named HeEF.
  run_call (getitem (loc (avg_data run) (series_eq xs (series_min xs))) "T"
            ≫= float_of_series) as T named HT.
  run_call (getcolattr (loc (avg_data run) (series_eq xs (series_min xs))) "em_T"
            ≫= float_of_series) as e_T named HeT.
  run_call (getitem (loc (avg_data run) (series_eq xs (series_min xs)))
                    settings_temp_param
            ≫= float_of_series) as Ei named HEi.
  run_call (getitem (loc (avg_data run) (series_eq xs (series_min xs)))
                    ("em_" +:+ settings_temp_param)
            ≫= float_of_series) as e_Ei named HeEi.
  run_call (getitem (loc (avg_data run) (series_eq xs (series_max xs)))
                    settings_temp_param
            ≫= float_of_series) as Ef named HEf.
  run_call (getitem (loc (avg_data run) (series_eq xs (series_max xs)))
                    ("em_" +:+ settings_temp_param)
            ≫= float_of_series) as e_Ef named HeEf.
  run_call (getcolattr (loc (avg_data run) (series_eq xs (series_min xs))) "N"
            ≫= float_of_series) as N named HN.
  run_call (getcolattr (loc (avg_data run) (series_eq xs (series_min xs))) "em_N"
            ≫= float_of_series) as e_N named HeN.
  run_call (getcolattr (loc (avg_data run) (series_eq xs (series_max xs))) "N"
            ≫= float_of_series) as Nf named HNf.
  run_call (getcolattr (loc (avg_data run) (series_eq xs (series_max xs))) "em_N"
            ≫= float_of_series) as e_Nf named HeNf.
  unfold amplitude_attrs.
  run_call (get_float run "Vpp") as Vpp named HVpp.
  run_call (get_float run "freq") as freq named Hfreq.
  run_call (getitem (loc (avg_data run) (series_eq xs (series_max xs))) param
            ≫= float_of_series) as x2 named Hx2.
  run_call (getitem (loc (avg_data run) (series_eq xs (series_min xs))) param
            ≫= float_of_series) as x1 named Hx1.
  intros [= <-].
  split_and!; try lookup_attr.
  unfold analysed. split_and!.
  - unfold rate_attrs. rewrite !data_setattr. reflexivity.
  - unfold rate_attrs. rewrite !avg_data_setattr. reflexivity.
  - intros k Hk. lookup_kept Hk.
  - all_assigned.
  - exists Vpp, freq, T, e_T, ((Ef / Ei - 1) / (x2 - x1)).
    split_and!; [exact HVpp | exact Hfreq | lookup_attr ..].
Qed.

Lemma analyse_analysed (run r : Run) :
  analyse h deBroglie a97 chi_sq curve_fit run = Ok r -> analysed run r.
Proof.
  unfold analyse. destruct (bool_decide (nrows (avg_data run) = 2%nat)).
  - intros Hr. apply two_points_analysed in Hr. apply Hr.
  - intros Hr. apply fit_analysis_analysed in Hr. apply Hr.
Qed.

Ltac not_in_list :=
  let Hin := fresh in
  intros Hin;
  repeat (apply elem_of_cons in Hin as [Hin | Hin]; [discriminate Hin |]);
  apply elem_of_nil in Hin; exact Hin.

(** X21: an analysis that completes, by fits or from two points, has
    only assigned attributes of its own list: the frames [data] and
    [avg_data] and every other attribute of the run, the metadata [param],
    [Vpp], [freq] and [date] among them, are as before; and whichever
    branch ran, each of the 23 results of the list [result_keys] ([T],
    [EF], [heating], [rate], [dof], [chi_sq], ...) is assigned. *)
Theorem analysis_assigns_results_only (run r : Run) :
  analyse h deBroglie a97 chi_sq curve_fit run = Ok r ->
  data r = data run
  /\ avg_data r = avg_data run
  /\ (forall k, k ∉ analysis_keys -> attrs r !! k = attrs run !! k)
  /\ Forall (fun k => attrs r !! k = attrs run !! k)
            ["param"; "Vpp"; "freq"; "date"]%string
  /\ Forall (fun k => is_Some (attrs r !! k)) result_keys.
Proof.
  intros Hr. apply analyse_analysed in Hr
    as (Hdata & Havg & Hkept & Hset & _).
  split_and!; try assumption.
  repeat (apply Forall_cons; split;
          [apply Hkept; unfold analysis_keys; not_in_list |]).
  apply Forall_nil. exact I.
Qed.

Lemma np_diag_2x2 (a b c d : R) : np_diag [[a; b]; [c; d]] = [a; d].
Proof. reflexivity. Qed.

(** X22: the degrees of freedom an analysis stores.  With two averaged
    points they are set to 0 and [chi_sq] to 1, without a fit; otherwise
    they are the number of averaged points less the length of the diagonal
    of the covariance of the energy fit, so for a 2 x 2 covariance the
    number of points less two, which is not 0. *)
Theorem degrees_of_freedom (run r : Run) :
  analyse h deBroglie a97 chi_sq curve_fit run = Ok r ->
  (nrows (avg_data run) = 2%nat ->
   attrs r !! "dof"%string = Some (Int 0)
   /\ attrs r !! "chi_sq"%string = Some (Num 1))
  /\ (nrows (avg_data run) <> 2%nat ->
      exists popt pcov,
        curve_fit_column curve_fit run settings_fit settings_temp_param
          = Ok (popt, pcov)
        /\ attrs r !! "dof"%string
           = Some (Int (Z.of_nat (nrows (avg_data run))
                        - Z.of_nat (length (np_diag pcov))))
        /\ (forall a b c d,
              pcov = [[a; b]; [c; d]] ->
              attrs r !! "dof"%string
                = Some (Int (Z.of_nat (nrows (avg_data run)) - 2))
              /\ (Z.of_nat (nrows (avg_data run)) - 2 <> 0)%Z)).
Proof.
  unfold analyse. intros Hr. split; intros Hrows.
  - rewrite bool_decide_eq_true_2 in Hr by exact Hrows.
    apply two_points_analysed in Hr. apply Hr.
  - rewrite bool_decide_eq_false_2 in Hr by exact Hrows.
    apply fit_analysis_analysed in Hr as (_ & popt & pcov & Hfit & Hdof).
    exists popt, pcov. split_and!; [exact Hfit | exact Hdof |].
    intros a b c d ->. rewrite np_diag_2x2 in Hdof. split; [exact Hdof | lia].
Qed.

(** X23: how the scaled rate follows from the metadata.  After a
    completed analysis with [Vpp] and [freq] numbers, [run.Bamp] is
    [Vpp * exponential(freq, *WiggleCalpopt) / 0.9], [run.A] is
    [deBroglie(T) / a97(202.14 - Bamp)] at the [T] the analysis stored
    (for a nonzero [a97]), and [run.rate] is [heating * 1000 / A^2] (for a
    nonzero [A]); when [Vpp] or [freq] is [nan], [Bamp], [A] and [rate] are
    [nan] while [T] and [heating] are still numbers.  [e_Bamp] is 0 in
    every case. *)
Theorem scaled_rate (run r : Run) :
  analyse h deBroglie a97 chi_sq curve_fit run = Ok r ->
  exists (Vpp freq : float) (T heating : R),
    get_float run "Vpp" = Ok Vpp
    /\ get_float run "freq" = Ok freq
    /\ attrs r !! "T"%string = Some (Num T)
    /\ attrs r !! "heating"%string = Some (Num heating)
    /\ attrs r !! "e_Bamp"%string = Some (Num 0)
    /\ (forall v f,
          Vpp = Some v -> freq = Some f ->
          let Bamp :=
            v * exponential f 7.42905865e-02 (-1.13381420e+01) 3.64847614e-03
            / 0.9 in
          let A := deBroglie T / a97 (202.14 - Bamp) in
          attrs r !! "Bamp"%string = Some (Num Bamp)
          /\ (a97 (202.14 - Bamp) <> 0 ->
              attrs r !! "A"%string = Some (Num A)
              /\ (A <> 0 ->
                  attrs r !! "rate"%string
                  = Some (Num (heating * 1000 / A ^ 2)))))
    /\ (Vpp = None \/ freq = None ->
        attrs r !! "Bamp"%string = Some NaN
        /\ attrs r !! "A"%string = Some NaN
        /\ attrs r !! "rate"%string = Some NaN).
Proof.
  intros Hr. apply analyse_analysed in Hr
    as (_ & _ & _ & _ & Vpp & freq & T & e_T & heating
        & HVpp & Hfreq & HT & _ & Hheating & HBamp & HeBamp & HA & Hrate).
  exists Vpp, freq, T, heating.
  split_and!; try assumption.
  - intros v f -> -> Bamp A.
    split; [exact HBamp |]. intros _. split; [exact HA |]. intros _. exact Hrate.
  - intros [-> | ->].
    + split_and!; [exact HBamp | exact HA | exact Hrate].
    + destruct Vpp; split_and!; first [exact HBamp | exact HA | exact Hrate].
Qed.

Lemma fix_attributes_frame (run r : Run) :
  fix_attributes run = Ok r ->
  data r = data run
  /\ avg_data r = avg_data run
  /\ (forall k, k <> "freq"%string -> k <> "Vpp"%string ->
                attrs r !! k = attrs run !! k).
Proof.
  unfold fix_attributes.
  destruct (fix_attribute run "freq" _) as [r1 | e] eqn:H1; [| discriminate].
  rewrite bind_Ok.
  destruct (fix_attribute r1 "Vpp" _) as [r2 | e] eqn:H2; [| discriminate].
  rewrite bind_Ok.
  apply fix_attribute_frame in H1 as (Hd1 & Ha1 & Hk1).
  apply fix_attribute_frame in H2 as (Hd2 & Ha2 & Hk2).
  assert (Hbase : data r2 = data run /\ avg_data r2 = avg_data run
                  /\ forall k, k <> "freq"%string -> k <> "Vpp"%string ->
                               attrs r2 !! k = attrs run !! k).
  { split_and!; [congruence | congruence |].
    intros k Hf Hv. rewrite (Hk2 k Hv). apply Hk1, Hf. }
  destruct (getattr r2 "date") as [[] | e]; try discriminate.
  rewrite bind_Ok.
  destruct (before_2024_03_01 year month day); [| intros [= <-]; exact Hbase].
  destruct (get_float r2 "Vpp") as [Vpp | e]; [| discriminate].
  rewrite bind_Ok. intros [= <-].
  destruct Hbase as (Hd & Ha & Hk).
  split_and!; [exact Hd | exact Ha |].
  intros k Hf Hv. rewrite lookup_setattr_ne by congruence. apply Hk; assumption.
Qed.

(** X24: the body of the loop over the runs, from the repair of the
    attributes to [run.beta], when it completes: the two frames are as
    before, and so are [param] and [date]; [run.beta] is a number, the
    first cell of the column [beta] of [avg_data] when there is such a
    column and 1.8339e-05 when there is none; and every result of the
    analysis is assigned. *)
Theorem analyse_run_completes_with_beta (run r : Run) :
  analyse_run h deBroglie a97 chi_sq curve_fit run = Ok r ->
  data r = data run
  /\ avg_data r = avg_data run
  /\ attrs r !! "param"%string = attrs run !! "param"%string
  /\ attrs r !! "date"%string = attrs run !! "date"%string
  /\ (exists beta,
        attrs r !! "beta"%string = Some (Num beta)
        /\ (columns (avg_data run) !! "beta"%string = None -> beta = default_beta)
        /\ (forall b col,
              columns (avg_data run) !! "beta"%string = Some (b :: col) ->
              beta = b))
  /\ Forall (fun k => is_Some (attrs r !! k)) result_keys.
Proof.
  unfold analyse_run.
  destruct (fix_attributes run) as [r1 | e] eqn:H1; [| discriminate].
  rewrite bind_Ok.
  destruct (analyse h deBroglie a97 chi_sq curve_fit r1) as [r2 | e] eqn:H2;
    [| discriminate].
  rewrite bind_Ok. intros H3.
  apply fix_attributes_frame in H1 as (Hd1 & Ha1 & Hk1).
  apply analyse_analysed in H2 as (Hd2 & Ha2 & Hk2 & Hset & _).
  assert (Havg : avg_data r2 = avg_data run) by congruence.
  unfold read_beta in H3. rewrite Havg in H3.
  destruct (try_except _ KeyError (Ok default_beta)) as [beta | e] eqn:Hbeta;
    [rewrite bind_Ok in H3 | discriminate].
  apply Ok_inj in H3. subst r.
  split_and!.
  - rewrite data_setattr. congruence.
  - rewrite avg_data_setattr. exact Havg.
  - rewrite lookup_setattr_ne by done.
    rewrite Hk2 by (unfold analysis_keys; not_in_list). apply Hk1; done.
  - rewrite lookup_setattr_ne by done.
    rewrite Hk2 by (unfold analysis_keys; not_in_list). apply Hk1; done.
  - exists beta. split_and!.
    + apply lookup_setattr_eq.
    + intros Hnone. unfold getitem in Hbeta. rewrite Hnone in Hbeta.
      apply try_except_returns in Hbeta as [Hc | [_ ->]];
        [discriminate Hc | reflexivity].
    + intros b col Hcol. unfold getitem in Hbeta. rewrite Hcol in Hbeta.
      apply try_except_returns in Hbeta as [Hc | [Hc _]];
        [| discriminate Hc].
      apply Ok_inj in Hc. symmetry. exact Hc.
  - eapply Forall_impl; [exact Hset |]. cbn beta. intros k Hk.
    destruct (decide (k = "beta"%string)) as [-> | Hne].
    + rewrite lookup_setattr_eq. eexists. reflexivity.
    + rewrite lookup_setattr_ne by congruence. exact Hk.
Qed.

End FitHeatingRatesMore.

(** Instances of the conditional theorems on the runs. *)

(** The run of three points, dated on the leap day of 2024. *)
Definition leap_day_run : FitHeatingRates.Run :=
  FitHeatingRates.setattr Reference.three_points "date"
    (FitHeatingRates.Date 2024 2 29).

Lemma three_points_analyse :
  exists r,
    FitHeatingRates.analyse Reference.h Reference.deBroglie Reference.a97
      Reference.chi_sq Reference.linear_least_squares Reference.three_points = Ok r.
Proof.
  destruct three_points_fitted as [r Hr]. exists r.
  unfold FitHeatingRates.analyse. rewrite three_points_rows.
  rewrite bool_decide_eq_false_2 by lia. exact Hr.
Qed.

Lemma three_points_fix_attributes :
  FitHeatingRates.fix_attributes Reference.three_points = Ok Reference.three_points.
Proof. reflexivity. Qed.

Lemma three_points_analyse_run :
  exists r,
    FitHeatingRates.analyse_run Reference.h Reference.deBroglie Reference.a97
      Reference.chi_sq Reference.linear_least_squares Reference.three_points = Ok r.
Proof.
  destruct three_points_analyse as [r Hr].
  unfold FitHeatingRates.analyse_run.
  rewrite three_points_fix_attributes, bind_Ok, Hr, bind_Ok.
  apply analyse_analysed in Hr as (_ & Havg & _).
  eexists. apply read_beta_missing. rewrite Havg. reflexivity.
Qed.

Lemma fix_attribute_first_column_witness :
  FitHeatingRates.data
    (FitHeatingRates.setattr Reference.old_file_run "freq" (FitHeatingRates.Num 10))
  = FitHeatingRates.data Reference.old_file_run.
Proof.
  apply (fix_attribute_first_column Reference.old_file_run "freq"
           ["freq"; "wigglefreq"; "wiggle freq"]%string).
  reflexivity.
Defined.

Lemma fix_attributes_halves_old_Vpp_witness :
  FitHeatingRates.fix_attributes Reference.three_points = Ok Reference.three_points
  /\ FitHeatingRates.fix_attributes leap_day_run
     = Ok (FitHeatingRates.setattr leap_day_run "Vpp"
             (FitHeatingRates.Num (0.9 / 2))).
Proof.
  split.
  - destruct (fix_attributes_halves_old_Vpp Reference.three_points 10 2024 4 4)
      as [Hmeta _]; [reflexivity | reflexivity | lia |].
    exact (Hmeta 0.9 eq_refl).
  - destruct (fix_attributes_halves_old_Vpp leap_day_run 10 2024 2 29)
      as [Hmeta _]; [reflexivity | reflexivity | lia |].
    exact (Hmeta 0.9 eq_refl).
Defined.

Lemma drive_amplitude_error_witness :
  (FitHeatingRates.Bamp_from_Vpp (Some 0) (Some 10)).1
  = Some (0 * FitHeatingRates.exponential 10 7.42905865e-02 (-1.13381420e+01)
                3.64847614e-03 / 0.9).
Proof.
  apply (drive_amplitude_error Reference.deBroglie Reference.a97
           (Some 0) (Some 10) 1 0).
  - reflexivity.
  - reflexivity.
  - unfold Reference.a97.
    replace (202.14 - 0 * FitHeatingRates.exponential 10 7.42905865e-02
                            (-1.13381420e+01) 3.64847614e-03 / 0.9 - 202.1)
      with 0.04 by lra.
    lra.
  - unfold Reference.deBroglie. rewrite sqrt_1. lra.
Defined.

Lemma analysis_assigns_results_only_witness :
  exists r,
    FitHeatingRates.analyse Reference.h Reference.deBroglie Reference.a97
      Reference.chi_sq Reference.linear_least_squares Reference.three_points = Ok r
    /\ FitHeatingRates.avg_data r = FitHeatingRates.avg_data Reference.three_points.
Proof.
  destruct three_points_analyse as [r Hr]. exists r. split; [exact Hr |].
  apply (analysis_assigns_results_only Reference.h Reference.deBroglie Reference.a97
           Reference.chi_sq Reference.linear_least_squares
           Reference.three_points r Hr).
Defined.

Lemma degrees_of_freedom_witness :
  exists r popt pcov,
    FitHeatingRates.analyse Reference.h Reference.deBroglie Reference.a97
      Reference.chi_sq Reference.linear_least_squares Reference.three_points = Ok r
    /\ FitHeatingRates.attrs r !! "dof"%string
       = Some (FitHeatingRates.Int
                 (Z.of_nat (FitHeatingRates.nrows
                              (FitHeatingRates.avg_data Reference.three_points))
                  - Z.of_nat (length (FitHeatingRates.np_diag pcov))))
    /\ FitHeatingRates.curve_fit_column Reference.linear_least_squares
         Reference.three_points FitHeatingRates.settings_fit
         FitHeatingRates.settings_temp_param = Ok (popt, pcov).
Proof.
  destruct three_points_analyse as [r Hr].
  destruct (degrees_of_freedom Reference.h Reference.deBroglie Reference.a97
              Reference.chi_sq Reference.linear_least_squares
              Reference.three_points r Hr) as [_ Hfit].
  destruct Hfit as (popt & pcov & Hcol & Hdof & _).
  - rewrite three_points_rows. lia.
  - exists r, popt, pcov. split_and!; [exact Hr | exact Hdof | exact Hcol].
Defined.

Lemma scaled_rate_witness :
  exists r (T heating : R),
    FitHeatingRates.analyse Reference.h Reference.deBroglie Reference.a97
      Reference.chi_sq Reference.linear_least_squares Reference.three_points = Ok r
    /\ FitHeatingRates.attrs r !! "T"%string = Some (FitHeatingRates.Num T)
    /\ FitHeatingRates.attrs r !! "heating"%string
       = Some (FitHeatingRates.Num heating).
Proof.
  destruct three_points_analyse as [r Hr].
  destruct (scaled_rate Reference.h Reference.deBroglie Reference.a97
              Reference.chi_sq Reference.linear_least_squares
              Reference.three_points r Hr)
    as (Vpp & freq & T & heating & _ & _ & HT & Hheating & _).
  exists r, T, heating. split_and!; [exact Hr | exact HT | exact Hheating].
Defined.

Lemma analyse_run_completes_with_beta_witness :
  exists r beta,
    FitHeatingRates.analyse_run Reference.h Reference.deBroglie Reference.a97
      Reference.chi_sq Reference.linear_least_squares Reference.three_points = Ok r
    /\ FitHeatingRates.attrs r !! "beta"%string = Some (FitHeatingRates.Num beta).
Proof.
  destruct three_points_analyse_run as [r Hr].
  destruct (analyse_run_completes_with_beta
              Reference.h Reference.deBroglie Reference.a97
              Reference.chi_sq Reference.linear_least_squares
              Reference.three_points r Hr)
    as (_ & _ & _ & _ & (beta & Hbeta & _) & _).
  exists r, beta. split; [exact Hr | exact Hbeta].
Defined.
